(** * craft: the template merge policy of `index.js`, embedded in Rocq

    The repository holds several revisions of its single program `index.js`.
    Two of them carry a Spec (a map from relative paths to directives):
    - the revision that reads the line-oriented `craft.spec` (module
      [SpecFile] below), and
    - the revision that reads `craft.yaml` / `craft.yml` (module [Yaml]).
    The delete, copy and manifest stages are the same text in both, up to
    the two differences spelled out at [already_installed] and
    [merge_manifests]; the merge of the earlier revision kept in `index.js`,
    which has no Spec yet, reads like that of the `craft.spec` revision.

    Conventions of the embedding.
    - A JavaScript string is a [string]: a sequence of 8-bit code units.
    - A Spec is a [gmap string string] holding the own properties of the
      JavaScript object; reading a property also looks at [Object.prototype],
      as the source's [obj.spec[file]] does.
    - A manifest or a parsed configuration is a [value]: the data a JSON or
      YAML parser builds, objects keeping their own properties in
      property order.
    - Console output, subprocesses and file-system calls are [event]s of a
      run; what the outside world answers is read from a [world]. *)

From Stdlib Require Import ZArith NArith Ascii DecimalString.
From Stdlib Require String.
From stdpp Require Import gmap strings list.

Local Open Scope Z_scope.
Local Open Scope stdpp_scope.

(** ** The JavaScript fragment the program relies on *)

Module Js.

Definition LF : ascii := "010"%char.
Definition CR : ascii := "013"%char.
Definition TAB : ascii := "009"%char.
Definition ESC : ascii := "027"%char.
Definition QUOTE : ascii := "034"%char.

(** [s.replace(/c/g, r)] for a one-character pattern [c] and a
    replacement [r] without [$]. *)
Fixpoint replace_all (c : ascii) (r : string) (s : string) : string :=
  match s with
  | EmptyString => EmptyString
  | String a s' =>
      if Ascii.eqb a c then r +:+ replace_all c r s'
      else String a (replace_all c r s')
  end.

(** [s.substring(n)]. *)
Fixpoint substring_from (n : nat) (s : string) : string :=
  match n, s with
  | O, _ => s
  | S n', String _ s' => substring_from n' s'
  | S _, EmptyString => EmptyString
  end.

(** [l.join(sep)]. *)
Fixpoint join (sep : string) (l : list string) : string :=
  match l with
  | [] => EmptyString
  | [x] => x
  | x :: l' => x +:+ sep +:+ join sep l'
  end.

Fixpoint contains_char (c : ascii) (s : string) : bool :=
  match s with
  | EmptyString => false
  | String a s' => Ascii.eqb a c || contains_char c s'
  end.

(** [s.charAt(0)], the empty string when [s] is empty. *)
Definition charAt0 (s : string) : string :=
  match s with
  | EmptyString => EmptyString
  | String a _ => String a EmptyString
  end.

(** [s.split(/\r?\n/)]: every line feed ends a piece and takes a carriage
    return standing right before it along; any other carriage return
    stays in its piece. The result is never empty. *)
Fixpoint split_lines (s : string) : list string :=
  match s with
  | EmptyString => [EmptyString]
  | String a s' =>
      if Ascii.eqb a LF then EmptyString :: split_lines s'
      else
        match s' with
        | String b _ =>
            if Ascii.eqb a CR && Ascii.eqb b LF then split_lines s'
            else
              match split_lines s' with
              | l :: ls => String a l :: ls
              | [] => [String a EmptyString]
              end
        | EmptyString => [String a EmptyString]
        end
  end.

(** The characters the regular expression dot refuses. *)
Definition is_line_terminator (a : ascii) : bool :=
  Ascii.eqb a LF || Ascii.eqb a CR.

Fixpoint has_line_terminator (s : string) : bool :=
  match s with
  | EmptyString => false
  | String a s' => is_line_terminator a || has_line_terminator s'
  end.

(** The names every plain object inherits from [Object.prototype]. *)
Definition object_prototype_names : list string :=
  [ "constructor"; "__defineGetter__"; "__defineSetter__"; "hasOwnProperty";
    "__lookupGetter__"; "__lookupSetter__"; "isPrototypeOf";
    "propertyIsEnumerable"; "toString"; "valueOf"; "__proto__";
    "toLocaleString" ].

(** What [o[k]] yields on a plain object whose own properties are all
    strings. *)
Inductive property : Type :=
| undefined
| own (s : string)
| inherited (name : string).

Definition get (o : gmap string string) (k : string) : property :=
  match o !! k with
  | Some s => own s
  | None => if bool_decide (k ∈ object_prototype_names) then inherited k else undefined
  end.

(** [o[k] = s] for a string [s]: an own data property, save for
    [__proto__], whose inherited setter ignores a value that is not an
    object. *)
Definition set (k : string) (s : string) (o : gmap string string) : gmap string string :=
  if bool_decide (k = "__proto__") then o else <[k := s]> o.

(** Truthiness of a property read: only [undefined] and the empty string
    are falsy here. *)
Definition truthy (r : property) : bool :=
  match r with
  | undefined => false
  | own s => negb (bool_decide (s = EmptyString))
  | inherited _ => true
  end.

(** [r === s] and [r !== s] against a string literal. *)
Definition strict_eq (r : property) (s : string) : bool :=
  match r with
  | own s' => bool_decide (s' = s)
  | _ => false
  end.


(** *** Data values

    What [JSON.parse] and the YAML loader build. A number is carried by
    its [Number.prototype.toString] rendering, which is all the program
    observes of it. An array element is [None] once [delete] has left a
    hole there; parsers build no holes. An object lists its own
    properties in property order; should a key occur twice, the later
    occurrence is the property's value. *)
#[warnings="-register-all"]
Inductive value : Type :=
| VUndef
| VNull
| VBool (b : bool)
| VNum (repr : string)
| VStr (s : string)
| VArr (items : list (option value))
| VObj (props : list (string * value)).

(** [ToBoolean]. *)
Definition truthy_value (v : value) : bool :=
  match v with
  | VUndef | VNull => false
  | VBool b => b
  | VNum r => negb (bool_decide (r = "0")) && negb (bool_decide (r = "NaN"))
  | VStr s => negb (bool_decide (s = EmptyString))
  | VArr _ | VObj _ => true
  end.

(** [a || b]. *)
Definition or_else (a b : value) : value := if truthy_value a then a else b.

(** The cases of [typeof] the program tells apart. *)
Definition typeof (v : value) : string :=
  match v with
  | VUndef => "undefined"
  | VBool _ => "boolean"
  | VNum _ => "number"
  | VStr _ => "string"
  | VNull | VArr _ | VObj _ => "object"
  end.

Definition isArray (v : value) : bool :=
  match v with VArr _ => true | _ => false end.

Definition string_of_nat (n : nat) : string :=
  NilEmpty.string_of_uint (Nat.to_uint n).

Definition digit_of (a : ascii) : option N :=
  let n := N_of_ascii a in
  if ((48 <=? n) && (n <=? 57))%N then Some (n - 48)%N else None.

Fixpoint parse_digits (acc : N) (s : string) : option N :=
  match s with
  | EmptyString => Some acc
  | String a s' =>
      match digit_of a with
      | Some d => parse_digits (10 * acc + d)%N s'
      | None => None
      end
  end.

(** A key is an array index when it is the canonical decimal rendering
    of an integer below 2^32 - 1. *)
Definition array_index (k : string) : option N :=
  match k with
  | EmptyString => None
  | String a s' =>
      if Ascii.eqb a "0"%char && negb (bool_decide (s' = EmptyString)) then None
      else
        match parse_digits 0%N k with
        | Some n => if (n <? 4294967295)%N then Some n else None
        | None => None
        end
  end.

(** The value of own property [k] of a property list. *)
Fixpoint own_lookup (k : string) (ps : list (string * value)) : option value :=
  match ps with
  | [] => None
  | (k', v) :: ps' =>
      match own_lookup k ps' with
      | Some w => Some w
      | None => if bool_decide (k' = k) then Some v else None
      end
  end.

Definition has_own (k : string) (ps : list (string * value)) : bool :=
  bool_decide (is_Some (own_lookup k ps)).

(** Overwrite own property [k] where it stands. *)
Definition overwrite (k : string) (v : value) (ps : list (string * value))
  : list (string * value) :=
  List.map (fun kv => if bool_decide (kv.1 = k) then (k, v) else kv) ps.

(** A new array-index key goes before the first key that is a larger
    index or no index at all. *)
Fixpoint insert_index (i : N) (k : string) (v : value) (ps : list (string * value))
  : list (string * value) :=
  match ps with
  | [] => [(k, v)]
  | (k', v') :: ps' =>
      match array_index k' with
      | Some j => if (i <? j)%N then (k, v) :: ps else (k', v') :: insert_index i k v ps'
      | None => (k, v) :: ps
      end
  end.

(** Create or overwrite own data property [k]: an existing key keeps its
    place, a new array index is sorted in among the indices, any other
    new key goes last. *)
Definition define (k : string) (v : value) (ps : list (string * value))
  : list (string * value) :=
  if has_own k ps then overwrite k v ps
  else
    match array_index k with
    | Some i => insert_index i k v ps
    | None => ps ++ [(k, v)]
    end.

Fixpoint indexed_from {A : Type} (i : nat) (l : list A) : list (string * A) :=
  match l with
  | [] => []
  | x :: l' => (string_of_nat i, x) :: indexed_from (S i) l'
  end.

Fixpoint chars (s : string) : list value :=
  match s with
  | EmptyString => []
  | String a s' => VStr (String a EmptyString) :: chars s'
  end.

(** The own enumerable string-keyed properties of [ToObject(v)], with
    their values, in [Object.keys] order: the characters of a string, the
    elements of an array that are not holes, the properties of an object;
    none for a boolean or a number. [Object.assign] takes [undefined] and
    [null] sources as having none. *)
Definition own_props (v : value) : list (string * value) :=
  match v with
  | VUndef | VNull | VBool _ | VNum _ => []
  | VStr s => indexed_from 0 (chars s)
  | VArr items =>
      omap (fun kv : string * option value => (fun x => (kv.1, x)) <$> kv.2)
           (indexed_from 0 items)
  | VObj ps => ps
  end.

(** The value of own property [k] of [ToObject(v)], if there is one. *)
Definition field (v : value) (k : string) : option value := own_lookup k (own_props v).

(** [Object.keys(v)] for a [v] that is neither [undefined] nor [null]. *)
Definition keys (v : value) : list string := (own_props v).*1.

(** [v.k] or [v[k]] for a key [k] that is neither [length] nor a member of
    a built-in prototype: [None] is the [TypeError] of reading a property
    of [undefined] or [null]. *)
Definition get_prop (v : value) (k : string) : option value :=
  match v with
  | VUndef | VNull => None
  | _ => Some (default VUndef (field v k))
  end.

(** [ToString], as a template literal applies it. An array joins its
    elements with commas, [null], [undefined] and holes giving the empty
    string. A plain object gives [[object Object]] through the inherited
    [toString]; an own [toString] property, which data never makes
    callable, leaves only [valueOf], which cannot yield a primitive
    either: [None] is that [TypeError]. *)
Fixpoint to_string (v : value) : option string :=
  match v with
  | VUndef => Some "undefined"
  | VNull => Some "null"
  | VBool true => Some "true"
  | VBool false => Some "false"
  | VNum r => Some r
  | VStr s => Some s
  | VArr items =>
      (fix go (l : list (option value)) : option string :=
         match l with
         | [] => Some EmptyString
         | x :: l' =>
             match (match x with
                    | None | Some VUndef | Some VNull => Some EmptyString
                    | Some w => to_string w
                    end) with
             | None => None
             | Some sx =>
                 match l' with
                 | [] => Some sx
                 | _ :: _ =>
                     match go l' with
                     | Some sl => Some (sx +:+ "," +:+ sl)
                     | None => None
                     end
                 end
             end
         end) items
  | VObj ps => if has_own "toString" ps then None else Some "[object Object]"
  end.

(** *** [Object.assign] into a fresh object

    The target starts as [{}]. Writing a key creates or overwrites an own
    data property, with one exception: as long as the target has no own
    [__proto__] property and its prototype chain still reaches
    [Object.prototype] without meeting a data property of that name, writing
    [__proto__] runs the inherited setter. The setter replaces the target's
    prototype when the value is an object or [null] and does nothing
    otherwise; no own property appears. [t_setter] records whether the
    setter is still reached. *)
Record target : Type := { t_props : list (string * value); t_setter : bool }.

Definition fresh : target := {| t_props := []; t_setter := true |}.

Definition assign_prop (t : target) (kv : string * value) : target :=
  if bool_decide (kv.1 = "__proto__") && negb (has_own kv.1 (t_props t)) && t_setter t
  then
    match kv.2 with
    | VObj ps => {| t_props := t_props t; t_setter := negb (has_own "__proto__" ps) |}
    | VNull => {| t_props := t_props t; t_setter := false |}
    | _ => t
    end
  else {| t_props := define kv.1 kv.2 (t_props t); t_setter := t_setter t |}.

Definition assign_source (t : target) (source : value) : target :=
  foldl assign_prop t (own_props source).

(** [Object.assign({}, s1, ..., sn)]. *)
Definition assign (sources : list value) : value :=
  VObj (t_props (foldl assign_source fresh sources)).

(** *** [delete v[k]] in strict mode

    [None] is a [TypeError]: [v] is [undefined] or [null], or the property
    is not configurable (the [length] and the characters of a string, the
    [length] of an array). Deleting an array element leaves a hole;
    deleting from the wrapper of a primitive leaves the primitive as it
    was. *)
Definition delete_prop (k : string) (v : value) : option value :=
  match v with
  | VUndef | VNull => None
  | VBool _ | VNum _ => Some v
  | VStr s =>
      if bool_decide (k = "length") then None
      else
        match array_index k with
        | Some i => if (i <? N.of_nat (String.length s))%N then None else Some v
        | None => Some v
        end
  | VArr items =>
      if bool_decide (k = "length") then None
      else
        match array_index k with
        | Some i => Some (VArr (<[N.to_nat i := None]> items))
        | None => Some v
        end
  | VObj ps => Some (VObj (filter (fun kv : string * value => kv.1 ≠ k) ps))
  end.

(** *** [JSON.stringify(v, null, gap)] *)

Definition hex_digit (n : N) : ascii :=
  match String.get (N.to_nat n) "0123456789abcdef" with
  | Some a => a
  | None => "0"%char
  end.

Definition quote_char (a : ascii) : string :=
  let n := N_of_ascii a in
  if Ascii.eqb a QUOTE then String "\"%char (String QUOTE EmptyString)
  else if Ascii.eqb a "\"%char then "\\"
  else if (n =? 8)%N then "\b"
  else if (n =? 9)%N then "\t"
  else if (n =? 10)%N then "\n"
  else if (n =? 12)%N then "\f"
  else if (n =? 13)%N then "\r"
  else if (n <? 32)%N then "\u00" +:+ String (hex_digit (n / 16)) (String (hex_digit (n mod 16)) EmptyString)
  else String a EmptyString.

Fixpoint quote_body (s : string) : string :=
  match s with
  | EmptyString => EmptyString
  | String a s' => quote_char a +:+ quote_body s'
  end.

(** [QuoteJSONString]. *)
Definition quote (s : string) : string :=
  String QUOTE (quote_body s +:+ String QUOTE EmptyString).

Definition NL : string := String LF EmptyString.

Definition bracket (opening closing indent inner : string) (parts : list string) : string :=
  match parts with
  | [] => opening +:+ closing
  | _ :: _ =>
      opening +:+ NL +:+ inner +:+ join ("," +:+ NL +:+ inner) parts
      +:+ NL +:+ indent +:+ closing
  end.

(** [SerializeJSONProperty] at indentation [indent] for a non-empty [gap]:
    [None] is [undefined], which drops a property and prints as [null] in an
    array. A number that is not finite prints as [null]. *)
Fixpoint serialize (gap indent : string) (v : value) : option string :=
  match v with
  | VUndef => None
  | VNull => Some "null"
  | VBool true => Some "true"
  | VBool false => Some "false"
  | VNum r =>
      Some (if bool_decide (r ∈ ["NaN"; "Infinity"; "-Infinity"]) then "null" else r)
  | VStr s => Some (quote s)
  | VArr items =>
      Some (bracket "[" "]" indent (indent +:+ gap)
              (List.map (fun x : option value =>
                           match x with
                           | Some w => default "null" (serialize gap (indent +:+ gap) w)
                           | None => "null"
                           end) items))
  | VObj ps =>
      Some (bracket "{" "}" indent (indent +:+ gap)
              (omap (fun kv : string * value =>
                       match serialize gap (indent +:+ gap) kv.2 with
                       | Some s => Some (quote kv.1 +:+ ": " +:+ s)
                       | None => None
                       end) ps))
  end.

(** [JSON.stringify(v, null, n)] for [1 <= n <= 10]. *)
Definition stringify (v : value) (n : nat) : option string :=
  serialize (String.string_of_list_ascii (replicate n " "%char)) EmptyString v.

End Js.

(** ** Host conventions: path separator and terminal colours *)

Inductive platform : Type := posix | win32.

Definition sep_char (p : platform) : ascii :=
  match p with
  | posix => "/"%char
  | win32 => "\"%char
  end.

(** [path.sep]. *)
Definition path_sep (p : platform) : string := String (sep_char p) EmptyString.

(** [path.join(dir, rel)] for a normalised [dir] that is not a file-system
    root and a relative [rel] without [.] or [..] segments, the only way the
    program calls it on a path it later takes apart again. *)
Definition path_join (p : platform) (dir rel : string) : string :=
  dir +:+ path_sep p +:+ rel.

Inductive colour : Type := red | green | cyan | magenta.

Definition sgr (c : colour) : string :=
  match c with
  | red => "31"
  | green => "32"
  | cyan => "36"
  | magenta => "35"
  end.

(** [chalk.<colour>(s)] on a colour terminal. *)
Definition chalk (c : colour) (s : string) : string :=
  String Js.ESC ("[" +:+ sgr c +:+ "m") +:+ s +:+ String Js.ESC "[39m".

(** ** The Spec *)

(** The tokens a configuration may use. *)
Definition directives : list string := ["ignore"; "delete"; "replace"].

(** [directives.includes(d)]. *)
Definition includes (l : list string) (d : string) : bool := bool_decide (d ∈ l).

(** A file as the program meets it: not there, there but failing to be read
    or parsed, or yielding its content. *)
Inductive file (A : Type) : Type :=
| absent
| unreadable
| content (a : A).
Arguments absent {A}.
Arguments unreadable {A}.
Arguments content {A} a.

(** [fs.existsSync]. *)
Definition existsSync {A : Type} (f : file A) : bool :=
  match f with absent => false | _ => true end.

(** ** The revision reading [craft.spec] *)

Module SpecFile.

Definition defaultSpec : gmap string string :=
  list_to_map
    [ ("node_modules", "ignore"); ("package.json", "merge");
      ("package-lock.json", "ignore"); ("craft.spec", "ignore");
      (".git", "ignore") ].

Definition specFile : string := "craft.spec".

(** The text before the first colon and the text after it. *)
Fixpoint split_colon (s : string) : option (string * string) :=
  match s with
  | EmptyString => None
  | String a s' =>
      if Ascii.eqb a ":"%char then Some (EmptyString, s')
      else
        match split_colon s' with
        | Some (p, r) => Some (String a p, r)
        | None => None
        end
  end.

(** Drop the leading blanks and tabs. *)
Fixpoint skip_blanks (s : string) : string :=
  match s with
  | String a s' =>
      if Ascii.eqb a " "%char || Ascii.eqb a Js.TAB then skip_blanks s' else s
  | EmptyString => EmptyString
  end.

(** The regular expression match of [readSpec] on one line, giving its two
    groups: a lazy run of any characters, a colon, a greedy run of blanks
    and tabs, a greedy run of any characters, anchored at both ends. The
    dot takes no line terminator and neither anchor is multi-line, so a
    line holding a carriage return does not match; otherwise the first
    group stops at the first colon and the blank run takes every blank
    after it. *)
Definition exec_line (line : string) : option (string * string) :=
  if Js.has_line_terminator line then None
  else
    match split_colon line with
    | Some (filePath, rest) => Some (filePath, skip_blanks rest)
    | None => None
    end.

(** The body of the [forEach] over the lines: the Spec and the console
    lines written so far. *)
Definition read_line (p : platform) (st : gmap string string * list string) (line : string)
  : gmap string string * list string :=
  if bool_decide (Js.charAt0 line = "#") then st
  else
    match exec_line line with
    | Some (filePath, directive) =>
        if includes directives directive then
          let platformPath := Js.replace_all "/"%char (path_sep p) filePath in
          (Js.set platformPath directive st.1, st.2)
        else
          (st.1, st.2 ++ ["Invalid directive for file " +:+ filePath +:+ ": "
                            +:+ chalk red directive +:+ "."])
    | None => st
    end.

(** [readSpec(templateDir)], given what [craft.spec] is in the template:
    the Spec returned and the console lines written. *)
Definition readSpec (p : platform) (f : file string) : gmap string string * list string :=
  match f with
  | absent => (defaultSpec, [])
  | unreadable =>
      (defaultSpec,
       [ "Using template specification from " +:+ specFile +:+ ".";
         chalk red ("Failed to read " +:+ specFile +:+ ". Using defaults.") ])
  | content text =>
      foldl (read_line p)
        (defaultSpec, ["Using template specification from " +:+ specFile +:+ "."])
        (Js.split_lines text)
  end.

(** The entry a line of [craft.spec] supplies, as written: a line that is
    no comment, matches, and names a recognised directive. *)
Definition entry_of_line (line : string) : option (string * string) :=
  if bool_decide (Js.charAt0 line = "#") then None
  else
    match exec_line line with
    | Some (filePath, directive) =>
        if includes directives directive then Some (filePath, directive) else None
    | None => None
    end.

Definition entries (text : string) : list (string * string) :=
  omap entry_of_line (Js.split_lines text).

End SpecFile.

(** ** The revision reading [craft.yaml] or [craft.yml] *)

Module Yaml.

Definition defaultSpec : gmap string string :=
  list_to_map
    [ ("node_modules", "ignore"); ("package.json", "merge");
      ("package-lock.json", "ignore"); ("craft.yaml", "ignore");
      ("craft.yml", "ignore"); (".git", "ignore") ].

(** The state of [normalizeConfig]: the console lines written, and the
    Spec under construction, [None] once a [TypeError] was thrown. *)
Definition state : Type := list string * option (gmap string string).

(** [add(directive, value)]. *)
Definition add (p : platform) (directive : string) (st : state) (value : Js.value) : state :=
  match st.2 with
  | None => st
  | Some spec =>
      if bool_decide (Js.typeof value ∈ ["string"; "number"; "boolean"]) then
        let filePath :=
          Js.replace_all "/"%char (path_sep p) (default EmptyString (Js.to_string value)) in
        (st.1, Some (Js.set filePath directive spec))
      else
        match Js.to_string value with
        | Some shown =>
            (st.1 ++ ["Invalid value for directive " +:+ chalk red directive +:+ ": "
                        +:+ shown +:+ "."], Some spec)
        | None => (st.1, None)
        end
  end.

(** The body of the [forEach] over [Object.keys(config.spec)]. *)
Definition add_directive (p : platform) (config_spec : Js.value) (st : state) (directive : string)
  : state :=
  match st.2 with
  | None => st
  | Some spec =>
      if includes directives directive then
        let value := default Js.VUndef (Js.get_prop config_spec directive) in
        match value with
        | Js.VArr items => foldl (add p directive) st (omap id items)
        | _ => add p directive st value
        end
      else (st.1 ++ ["Invalid directive: " +:+ chalk red directive +:+ "."], Some spec)
  end.

(** [normalizeConfig(config)]: the console lines, and the Spec of the
    [{ spec }] returned or [None] for a [TypeError]. The default parameter
    turns an [undefined] argument into [{}]. *)
Definition normalizeConfig (p : platform) (config : Js.value) : state :=
  let config := match config with Js.VUndef => Js.VObj [] | _ => config end in
  match Js.get_prop config "spec" with
  | None => ([], None)
  | Some config_spec =>
      if Js.truthy_value config_spec
      then foldl (add_directive p config_spec) ([], Some defaultSpec) (Js.keys config_spec)
      else ([], Some defaultSpec)
  end.

(** [readConfig(templateDir)], given what [craft.yaml] and [craft.yml] are
    in the template and what [yaml.safeLoad] makes of them: the console
    lines, and the [spec] property of the object returned, [None] when that
    object is [{}]. *)
Definition readConfig (p : platform) (yaml yml : file Js.value) : state :=
  let chosen :=
    if existsSync yaml then Some ("craft.yaml", yaml)
    else if existsSync yml then Some ("craft.yml", yml)
    else None in
  match chosen with
  | None => ([], None)
  | Some (configFile, f) =>
      let banner := "Using craft configuration from " +:+ configFile +:+ "." in
      let failed := chalk red ("Failed to read " +:+ configFile +:+ ". Using defaults.") in
      match f with
      | content loaded =>
          match normalizeConfig p loaded with
          | (lines, Some spec) => (banner :: lines, Some spec)
          | (lines, None) => (banner :: lines ++ [failed; "TypeError"], None)
          end
      | _ => ([banner; failed; "Error"], None)
      end
  end.

(** The entry a value under a recognised directive supplies, as written:
    the value must be a string, a number or a boolean. *)
Definition entry_of_value (directive : string) (value : Js.value) : option (string * string) :=
  if bool_decide (Js.typeof value ∈ ["string"; "number"; "boolean"])
  then Some (default EmptyString (Js.to_string value), directive)
  else None.

Definition entries_of_directive (config_spec : Js.value) (directive : string)
  : list (string * string) :=
  if includes directives directive then
    match default Js.VUndef (Js.get_prop config_spec directive) with
    | Js.VArr items => omap (entry_of_value directive) (omap id items)
    | value => option_list (entry_of_value directive value)
    end
  else [].

(** The entries a loaded configuration supplies, in the order they are
    read. *)
Definition entries (config : Js.value) : list (string * string) :=
  match config with
  | Js.VUndef | Js.VNull => []
  | _ =>
      let config_spec := default Js.VUndef (Js.get_prop config "spec") in
      if Js.truthy_value config_spec
      then concat (entries_of_directive config_spec <$> Js.keys config_spec)
      else []
  end.

(** The file [readConfig] settles on. *)
Definition chosen (yaml yml : file Js.value) : file Js.value :=
  if existsSync yaml then yaml else yml.

End Yaml.

(** ** Entries and defaults, for stating what a Spec holds *)

(** The directive of the last entry written for [path], if any. *)
Fixpoint last_directive (path : string) (entries : list (string * string)) : option string :=
  match entries with
  | [] => None
  | (path', directive) :: entries' =>
      match last_directive path entries' with
      | Some d => Some d
      | None => if bool_decide (path' = path) then Some directive else None
      end
  end.

(** A path relative to the template that lies below a top-level entry:
    it holds a separator. *)
Definition nested (p : platform) (rel : string) : bool := Js.contains_char (sep_char p) rel.

(** A path that holds neither a slash nor a backslash, as the paths of the
    default mappings do. *)
Definition plain (path : string) : bool :=
  negb (Js.contains_char "/"%char path) && negb (Js.contains_char "\"%char path).

(** The entries with their paths rewritten to the host separator. *)
Definition normalized (p : platform) (entries : list (string * string))
  : list (string * string) :=
  (fun e : string * string => (Js.replace_all "/"%char (path_sep p) e.1, e.2)) <$> entries.

(** Writing entries into a Spec one after the other, each path rewritten
    to the host separator. *)
Definition apply_entries (p : platform) (entries : list (string * string))
    (s : gmap string string) : gmap string string :=
  foldl (fun s e => Js.set (Js.replace_all "/"%char (path_sep p) e.1) e.2 s) s entries.

(** ** The run: events, outcomes and the outside world *)

Inductive revision : Type := craft_spec | craft_yaml.

(** What a run does to the outside, in the order it does it. *)
Inductive event : Type :=
| Log (line : string)
| Spawn (command : string) (args : list string)
| Remove (target : string)
| Copy (src dest : string)
| Chdir (dir : string)
| WriteFile (path text : string)
| Cleanup.

Inductive error : Type :=
| TypeError
| ReferenceError (name : string)
| SystemError.

(** What a promise of the chain is rejected with. *)
Inductive reason : Type :=
| failed_command (command : string)
| thrown (e : error).

(** How a stage ends: its promise resolves, its promise is rejected, or an
    exception escapes from an event listener, which no promise sees and
    which ends the process. *)
Inductive outcome (A : Type) : Type :=
| resolved (a : A)
| rejected (r : reason)
| uncaught (e : error).
Arguments resolved {A} a.
Arguments rejected {A} r.
Arguments uncaught {A} e.

Definition M (A : Type) : Type := list event * outcome A.

#[global] Instance M_ret : MRet M := fun A a => ([], resolved a).

#[global] Instance M_bind : MBind M := fun A B f m =>
  match m.2 with
  | resolved a => (m.1 ++ (f a).1, (f a).2)
  | rejected r => (m.1, rejected r)
  | uncaught e => (m.1, uncaught e)
  end.

Definition emit (es : list event) : M unit := (es, resolved tt).
Definition throw {A : Type} (e : error) : M A := ([], rejected (thrown e)).
Definition reject {A : Type} (r : reason) : M A := ([], rejected r).

(** A [TypeError] thrown by an operation of [Js]. *)
Definition lift {A : Type} (o : option A) : M A :=
  match o with
  | Some a => mret a
  | None => throw TypeError
  end.

(** A file read and parsed, throwing when that fails. *)
Definition read {A : Type} (o : option A) : M A :=
  match o with
  | Some a => mret a
  | None => throw SystemError
  end.

(** The object handed from stage to stage: [spec] is [None] while the
    object has no such property. *)
Record context : Type := { tmpdir : string; spec : option (gmap string string) }.

(** The answers of the outside world to one run. An exit code is [None]
    when the child was ended by a signal. *)
Record world : Type := {
  host : platform;
  projectName : string;
  projectTemplate : string;
  root : string;
  npx : bool;
  createApp_exit : option Z;
  tmp_dir : option string;
  clone_exit : option Z;
  craft_spec_file : file string;
  craft_yaml_file : file Js.value;
  craft_yml_file : file Js.value;
  present : string -> bool;
  remove_error : string -> bool;
  template_entries : option (list string);
  copy_error : string -> bool;
  template_manifest : option Js.value;
  baseline_manifest : option Js.value;
  install_exit : option Z;
  baseline_manifest_after : option Js.value
}.

(** [code !== 0] is false. *)
Definition exited_ok (code : option Z) : bool := bool_decide (code = Some 0).

(** [fs.remove] of fs-extra reports an error to its callback or not; a
    path that does not exist is no error, as that library documents. *)
Definition remove_fails (w : world) (target : string) : bool :=
  present w target && remove_error w target.

Module Craft.

(** The value an identifier is bound to in a lexical scope, innermost
    binding first. *)
Fixpoint binding (name : string) (scope : list (string * string)) : option string :=
  match scope with
  | [] => None
  | (name', value) :: scope' =>
      if String.eqb name' name then Some value else binding name scope'
  end.

(** Rejecting with [{ command: `${command} ${args.join(' ')}` }], where
    [scope] holds the string constants in lexical scope at that point. An
    identifier with no binding throws a [ReferenceError]; all three sites
    sit in a listener of the child's [close] event. *)
Definition reject_failed {A : Type} (scope : list (string * string)) (args : list string) : M A :=
  match binding "command" scope with
  | Some command => reject (failed_command (command +:+ " " +:+ Js.join " " args))
  | None => ([], uncaught (ReferenceError "command"))
  end.

Definition createApp (w : world) : M unit :=
  let command := if npx w then "npx" else "create-react-app" in
  let args := if npx w then ["create-react-app"; projectName w] else [projectName w] in
  emit [Spawn command args];;
  if exited_ok (createApp_exit w) then mret tt
  else reject_failed [("command", command)] args.

(** [readSpec] or [readConfig] on the clone. *)
Definition load (r : revision) (w : world) : list string * option (gmap string string) :=
  match r with
  | craft_spec =>
      let result := SpecFile.readSpec (host w) (craft_spec_file w) in
      (result.2, Some result.1)
  | craft_yaml => Yaml.readConfig (host w) (craft_yaml_file w) (craft_yml_file w)
  end.

(** The first [then]: the scratch directory and the clone. A failed clone
    rejects and, having no [return], still loads the configuration; the
    later [resolve] is then without effect. *)
Definition clone (r : revision) (w : world) : M context :=
  emit [Log EmptyString; Log (chalk magenta "Applying custom template..."); Log EmptyString];;
  dir ← read (tmp_dir w);
  let command := "git" in
  let args := ["clone"; projectTemplate w; dir] in
  emit [Spawn command args];;
  (if exited_ok (clone_exit w) then mret tt
   else (Log <$> (load r w).1, (reject_failed [("command", command)] args).2));;
  emit (Log <$> (load r w).1);;
  mret {| tmpdir := dir; spec := (load r w).2 |}.

(** [Object.keys(obj.spec).filter(file => obj.spec[file] === 'delete')];
    the map does not keep the order of the keys. *)
Definition delete_files (s : gmap string string) : list string :=
  List.filter (fun file => Js.strict_eq (Js.get s file) "delete") (map_to_list s).*1.

(** The deletions are started in one go and their callbacks run later, in
    an order the model fixes as the starting order. *)
Definition delete (w : world) (obj : context) : M context :=
  emit [Log EmptyString; Log "Deleting files..."];;
  s ← lift (spec obj);
  let files := delete_files s in
  emit ((fun file => Remove (path_join (host w) (root w) file)) <$> files);;
  emit ((fun file =>
           Log (if remove_fails w (path_join (host w) (root w) file)
                then chalk red ("! " +:+ file) else "- " +:+ file)) <$> files);;
  mret obj.

Definition skip (s : gmap string string) (file : string) : bool :=
  let directive := Js.get s file in
  Js.truthy directive && negb (Js.strict_eq directive "replace").

(** The [filter] option given to [fs.copy], which calls it with each source
    path it is about to copy. *)
Definition filter (s : gmap string string) (tmpdir : string) (src : string) : bool :=
  let prefixLength := (String.length tmpdir + 1)%nat in
  negb (skip s (Js.substring_from prefixLength src)).

(** The top-level entries handed to [fs.copy]. *)
Definition copy_files (s : gmap string string) (files : list string) : list string :=
  List.filter (fun file => negb (skip s file)) files.

Definition copy (w : world) (obj : context) : M context :=
  emit [Log EmptyString; Log "Copying files..."];;
  files ← read (template_entries w);
  copied ← lift (match spec obj, files with
                 | Some s, _ => Some (copy_files s files)
                 | None, [] => Some []
                 | None, _ :: _ => None
                 end);
  emit ((fun file => Copy (path_join (host w) (tmpdir obj) file)
                          (path_join (host w) (root w) file)) <$> copied);;
  emit ((fun file =>
           Log (if copy_error w (path_join (host w) (tmpdir obj) file)
                then chalk red ("! " +:+ file) else "+ " +:+ file)) <$> copied);;
  mret obj.

(** [`${key}@${dependencies[key]}`] for each key of [dependencies]. *)
Definition packages (dependencies : Js.value) : option (list string) :=
  mapM (fun kv : string * Js.value =>
          match Js.to_string kv.2 with
          | Some version => Some (kv.1 +:+ "@" +:+ version)
          | None => None
          end) (Js.own_props dependencies).

Definition install_args (dependencies : Js.value) : option (list string) :=
  match packages dependencies with
  | Some ps => Some (["install"; "--save"; "--loglevel"; "error"] ++ ps)
  | None => None
  end.

(** [install(dependencies)]: no [command] is in scope of its listener. *)
Definition install (w : world) (dependencies : Js.value) : M unit :=
  args ← lift (install_args dependencies);
  emit [Spawn "npm" args];;
  if exited_ok (install_exit w) then mret tt
  else reject_failed [] args.

Definition installedDependencies : list string := ["react"; "react-dom"; "react-scripts"].

(** [keys.forEach(key => { delete dependencies[key]; })]. *)
Definition prune (keys : list string) (dependencies : Js.value) : option Js.value :=
  foldl (fun acc key => acc ≫= Js.delete_prop key) (Some dependencies) keys.

(** The names to leave out of the installation: a fixed list in the
    [craft.spec] revision, the dependencies of the generated manifest in
    the [craft.yaml] revision. *)
Definition already_installed (r : revision) (w : world) : M (list string) :=
  match r with
  | craft_spec => mret installedDependencies
  | craft_yaml =>
      appPackageJson ← read (baseline_manifest w);
      dependencies ← lift (Js.get_prop appPackageJson "dependencies");
      mret (Js.keys (Js.or_else dependencies (Js.VObj [])))
  end.

(** The template manifest once its dependencies were pruned: the object
    pruned is the manifest's own [dependencies] when that is truthy, and a
    fresh [{}] otherwise. *)
Definition after_prune (template dependencies pruned : Js.value) : Js.value :=
  match template with
  | Js.VObj ps =>
      if Js.truthy_value dependencies
      then Js.VObj (Js.overwrite "dependencies" pruned ps)
      else template
  | _ => template
  end.

(** The manifest to write. Only the [craft.yaml] revision forces
    [eslintConfig]. *)
Definition merge_manifests (r : revision) (templatePackageJson appPackageJson : Js.value)
  : option Js.value :=
  app_scripts ← Js.get_prop appPackageJson "scripts";
  template_scripts ← Js.get_prop templatePackageJson "scripts";
  let scripts := Js.assign [app_scripts; template_scripts] in
  match r with
  | craft_spec =>
      Some (Js.assign [templatePackageJson; appPackageJson; Js.VObj [("scripts", scripts)]])
  | craft_yaml =>
      template_eslint ← Js.get_prop templatePackageJson "eslintConfig";
      app_eslint ← Js.get_prop appPackageJson "eslintConfig";
      let eslintConfig := Js.or_else template_eslint app_eslint in
      Some (Js.assign [templatePackageJson; appPackageJson;
                       Js.VObj [("scripts", scripts); ("eslintConfig", eslintConfig)]])
  end.

Definition manifest (r : revision) (w : world) (obj : context) : M context :=
  s ← lift (spec obj);
  if negb (Js.strict_eq (Js.get s "package.json") "merge") then mret obj
  else
    emit [Log EmptyString; Log "Installing template packages..."; Chdir (root w)];;
    match template_manifest w with
    | None => mret obj
    | Some templatePackageJson =>
        dependencies ← lift (Js.get_prop templatePackageJson "dependencies");
        let templateDependencies := Js.or_else dependencies (Js.VObj []) in
        names ← already_installed r w;
        pruned ← lift (prune names templateDependencies);
        install w pruned;;
        appPackageJson ← read (baseline_manifest_after w);
        packageJson ← lift (merge_manifests r
                              (after_prune templatePackageJson dependencies pruned)
                              appPackageJson);
        text ← lift (Js.stringify packageJson 2);
        emit [WriteFile (path_join (host w) (root w) "package.json") text];;
        mret obj
    end.

(** The default mapping of a revision. *)
Definition defaults (r : revision) : gmap string string :=
  match r with
  | craft_spec => SpecFile.defaultSpec
  | craft_yaml => Yaml.defaultSpec
  end.

(** The entries the configuration of the template supplies. *)
Definition supplied (r : revision) (w : world) : list (string * string) :=
  match r with
  | craft_spec =>
      match craft_spec_file w with
      | content text => SpecFile.entries text
      | _ => []
      end
  | craft_yaml =>
      match Yaml.chosen (craft_yaml_file w) (craft_yml_file w) with
      | content config => Yaml.entries config
      | _ => []
      end
  end.

(** Laying the fields of [top] over those of [bottom]: the field of [top]
    where it has one, else the field of [bottom]. *)
Definition overlaid (bottom top : Js.value) (k : string) : option Js.value :=
  match Js.field top k with
  | Some v => Some v
  | None => Js.field bottom k
  end.

(** [v.k], [undefined] when [v] has no such own property. *)
Definition prop (v : Js.value) (k : string) : Js.value := default Js.VUndef (Js.field v k).

(** What the manifest written holds, given the template manifest as the
    pruning left it and the manifest of the project: the project's fields
    over the template's; [scripts] an object with the template's scripts
    over the project's; in the [craft.yaml] revision alone, [eslintConfig]
    the template's value when that is truthy and the project's otherwise.
    Nothing is said of a field named [__proto__]. *)
Definition merged_as_amended (r : revision) (template app merged : Js.value) : Prop :=
  (∀ k, k ≠ "__proto__" → k ≠ "scripts" → (r = craft_yaml → k ≠ "eslintConfig") →
        Js.field merged k = overlaid template app k) ∧
  (∃ scripts,
      Js.field merged "scripts" = Some scripts ∧
      ∀ k, k ≠ "__proto__" →
           Js.field scripts k = overlaid (prop app "scripts") (prop template "scripts") k) ∧
  (r = craft_yaml →
   Js.field merged "eslintConfig" =
     Some (Js.or_else (prop template "eslintConfig") (prop app "eslintConfig"))).

(** The rule for [eslintConfig] as the specification words it: the
    template's value when the template has the field, else the project's. *)
Definition eslint_as_specified (template app merged : Js.value) : Prop :=
  Js.field merged "eslintConfig" = overlaid app template "eslintConfig".

Definition chain (r : revision) (w : world) : M unit :=
  createApp w;;
  obj ← clone r w;
  obj ← delete w obj;
  obj ← copy w obj;
  obj ← manifest r w obj;
  emit [Log EmptyString; Log (chalk green "Template applied successfully!"); Cleanup].

Inductive status : Type := completed | aborted | crashed (e : error).

Definition show_error (e : error) : string :=
  match e with
  | TypeError => "TypeError"
  | ReferenceError name => "ReferenceError: " +:+ name +:+ " is not defined"
  | SystemError => "Error"
  end.

(** The [catch] at the end of the chain. *)
Definition catch (m : M unit) : list event * status :=
  match m.2 with
  | resolved _ => (m.1, completed)
  | rejected r =>
      (m.1 ++ [Log EmptyString; Log "Aborting installation."]
           ++ match r with
              | failed_command command =>
                  if negb (bool_decide (command = EmptyString))
                  then [Log ("  " +:+ chalk cyan command +:+ " has failed.")]
                  else [Log (chalk red "Unexpected error. Please report it as a bug:");
                        Log "[object Object]"]
              | thrown e =>
                  [Log (chalk red "Unexpected error. Please report it as a bug:");
                   Log (show_error e)]
              end
           ++ [Log EmptyString], aborted)
  | uncaught e => (m.1, crashed e)
  end.

Definition run (r : revision) (w : world) : list event * status := catch (chain r w).

End Craft.

(** ** Sample runs *)

Module Sample.

Import Js.

(** A template manifest and the manifest the generator wrote, before and
    after the installation. *)
Definition template_json : value :=
  VObj [ ("name", VStr "template");
         ("dependencies", VObj [("lodash", VStr "^4.0.0"); ("react", VStr "^15.0.0")]);
         ("scripts", VObj [("build", VStr "custom-build")]) ].

Definition baseline_json : value :=
  VObj [ ("name", VStr "app");
         ("dependencies", VObj [("react", VStr "^16.8.0"); ("react-dom", VStr "^16.8.0");
                                ("react-scripts", VStr "3.0.0")]);
         ("scripts", VObj [("build", VStr "react-scripts build");
                           ("test", VStr "react-scripts test")]);
         ("eslintConfig", VObj [("extends", VStr "react-app")]) ].

Definition baseline_after_json : value :=
  VObj [ ("name", VStr "app");
         ("dependencies", VObj [("react", VStr "^16.8.0"); ("react-dom", VStr "^16.8.0");
                                ("react-scripts", VStr "3.0.0"); ("lodash", VStr "^4.17.11")]);
         ("scripts", VObj [("build", VStr "react-scripts build");
                           ("test", VStr "react-scripts test")]);
         ("eslintConfig", VObj [("extends", VStr "react-app")]) ].

(** A run on a POSIX host in which generator and clone succeed, for a
    template with the given configuration files, top-level entries and
    manifest, the given manifests of the project before and after the
    installation, and the given exit code of [npm]. *)
Definition world_of (spec_file : file string) (yaml_file : file value)
    (entries : list string) (template baseline baseline_after : value)
    (npm_exit : option Z) : world :=
  {| host := posix;
     projectName := "my-app";
     projectTemplate := "https://example.org/template.git";
     root := "/home/dev/my-app";
     npx := true;
     createApp_exit := Some 0;
     tmp_dir := Some "/tmp/tmp-1";
     clone_exit := Some 0;
     craft_spec_file := spec_file;
     craft_yaml_file := yaml_file;
     craft_yml_file := absent;
     present := fun _ => false;
     remove_error := fun _ => true;
     template_entries := Some entries;
     copy_error := fun _ => false;
     template_manifest := Some template;
     baseline_manifest := Some baseline;
     install_exit := npm_exit;
     baseline_manifest_after := Some baseline_after |}.

(** A [craft.spec] that overrides the manifest default twice, names an
    unknown directive and deletes a nested path. *)
Definition spec_text : string :=
  "# template policy" +:+ NL +:+
  "package.json: replace" +:+ NL +:+
  "old/file.txt: delete" +:+ NL +:+
  "README.md: keep" +:+ NL +:+
  "package.json:   ignore".

(** The same policy as a loaded [craft.yaml]. *)
Definition yaml_config : value :=
  VObj [ ("spec",
          VObj [ ("replace", VStr "package.json");
                 ("delete", VArr [Some (VStr "old/file.txt")]);
                 ("keep", VStr "README.md");
                 ("ignore", VArr [Some (VStr "package.json"); Some VNull]) ]) ].

Definition entries : list string :=
  ["a.txt"; "node_modules"; "package.json"; "src"].

Definition with_spec_file : world :=
  world_of (content spec_text) absent entries template_json
           baseline_json baseline_after_json (Some 0).

Definition with_yaml : world :=
  world_of absent (content yaml_config) entries template_json
           baseline_json baseline_after_json (Some 0).

(** A template without any configuration file. *)
Definition bare : world :=
  world_of absent absent entries template_json
           baseline_json baseline_after_json (Some 0).

(** A template whose [craft.yaml] is an empty mapping. *)
Definition with_empty_yaml : world :=
  world_of absent (content (VObj [])) entries template_json
           baseline_json baseline_after_json (Some 0).

(** A template with a top-level entry named [constructor]. *)
Definition with_constructor : world :=
  world_of absent absent ["a.txt"; "constructor"] template_json
           baseline_json baseline_after_json (Some 0).

(** A template that ignores a nested path. *)
Definition with_nested : world :=
  world_of (content "src/legacy: ignore") absent ["src"] template_json
           baseline_json baseline_after_json (Some 0).

(** A generator whose manifest already depends on [web-vitals], and a
    template that asks for it too. *)
Definition vitals_template_json : value :=
  VObj [ ("name", VStr "template");
         ("dependencies", VObj [("lodash", VStr "^4.0.0"); ("web-vitals", VStr "^1.0.0")]) ].

Definition vitals_baseline_json : value :=
  VObj [ ("name", VStr "app");
         ("dependencies", VObj [("react", VStr "^17.0.0"); ("react-dom", VStr "^17.0.0");
                                ("react-scripts", VStr "4.0.0");
                                ("web-vitals", VStr "^0.2.4")]) ].

Definition with_vitals : world :=
  world_of absent (content (VObj [])) entries vitals_template_json
           vitals_baseline_json vitals_baseline_json (Some 0).

(** The installation fails. *)
Definition npm_fails (w : world) : world :=
  {| host := host w; projectName := projectName w; projectTemplate := projectTemplate w;
     root := root w; npx := npx w; createApp_exit := createApp_exit w;
     tmp_dir := tmp_dir w; clone_exit := clone_exit w;
     craft_spec_file := craft_spec_file w; craft_yaml_file := craft_yaml_file w;
     craft_yml_file := craft_yml_file w; present := present w;
     remove_error := remove_error w; template_entries := template_entries w;
     copy_error := copy_error w; template_manifest := template_manifest w;
     baseline_manifest := baseline_manifest w; install_exit := Some 1;
     baseline_manifest_after := baseline_manifest_after w |}.

(** The clone fails. *)
Definition clone_fails (w : world) : world :=
  {| host := host w; projectName := projectName w; projectTemplate := projectTemplate w;
     root := root w; npx := npx w; createApp_exit := createApp_exit w;
     tmp_dir := tmp_dir w; clone_exit := Some 128;
     craft_spec_file := absent; craft_yaml_file := absent;
     craft_yml_file := absent; present := present w;
     remove_error := remove_error w; template_entries := None;
     copy_error := copy_error w; template_manifest := None;
     baseline_manifest := baseline_manifest w; install_exit := install_exit w;
     baseline_manifest_after := baseline_manifest_after w |}.

(** The generator fails. *)
Definition generator_fails (w : world) : world :=
  {| host := host w; projectName := projectName w; projectTemplate := projectTemplate w;
     root := root w; npx := npx w; createApp_exit := Some 1;
     tmp_dir := tmp_dir w; clone_exit := clone_exit w;
     craft_spec_file := absent; craft_yaml_file := absent;
     craft_yml_file := absent; present := present w;
     remove_error := remove_error w; template_entries := None;
     copy_error := copy_error w; template_manifest := None;
     baseline_manifest := None; install_exit := install_exit w;
     baseline_manifest_after := None |}.

(** A template manifest whose [eslintConfig] is [false], and one with a
    lint configuration of its own. *)
Definition eslint_off_json : value :=
  VObj [ ("name", VStr "template"); ("eslintConfig", VBool false) ].

Definition eslint_custom_json : value :=
  VObj [ ("name", VStr "template");
         ("eslintConfig", VObj [("extends", VStr "airbnb")]) ].

End Sample.

(** ** Before the chain: arguments and prerequisites *)

Module Startup.

(** What the start of the program does before any promise exists: lines on
    the two console streams, the probes run through [execSync], and
    [process.exit]. *)
Inductive output : Type :=
| Stderr (line : string)
| Stdout (line : string)
| Exec (command : string)
| Exit (code : Z).

(** What the command line and the machine answer: whether commander's
    action got a project directory and a template, and whether
    [create-react-app --version] succeeds. Whether [npx --version]
    succeeds is [npx] of the [world]. *)
Record launch : Type := {
  name_given : bool;
  template_given : bool;
  cra_installed : bool
}.

(** [chalk.yellow] and [chalk.bold] on a colour terminal. *)
Definition yellow (s : string) : string :=
  String Js.ESC "[33m" +:+ s +:+ String Js.ESC "[39m".

Definition bold (s : string) : string :=
  String Js.ESC "[1m" +:+ s +:+ String Js.ESC "[22m".

Definition usage : list output :=
  [ Stderr "Please specify the project directory and template url:";
    Stdout ("  " +:+ chalk cyan "craft" +:+ " " +:+ chalk green "<project-directory>"
                 +:+ " " +:+ yellow "<template-url>");
    Stdout EmptyString;
    Stdout "For example:";
    Stdout ("  " +:+ chalk cyan "craft" +:+ " " +:+ chalk green "my-react-app"
                 +:+ " " +:+ yellow "https://github.com/cebroker/react-foundation");
    Stdout EmptyString;
    Stdout ("Run " +:+ chalk cyan "craft --help" +:+ " to see all options.") ].

Definition no_generator : list output :=
  [ Stderr "No create-react-app installation has been detected.";
    Stdout "Please install create-react-app to continue.";
    Stdout EmptyString;
    Stdout ("  " +:+ chalk cyan "npm" +:+ " install -g " +:+ bold "create-react-app") ].

(** [isNPXAvailable()] always runs; [isCRAInstalled()] only when it
    answered no. *)
Definition probes (w : world) : list output :=
  Exec "npx --version" :: (if npx w then [] else [Exec "create-react-app --version"]).

(** The program of the two revisions with a Spec, from the parsed
    arguments on: what it does at the start, and the run of the chain when
    it gets that far. *)
Definition main (r : revision) (l : launch) (w : world)
  : list output * option (list event * Craft.status) :=
  if negb (name_given l) || negb (template_given l) then (usage ++ [Exit 1], None)
  else if negb (npx w) && negb (cra_installed l)
       then (probes w ++ no_generator ++ [Exit 1], None)
       else (probes w, Some (Craft.run r w)).

End Startup.

(** ** The earlier revision kept in `index.js`

    It has no Spec: the manifests are merged first, for every template,
    and the entries of the template are copied afterwards, all but a fixed
    list of names. *)

Module Early.

(** The object handed on, with its [tmpdir] and its [root]; the latter is
    [None] while the object has no such property. *)
Record context : Type := { obj_tmpdir : string; obj_root : option string }.

Definition createApp (w : world) : M unit :=
  let command := "create-react-app" in
  let args := [projectName w] in
  emit [Spawn command args];;
  if exited_ok (createApp_exit w) then mret tt
  else Craft.reject_failed [("command", command)] args.

Definition clone (w : world) : M string :=
  emit [Log EmptyString; Log (chalk magenta "Applying custom template..."); Log EmptyString];;
  dir ← read (tmp_dir w);
  let command := "git" in
  let args := ["clone"; projectTemplate w; dir] in
  emit [Spawn command args];;
  (if exited_ok (clone_exit w) then mret tt
   else Craft.reject_failed [("command", command)] args);;
  mret dir.

(** The manifest stage. Only its last step gives the object its [root]; a
    template without a readable manifest hands the object on without. *)
Definition manifest (w : world) (dir : string) : M context :=
  emit [ Log EmptyString;
         Log "Installing template packages. This might take a couple of minutes.";
         Chdir (root w) ];;
  match template_manifest w with
  | None => mret {| obj_tmpdir := dir; obj_root := None |}
  | Some templatePackageJson =>
      dependencies ← lift (Js.get_prop templatePackageJson "dependencies");
      let templateDependencies := Js.or_else dependencies (Js.VObj []) in
      pruned ← lift (Craft.prune Craft.installedDependencies templateDependencies);
      Craft.install w pruned;;
      appPackageJson ← read (baseline_manifest_after w);
      packageJson ← lift (Craft.merge_manifests craft_spec
                            (Craft.after_prune templatePackageJson dependencies pruned)
                            appPackageJson);
      text ← lift (Js.stringify packageJson 2);
      emit [WriteFile (path_join (host w) (root w) "package.json") text];;
      mret {| obj_tmpdir := dir; obj_root := Some (root w) |}
  end.

Definition skips : list string :=
  ["node_modules"; "package.json"; "package-lock.json"; ".git"].

(** The entries handed to [fs.copy]. *)
Definition copy_files (files : list string) : list string :=
  List.filter (fun file => negb (includes skips file)) files.

(** The copy stage: [path.join(obj.root, file)] throws a [TypeError] when
    [obj.root] is [undefined], at the first entry it is asked for. *)
Definition copy (w : world) (obj : context) : M context :=
  files ← read (template_entries w);
  let copied := copy_files files in
  copies ← lift (match obj_root obj with
                 | Some dir =>
                     Some ((fun file => Copy (path_join (host w) (obj_tmpdir obj) file)
                                             (path_join (host w) dir file)) <$> copied)
                 | None => match copied with [] => Some [] | _ :: _ => None end
                 end);
  emit copies;;
  emit ((fun file =>
           Log (if copy_error w (path_join (host w) (obj_tmpdir obj) file)
                then chalk red ("- " +:+ file) else "+ " +:+ file)) <$> copied);;
  mret obj.

Definition chain (w : world) : M unit :=
  createApp w;;
  dir ← clone w;
  obj ← manifest w dir;
  obj ← copy w obj;
  emit [Log EmptyString; Log (chalk green "Template applied successfullly!"); Cleanup].

Definition run (w : world) : list event * Craft.status := Craft.catch (chain w).

End Early.

(** ** Vocabulary for further properties *)

(** The properties that are not [undefined]. *)
Definition defined_props (ps : list (string * Js.value)) : list (string * Js.value) :=
  List.filter (fun kv => match kv.2 with Js.VUndef => false | _ => true end) ps.

(** A line of [craft.spec] that [readSpec] passes over: a comment, a line
    without a colon, or a line that holds a line terminator. *)
Definition passed_over (line : string) : bool :=
  bool_decide (Js.charAt0 line = "#")
  || negb (Js.contains_char ":"%char line)
  || Js.has_line_terminator line.

(** The kinds of event, for saying which stage can do what. *)
Inductive kind : Type :=
| console | subprocess | removal | copying | directory | writing | cleaning.

Definition kind_of (e : event) : kind :=
  match e with
  | Log _ => console
  | Spawn _ _ => subprocess
  | Remove _ => removal
  | Copy _ _ => copying
  | Chdir _ => directory
  | WriteFile _ _ => writing
  | Cleanup => cleaning
  end.

(** More runs to evaluate the model on. *)
Module Cases.

(** The same run on a Windows host. *)
Definition on_windows (w : world) : world :=
  {| host := win32; projectName := projectName w; projectTemplate := projectTemplate w;
     root := "C:\dev\my-app"; npx := npx w; createApp_exit := createApp_exit w;
     tmp_dir := Some "C:\tmp\tmp-1"; clone_exit := clone_exit w;
     craft_spec_file := craft_spec_file w; craft_yaml_file := craft_yaml_file w;
     craft_yml_file := craft_yml_file w; present := present w;
     remove_error := remove_error w; template_entries := template_entries w;
     copy_error := copy_error w; template_manifest := template_manifest w;
     baseline_manifest := baseline_manifest w; install_exit := install_exit w;
     baseline_manifest_after := baseline_manifest_after w |}.

(** The template has no manifest that can be read. *)
Definition without_template_manifest (w : world) : world :=
  {| host := host w; projectName := projectName w; projectTemplate := projectTemplate w;
     root := root w; npx := npx w; createApp_exit := createApp_exit w;
     tmp_dir := tmp_dir w; clone_exit := clone_exit w;
     craft_spec_file := craft_spec_file w; craft_yaml_file := craft_yaml_file w;
     craft_yml_file := craft_yml_file w; present := present w;
     remove_error := remove_error w; template_entries := template_entries w;
     copy_error := copy_error w; template_manifest := None;
     baseline_manifest := baseline_manifest w; install_exit := install_exit w;
     baseline_manifest_after := baseline_manifest_after w |}.

(** The manifest of the project cannot be read. *)
Definition without_project_manifest (w : world) : world :=
  {| host := host w; projectName := projectName w; projectTemplate := projectTemplate w;
     root := root w; npx := npx w; createApp_exit := createApp_exit w;
     tmp_dir := tmp_dir w; clone_exit := clone_exit w;
     craft_spec_file := craft_spec_file w; craft_yaml_file := craft_yaml_file w;
     craft_yml_file := craft_yml_file w; present := present w;
     remove_error := remove_error w; template_entries := template_entries w;
     copy_error := copy_error w; template_manifest := template_manifest w;
     baseline_manifest := None; install_exit := install_exit w;
     baseline_manifest_after := None |}.

(** No scratch directory could be made. *)
Definition without_tmp_dir (w : world) : world :=
  {| host := host w; projectName := projectName w; projectTemplate := projectTemplate w;
     root := root w; npx := npx w; createApp_exit := createApp_exit w;
     tmp_dir := None; clone_exit := clone_exit w;
     craft_spec_file := absent; craft_yaml_file := absent;
     craft_yml_file := absent; present := present w;
     remove_error := remove_error w; template_entries := None;
     copy_error := copy_error w; template_manifest := None;
     baseline_manifest := baseline_manifest w; install_exit := install_exit w;
     baseline_manifest_after := baseline_manifest_after w |}.

(** A [craft.yaml] that takes the manifest out of the merge. *)
Definition manifest_ignored : world :=
  Sample.world_of absent (content (Js.VObj [("spec", Js.VObj [("ignore", Js.VStr "package.json")])]))
    Sample.entries Sample.template_json Sample.baseline_json Sample.baseline_after_json
    (Some 0).

End Cases.

(** The early stages of a run go through: generator and clone succeed, the
    clone holds a Spec and its entries can be listed. *)
Definition reaches_manifest (r : revision) (w : world) (dir : string)
    (s : gmap string string) (files : list string) : Prop :=
  exited_ok (createApp_exit w) = true ∧ tmp_dir w = Some dir ∧
  exited_ok (clone_exit w) = true ∧ (Craft.load r w).2 = Some s ∧
  template_entries w = Some files.

(** Every event with [P] comes before every event with [Q]. *)
Definition precedes (P Q : event → Prop) (l : list event) : Prop :=
  ∀ i j x y, l !! i = Some x → P x → l !! j = Some y → Q y → (i < j)%nat.

Definition is_copy (e : event) : Prop := kind_of e = copying.

Definition starts_npm (e : event) : Prop := ∃ args, e = Spawn "npm" args.

(** The values [normalizeConfig] hands to [add] for what stands under a
    directive: the elements of a list, or the value itself. *)
Definition values_of (value : Js.value) : list Js.value :=
  match value with
  | Js.VArr items => omap id items
  | _ => [value]
  end.

(** * Properties *)

(** ** Strings and paths *)

Section Paths.

Implicit Types (s path raw : string) (c : ascii).

Lemma replace_all_same c s : Js.replace_all c (String c EmptyString) s = s.
Proof.
  induction s as [|a s IH]; simpl; [done|].
  destruct (Ascii.eqb a c) eqn:E; simpl; rewrite IH; [|done].
  by apply Ascii.eqb_eq in E as ->.
Qed.

(** Rewriting the slashes of [raw] into a character that [path] does not
    hold can give [path] only when nothing was rewritten. *)
Lemma replace_all_eq_iff c b raw path :
  Js.contains_char c path = false →
  Js.contains_char b path = false →
  Js.replace_all c (String b EmptyString) raw = path ↔ raw = path.
Proof.
  revert path. induction raw as [|a raw IH]; intros path Hc Hb; simpl; [done|].
  destruct (Ascii.eqb a c) eqn:E.
  - apply Ascii.eqb_eq in E as ->. simpl. split; intros <-; simpl in *.
    + by rewrite Ascii.eqb_refl in Hb.
    + by rewrite Ascii.eqb_refl in Hc.
  - destruct path as [|a' path]; [done|]. simpl in *.
    apply orb_false_iff in Hc as [_ Hc]. apply orb_false_iff in Hb as [_ Hb].
    split; intros [= -> H]; f_equal; by apply (IH path).
Qed.

Lemma normalized_eq_plain p raw path :
  plain path = true →
  Js.replace_all "/"%char (path_sep p) raw = path ↔ raw = path.
Proof.
  unfold plain. rewrite andb_true_iff, !negb_true_iff. intros [H1 H2].
  destruct p; simpl.
  - by rewrite replace_all_same.
  - by apply replace_all_eq_iff.
Qed.

End Paths.

(** ** The line pattern of [craft.spec] *)

Section LinePattern.

Implicit Types (line filePath directive rest blanks : string).

Lemma split_colon_some line filePath rest :
  SpecFile.split_colon line = Some (filePath, rest) ↔
  line = filePath +:+ ":" +:+ rest ∧ Js.contains_char ":"%char filePath = false.
Proof.
  revert filePath rest. induction line as [|a line IH]; intros filePath rest; simpl.
  - split; [done|]. intros [H _]. by destruct filePath.
  - destruct (Ascii.eqb a ":"%char) eqn:E.
    + apply Ascii.eqb_eq in E as ->. split.
      * by intros [= <- <-].
      * intros [H Hc]. destruct filePath as [|b filePath]; simpl in *.
        -- by injection H as ->.
        -- injection H as <- _. by rewrite Ascii.eqb_refl in Hc.
    + split.
      * destruct (SpecFile.split_colon line) as [[p r]|]; [|done].
        intros [= <- <-]. destruct (proj1 (IH p r) eq_refl) as [-> Hc].
        simpl. by rewrite E.
      * intros [H Hc]. destruct filePath as [|b filePath]; simpl in *.
        -- injection H as -> _. by rewrite Ascii.eqb_refl in E.
        -- injection H as <- H. apply orb_false_iff in Hc as [_ Hc].
           by rewrite (proj2 (IH filePath rest) (conj H Hc)).
Qed.

Lemma skip_blanks_split rest :
  ∃ blanks, rest = blanks +:+ SpecFile.skip_blanks rest ∧
            SpecFile.skip_blanks blanks = EmptyString.
Proof.
  induction rest as [|a rest (blanks & IH & Hb)]; simpl.
  - by exists EmptyString.
  - destruct (Ascii.eqb a " "%char || Ascii.eqb a Js.TAB) eqn:E.
    + exists (String a blanks). split.
      * change (String a rest = String a (blanks +:+ SpecFile.skip_blanks rest)).
        f_equal. exact IH.
      * simpl. rewrite E. exact Hb.
    + by exists EmptyString.
Qed.

Lemma skip_blanks_idemp rest :
  SpecFile.skip_blanks (SpecFile.skip_blanks rest) = SpecFile.skip_blanks rest.
Proof.
  induction rest as [|a rest IH]; simpl; [done|].
  destruct (Ascii.eqb a " "%char || Ascii.eqb a Js.TAB) eqn:E; [done|].
  simpl. by rewrite E.
Qed.

Lemma skip_blanks_app blanks directive :
  SpecFile.skip_blanks blanks = EmptyString →
  SpecFile.skip_blanks (blanks +:+ directive) = SpecFile.skip_blanks directive.
Proof.
  induction blanks as [|a blanks IH]; simpl; [done|].
  destruct (Ascii.eqb a " "%char || Ascii.eqb a Js.TAB); [done|discriminate].
Qed.

(** X1. What the pattern of [readSpec] yields on a line: the line holds no
    line terminator, the first group is what stands before the first
    colon, and the second group is what is left after the colon once the
    blanks and tabs that follow it are gone. *)
Lemma exec_line_some line filePath directive :
  SpecFile.exec_line line = Some (filePath, directive) ↔
  Js.has_line_terminator line = false ∧
  Js.contains_char ":"%char filePath = false ∧
  ∃ blanks, line = filePath +:+ ":" +:+ blanks +:+ directive ∧
            SpecFile.skip_blanks blanks = EmptyString ∧
            SpecFile.skip_blanks directive = directive.
Proof.
  unfold SpecFile.exec_line.
  destruct (Js.has_line_terminator line); [split; [done|by intros [? _]]|].
  destruct (SpecFile.split_colon line) as [[p rest]|] eqn:Es.
  - apply split_colon_some in Es as [-> Hc]. split.
    + intros [= <- <-]. split; [done|]. split; [done|].
      destruct (skip_blanks_split rest) as (blanks & Hrest & Hb).
      exists blanks. rewrite <- Hrest. split; [done|]. split; [done|].
      apply skip_blanks_idemp.
    + intros (_ & Hc' & blanks & Hline & Hb & Hd).
      assert (SpecFile.split_colon (p +:+ ":" +:+ rest)
              = Some (filePath, blanks +:+ directive)) as Hs
        by (rewrite Hline; by apply split_colon_some).
      assert (SpecFile.split_colon (p +:+ ":" +:+ rest) = Some (p, rest)) as Hs'
        by by apply split_colon_some.
      rewrite Hs' in Hs. injection Hs as -> ->.
      by rewrite skip_blanks_app, Hd.
  - split; [done|]. intros (_ & Hc & blanks & Hline & _).
    assert (SpecFile.split_colon line = Some (filePath, blanks +:+ directive)) as Hs
      by by apply split_colon_some.
    by rewrite Es in Hs.
Qed.

End LinePattern.

(** ** What a Spec holds *)

Section SpecContents.

Implicit Types (s : gmap string string) (path d : string) (es : list (string * string)).

Lemma get_set_lookup k v s path :
  Js.set k v s !! path =
    if bool_decide (k = "__proto__") then s !! path
    else if bool_decide (k = path) then Some v else s !! path.
Proof.
  unfold Js.set. repeat case_bool_decide; simplify_map_eq; done.
Qed.

Lemma last_directive_app path es es' :
  last_directive path (es ++ es') =
    match last_directive path es' with
    | Some d => Some d
    | None => last_directive path es
    end.
Proof.
  induction es as [|[k v] es IH]; simpl.
  - by destruct (last_directive path es').
  - rewrite IH. by destruct (last_directive path es').
Qed.

(** A Spec built by writing entries holds, at every path but [__proto__],
    the directive of the last entry for that path, and what it held before
    when there is none. *)
Lemma apply_entries_lookup p es s path :
  path ≠ "__proto__" →
  apply_entries p es s !! path =
    match last_directive path (normalized p es) with
    | Some d => Some d
    | None => s !! path
    end.
Proof.
  intros Hp. revert s. induction es as [|[k v] es IH]; intros s; simpl; [done|].
  unfold apply_entries in *. simpl. rewrite IH.
  destruct (last_directive path (normalized p es)); [done|].
  rewrite get_set_lookup. simpl.
  repeat case_bool_decide; congruence.
Qed.

Lemma apply_entries_proto p es s :
  apply_entries p es s !! "__proto__" = s !! "__proto__".
Proof.
  revert s. induction es as [|[k v] es IH]; intros s; [done|].
  unfold apply_entries in *. simpl. rewrite IH, get_set_lookup. simpl.
  repeat case_bool_decide; congruence.
Qed.

Lemma apply_entries_app p es es' s :
  apply_entries p (es ++ es') s = apply_entries p es' (apply_entries p es s).
Proof. unfold apply_entries. by rewrite foldl_app. Qed.

(** For a plain path, comparing the paths as written and comparing them
    once rewritten pick the same entries. *)
Lemma last_directive_normalized p path es :
  plain path = true →
  last_directive path (normalized p es) = last_directive path es.
Proof.
  intros Hplain. induction es as [|[k v] es IH]; simpl; [done|].
  rewrite IH. destruct (last_directive path es); [done|].
  pose proof (normalized_eq_plain p k path Hplain) as Hiff. simpl.
  repeat case_bool_decide; try done; exfalso; tauto.
Qed.

Lemma last_directive_elem path es d :
  last_directive path es = Some d → (path, d) ∈ es.
Proof.
  induction es as [|[k v] es IH]; simpl; [done|].
  destruct (last_directive path es) eqn:E.
  - intros [= <-]. right. by apply IH.
  - case_bool_decide; [|done]. intros [= <-]. subst. left.
Qed.

End SpecContents.

(** ** The two loaders write the supplied entries over the defaults *)

Section Loaders.

Implicit Types (s : gmap string string) (lines : list string).

Lemma read_line_spec p (st : gmap string string * list string) line :
  (SpecFile.read_line p st line).1 =
    apply_entries p (option_list (SpecFile.entry_of_line line)) st.1.
Proof.
  unfold SpecFile.read_line, SpecFile.entry_of_line.
  case_bool_decide; [done|].
  destruct (SpecFile.exec_line line) as [[filePath directive]|]; [|done].
  by destruct (includes directives directive).
Qed.

Lemma read_lines_spec p (st : gmap string string * list string) lines :
  (foldl (SpecFile.read_line p) st lines).1 =
    apply_entries p (omap SpecFile.entry_of_line lines) st.1.
Proof.
  revert st. induction lines as [|line lines IH]; intros st; simpl; [done|].
  rewrite IH, read_line_spec.
  destruct (SpecFile.entry_of_line line); simpl; done.
Qed.

Lemma readSpec_content p text :
  (SpecFile.readSpec p (content text)).1 =
    apply_entries p (SpecFile.entries text) SpecFile.defaultSpec.
Proof. unfold SpecFile.readSpec. by rewrite read_lines_spec. Qed.

Lemma add_thrown p directive lines value :
  Yaml.add p directive (lines, None) value = (lines, None).
Proof. done. Qed.

Lemma add_spec p directive lines s value lines' s' :
  Yaml.add p directive (lines, Some s) value = (lines', Some s') →
  s' = apply_entries p (option_list (Yaml.entry_of_value directive value)) s.
Proof.
  unfold Yaml.add, Yaml.entry_of_value. simpl.
  case_bool_decide.
  - by intros [= <- <-].
  - destruct (Js.to_string value); by intros [= <- <-].
Qed.

Lemma add_all_spec p directive values (st : Yaml.state) lines' s' :
  foldl (Yaml.add p directive) st values = (lines', Some s') →
  ∃ s, st.2 = Some s ∧
       s' = apply_entries p (omap (Yaml.entry_of_value directive) values) s.
Proof.
  revert st. induction values as [|value values IH]; intros [lines o]; simpl.
  - intros [= <- ->]. by eexists.
  - intros H. apply IH in H as (s1 & H1 & ->).
    destruct o as [s|]; [|by rewrite add_thrown in H1].
    destruct (Yaml.add p directive (lines, Some s) value) as [l1 o1] eqn:E.
    simpl in H1. subst o1. apply add_spec in E as ->.
    exists s. split; [done|].
    destruct (Yaml.entry_of_value directive value); done.
Qed.

Lemma add_directive_spec p config_spec (st : Yaml.state) directive lines' s' :
  Yaml.add_directive p config_spec st directive = (lines', Some s') →
  ∃ s, st.2 = Some s ∧
       s' = apply_entries p (Yaml.entries_of_directive config_spec directive) s.
Proof.
  destruct st as [lines [s|]]; [|done].
  unfold Yaml.add_directive, Yaml.entries_of_directive. simpl.
  destruct (includes directives directive).
  - destruct (default Js.VUndef (Js.get_prop config_spec directive)) eqn:E;
      try (intros H; apply add_spec in H as ->; by eexists).
    intros H. apply add_all_spec in H as (s1 & [= <-] & ->). by eexists.
  - intros [= <- <-]. by eexists.
Qed.

Lemma add_directives_spec p config_spec keys (st : Yaml.state) lines' s' :
  foldl (Yaml.add_directive p config_spec) st keys = (lines', Some s') →
  ∃ s, st.2 = Some s ∧
       s' = apply_entries p (concat (Yaml.entries_of_directive config_spec <$> keys)) s.
Proof.
  revert st. induction keys as [|k keys IH]; intros st; simpl.
  - destruct st as [lines o]. intros [= <- ->]. by eexists.
  - intros H. apply IH in H as (s1 & H1 & ->).
    destruct (Yaml.add_directive p config_spec st k) as [l1 o1] eqn:E.
    simpl in H1. subst o1. apply add_directive_spec in E as (s & Hs & ->).
    exists s. split; [done|]. by rewrite apply_entries_app.
Qed.

Lemma normalizeConfig_spec p config lines s :
  Yaml.normalizeConfig p config = (lines, Some s) →
  s = apply_entries p (Yaml.entries config) Yaml.defaultSpec.
Proof.
  unfold Yaml.normalizeConfig, Yaml.entries.
  destruct config as [| |b|repr|str|items|props]; simpl; try done;
    try (intros [= <- <-]; done);
    match goal with
    | |- context [Js.truthy_value ?c] => destruct (Js.truthy_value c)
    end;
    try (intros [= <- <-]; done);
    intros H; apply add_directives_spec in H as (? & [= <-] & ->); done.
Qed.

Lemma readConfig_spec p yaml yml lines s :
  Yaml.readConfig p yaml yml = (lines, Some s) →
  ∃ config, Yaml.chosen yaml yml = content config ∧
            s = apply_entries p (Yaml.entries config) Yaml.defaultSpec.
Proof.
  unfold Yaml.readConfig, Yaml.chosen.
  destruct yaml as [| |v]; simpl; [|done|].
  - destruct yml as [| |v]; simpl; [done..|].
    destruct (Yaml.normalizeConfig p v) as [l [s0|]] eqn:E; [|done].
    intros [= <- <-]. exists v. split; [done|]. by eapply normalizeConfig_spec.
  - destruct (Yaml.normalizeConfig p v) as [l [s0|]] eqn:E; [|done].
    intros [= <- <-]. exists v. split; [done|]. by eapply normalizeConfig_spec.
Qed.

(** Every Spec a run loads is the default mapping of its revision with the
    supplied entries written over it. *)
Lemma load_spec r w lines s :
  Craft.load r w = (lines, Some s) →
  s = apply_entries (host w) (Craft.supplied r w) (Craft.defaults r).
Proof.
  destruct r; simpl.
  - intros [= <- <-]. destruct (craft_spec_file w); [done..|].
    apply readSpec_content.
  - intros H. apply readConfig_spec in H as (config & -> & ->). done.
Qed.

End Loaders.

(** ** The default mapping and the entries of the configuration *)

Section Defaults.

Implicit Types (s : gmap string string) (path d : string).

Lemma defaults_cases r path d :
  Craft.defaults r !! path = Some d →
  plain path = true ∧ path ≠ "__proto__" ∧ d ∈ ["ignore"; "merge"] ∧
  (d = "merge" → path = "package.json").
Proof.
  intros H. destruct r; apply elem_of_list_to_map_2 in H;
    repeat (apply elem_of_cons in H as [[= -> ->]|H];
            [by repeat split; try (intros [=]); set_solver|]);
    by apply not_elem_of_nil in H.
Qed.

Lemma defaults_proto r : Craft.defaults r !! "__proto__" = None.
Proof. by destruct r. Qed.

Lemma option_list_elem {A : Type} (o : option A) (x : A) :
  x ∈ option_list o → o = Some x.
Proof.
  destruct o; simpl.
  - by intros ->%list_elem_of_singleton.
  - by intros ?%not_elem_of_nil.
Qed.

Lemma spec_entries_recognised text path d :
  (path, d) ∈ SpecFile.entries text → d ∈ directives.
Proof.
  unfold SpecFile.entries. rewrite list_elem_of_omap.
  intros (line & _ & H). unfold SpecFile.entry_of_line in H.
  case_bool_decide; [done|].
  destruct (SpecFile.exec_line line) as [[filePath directive]|]; [|done].
  destruct (includes directives directive) eqn:E; [|done].
  injection H as -> ->. by apply bool_decide_eq_true in E.
Qed.

Lemma entry_of_value_directive directive value path d :
  Yaml.entry_of_value directive value = Some (path, d) → d = directive.
Proof. unfold Yaml.entry_of_value. case_bool_decide; [|done]. by intros [= _ <-]. Qed.

Lemma yaml_entries_recognised config path d :
  (path, d) ∈ Yaml.entries config → d ∈ directives.
Proof.
  assert (∀ config_spec directive,
            (path, d) ∈ Yaml.entries_of_directive config_spec directive → d ∈ directives)
    as Hone.
  { intros config_spec directive. unfold Yaml.entries_of_directive.
    destruct (includes directives directive) eqn:E; [|by intros ?%not_elem_of_nil].
    apply bool_decide_eq_true in E.
    destruct (default Js.VUndef (Js.get_prop config_spec directive)) eqn:Ev;
      try (intros H; apply option_list_elem in H;
           by apply entry_of_value_directive in H as ->).
    rewrite list_elem_of_omap. intros (value & _ & H).
    by apply entry_of_value_directive in H as ->. }
  assert (∀ config_spec keys,
            (path, d) ∈ concat (Yaml.entries_of_directive config_spec <$> keys) →
            d ∈ directives) as Hall.
  { intros config_spec keys. rewrite list_elem_of_In, in_concat.
    intros (es & Hes & Hin). apply list_elem_of_In, list_elem_of_fmap in Hes as (k & -> & _).
    apply list_elem_of_In in Hin. by eapply Hone. }
  unfold Yaml.entries.
  destruct config; try (by intros ?%not_elem_of_nil);
    match goal with
    | |- context [Js.truthy_value ?c] => destruct (Js.truthy_value c)
    end; try (by intros ?%not_elem_of_nil); apply Hall.
Qed.

Lemma supplied_recognised r w path d :
  (path, d) ∈ Craft.supplied r w → d ∈ directives.
Proof.
  destruct r; simpl.
  - destruct (craft_spec_file w); try (by intros ?%not_elem_of_nil).
    apply spec_entries_recognised.
  - destruct (Yaml.chosen _ _); try (by intros ?%not_elem_of_nil).
    apply yaml_entries_recognised.
Qed.

Lemma normalized_elem p es path d :
  (path, d) ∈ normalized p es → ∃ raw, (raw, d) ∈ es.
Proof.
  unfold normalized. rewrite list_elem_of_fmap. intros ([raw d'] & [= -> ->] & H).
  by exists raw.
Qed.

End Defaults.

(** C1. For every Spec a run constructs, from [craft.spec] or from
    [craft.yaml] / [craft.yml], every path of the default mapping of that
    revision maps to its default directive, unless the configuration
    supplies a valid entry written for that exact path; then it maps to the
    directive of the last such entry. *)
Theorem default_directive_unless_configured r w lines s path d :
  Craft.load r w = (lines, Some s) →
  Craft.defaults r !! path = Some d →
  s !! path = Some (default d (last_directive path (Craft.supplied r w))).
Proof.
  intros Hload Hdefault.
  destruct (defaults_cases _ _ _ Hdefault) as (Hplain & Hproto & _).
  rewrite (load_spec _ _ _ _ Hload), apply_entries_lookup by done.
  rewrite last_directive_normalized by done.
  destruct (last_directive path (Craft.supplied r w)); simpl; done.
Qed.

Lemma default_directive_unless_configured_witness :
  ∃ s1 s2,
    (Craft.load craft_spec Sample.with_spec_file).2 = Some s1 ∧
    (Craft.load craft_yaml Sample.with_yaml).2 = Some s2 ∧
    s1 !! "package.json" = Some "ignore" ∧ s1 !! ".git" = Some "ignore" ∧
    s2 !! "package.json" = Some "ignore" ∧ s2 !! "craft.yml" = Some "ignore".
Proof.
  eexists _, _. split; [reflexivity|]. split; [reflexivity|].
  split; [|split; [|split]].
  - eapply (default_directive_unless_configured craft_spec Sample.with_spec_file
             _ _ "package.json" "merge"); reflexivity.
  - eapply (default_directive_unless_configured craft_spec Sample.with_spec_file
             _ _ ".git" "ignore"); reflexivity.
  - eapply (default_directive_unless_configured craft_yaml Sample.with_yaml
             _ _ "package.json" "merge"); reflexivity.
  - eapply (default_directive_unless_configured craft_yaml Sample.with_yaml
             _ _ "craft.yml" "ignore"); reflexivity.
Defined.

(** Where the value at a path of a loaded Spec comes from. *)
Lemma load_value_cases r w lines s path d :
  Craft.load r w = (lines, Some s) →
  s !! path = Some d →
  (∃ raw, (raw, d) ∈ Craft.supplied r w) ∨
  (last_directive path (normalized (host w) (Craft.supplied r w)) = None ∧
   Craft.defaults r !! path = Some d).
Proof.
  intros Hload. rewrite (load_spec _ _ _ _ Hload).
  destruct (decide (path = "__proto__")) as [->|Hne].
  - by rewrite apply_entries_proto, defaults_proto.
  - rewrite apply_entries_lookup by done.
    destruct (last_directive path _) as [d'|] eqn:E; [|by right].
    intros [= ->]. left. by apply last_directive_elem, normalized_elem in E.
Qed.

Lemma load_value_directive r w lines s path d :
  Craft.load r w = (lines, Some s) →
  s !! path = Some d →
  d ∈ ["ignore"; "delete"; "replace"; "merge"].
Proof.
  intros Hload [[raw Hin]|[_ Hdef]]%(load_value_cases _ _ _ _ _ _ Hload).
  - apply supplied_recognised in Hin. unfold directives in Hin.
    rewrite !elem_of_cons in *. tauto.
  - apply defaults_cases in Hdef as (_ & _ & Hd & _).
    rewrite !elem_of_cons in *. tauto.
Qed.

Lemma load_value_nonempty r w lines s path d :
  Craft.load r w = (lines, Some s) → s !! path = Some d → d ≠ EmptyString.
Proof.
  intros Hload Hd. apply (load_value_directive _ _ _ _ _ _ Hload) in Hd.
  intros ->. rewrite !elem_of_cons in Hd.
  destruct Hd as [?|[?|[?|[?|?%not_elem_of_nil]]]]; done.
Qed.

(** C6. A configuration entry whose directive token is none of
    [ignore], [delete], [replace] makes the loader write one warning and
    leaves the Spec as it was: a line of [craft.spec] on the one hand, a
    directive key of [craft.yaml] on the other. *)
Theorem unrecognized_directive_ignored p s lines directive :
  directive ∉ directives →
  (∀ line filePath,
      Js.charAt0 line ≠ "#" →
      SpecFile.exec_line line = Some (filePath, directive) →
      SpecFile.read_line p (s, lines) line =
        (s, lines ++ ["Invalid directive for file " +:+ filePath +:+ ": "
                        +:+ chalk red directive +:+ "."])) ∧
  (∀ config_spec,
      Yaml.add_directive p config_spec (lines, Some s) directive =
        (lines ++ ["Invalid directive: " +:+ chalk red directive +:+ "."], Some s)).
Proof.
  intros Hd.
  assert (includes directives directive = false) as Hinc
    by by apply bool_decide_eq_false.
  split.
  - intros line filePath Hc Hm. unfold SpecFile.read_line.
    rewrite bool_decide_eq_false_2, Hm, Hinc by done. done.
  - intros config_spec. unfold Yaml.add_directive. simpl. by rewrite Hinc.
Qed.

Lemma unrecognized_directive_ignored_witness :
  SpecFile.read_line posix (SpecFile.defaultSpec, []) "README.md: keep" =
    (SpecFile.defaultSpec,
     ["Invalid directive for file README.md: " +:+ chalk red "keep" +:+ "."]) ∧
  Yaml.add_directive posix (Js.VObj [("merge", Js.VStr "a.txt")])
                     ([], Some Yaml.defaultSpec) "merge" =
    (["Invalid directive: " +:+ chalk red "merge" +:+ "."], Some Yaml.defaultSpec).
Proof.
  assert ("keep" ∉ directives) as H1
    by (apply (proj1 (bool_decide_eq_false _)); reflexivity).
  assert ("merge" ∉ directives) as H2
    by (apply (proj1 (bool_decide_eq_false _)); reflexivity).
  split.
  - apply (proj1 (unrecognized_directive_ignored posix SpecFile.defaultSpec [] "keep" H1)
             "README.md: keep" "README.md"); [discriminate | reflexivity].
  - apply (proj2 (unrecognized_directive_ignored posix Yaml.defaultSpec [] "merge" H2)).
Defined.

(** C10. In every Spec a run constructs each value is one of [ignore],
    [delete], [replace], [merge]; the entries of a configuration carry
    recognised directives only, which [merge] is not; so [merge] stands in
    a Spec at the manifest's path alone, and only while no entry was
    supplied for that path. *)
Theorem spec_values_are_directives r w lines s :
  Craft.load r w = (lines, Some s) →
  (∀ path d, s !! path = Some d → d ∈ ["ignore"; "delete"; "replace"; "merge"]) ∧
  (∀ path d, (path, d) ∈ Craft.supplied r w → d ∈ directives ∧ d ≠ "merge") ∧
  (∀ path, s !! path = Some "merge" →
           path = "package.json" ∧
           last_directive "package.json" (Craft.supplied r w) = None).
Proof.
  intros Hload.
  assert (∀ path d, (path, d) ∈ Craft.supplied r w → d ∈ directives ∧ d ≠ "merge")
    as Hsupplied.
  { intros path d Hin. pose proof (supplied_recognised _ _ _ _ Hin) as Hd.
    split; [done|]. intros ->. by apply (bool_decide_eq_true_2 _) in Hd. }
  split; [|split; [done|]].
  - intros path d. by apply (load_value_directive r w lines).
  - intros path [[raw Hin]|[Hnone Hdef]]%(load_value_cases _ _ _ _ _ _ Hload).
    + by apply Hsupplied in Hin as [_ ?].
    + destruct (defaults_cases _ _ _ Hdef) as (Hplain & _ & _ & Hpath).
      rewrite Hpath in * by done. split; [done|].
      by rewrite last_directive_normalized in Hnone.
Qed.

Lemma spec_values_are_directives_witness :
  ∃ s, (Craft.load craft_yaml Sample.with_yaml).2 = Some s ∧
       (∀ path d, s !! path = Some d → d ∈ ["ignore"; "delete"; "replace"; "merge"]) ∧
       (∀ path, s !! path ≠ Some "merge").
Proof.
  eexists. split; [reflexivity|].
  destruct (spec_values_are_directives craft_yaml Sample.with_yaml _ _ eq_refl)
    as (Hvalues & _ & Hmerge).
  split; [exact Hvalues|].
  intros path H. apply Hmerge in H as [_ H]. discriminate H.
Defined.

(** ** The delete and copy stages *)

Section Stages.

Implicit Types (s : gmap string string) (file : string) (w : world) (obj : context).

(** Binding after a stage that resolves. *)
Lemma bind_resolved {A B : Type} (es : list event) (a : A) (f : A → M B) :
  ((es, resolved a) : M A) ≫= f = (es ++ (f a).1, (f a).2).
Proof. done. Qed.

(** An event of a bind comes from the first stage, or from the second
    once the first has resolved. *)
Lemma bind_elem {A B : Type} (m : M A) (f : A → M B) (e : event) :
  e ∈ (m ≫= f).1 → e ∈ m.1 ∨ ∃ a, m.2 = resolved a ∧ e ∈ (f a).1.
Proof.
  unfold mbind, M_bind. destruct m as [es [a|r|err]]; simpl; [|by left..].
  rewrite elem_of_app. intros [?|?]; [by left|right]. by exists a.
Qed.

Lemma lift_elem {A : Type} (o : option A) (e : event) : e ∉ (lift o).1.
Proof. destruct o; apply not_elem_of_nil. Qed.

Lemma lift_resolved {A : Type} (o : option A) (a : A) :
  (lift o).2 = resolved a → o = Some a.
Proof. destruct o; by intros [= ->]. Qed.

Lemma read_elem {A : Type} (o : option A) (e : event) : e ∉ (read o).1.
Proof. destruct o; apply not_elem_of_nil. Qed.

Lemma read_resolved {A : Type} (o : option A) (a : A) :
  (read o).2 = resolved a → o = Some a.
Proof. destruct o; by intros [= ->]. Qed.

Lemma delete_run w obj s :
  spec obj = Some s →
  Craft.delete w obj =
    ([Log EmptyString; Log "Deleting files..."]
       ++ ((fun file => Remove (path_join (host w) (root w) file)) <$> Craft.delete_files s)
       ++ ((fun file =>
              Log (if remove_fails w (path_join (host w) (root w) file)
                   then chalk red ("! " +:+ file) else "- " +:+ file))
             <$> Craft.delete_files s),
     resolved obj).
Proof.
  intros Hs. unfold Craft.delete, emit, lift. rewrite Hs.
  unfold mbind, M_bind, mret, M_ret. simpl. by rewrite !app_nil_r.
Qed.

Lemma copy_run w obj s files :
  spec obj = Some s →
  template_entries w = Some files →
  Craft.copy w obj =
    ([Log EmptyString; Log "Copying files..."]
       ++ ((fun file => Copy (path_join (host w) (tmpdir obj) file)
                             (path_join (host w) (root w) file))
             <$> Craft.copy_files s files)
       ++ ((fun file =>
              Log (if copy_error w (path_join (host w) (tmpdir obj) file)
                   then chalk red ("! " +:+ file) else "+ " +:+ file))
             <$> Craft.copy_files s files),
     resolved obj).
Proof.
  intros Hs Hf. unfold Craft.copy, emit, lift, read. rewrite Hs, Hf.
  unfold mbind, M_bind, mret, M_ret. simpl. by rewrite !app_nil_r.
Qed.

Lemma delete_files_elem s file :
  file ∈ Craft.delete_files s ↔ s !! file = Some "delete".
Proof.
  unfold Craft.delete_files.
  rewrite list_elem_of_In, filter_In, <- list_elem_of_In, list_elem_of_fmap.
  unfold Js.strict_eq, Js.get. split.
  - intros [([k v] & -> & Hin%elem_of_map_to_list) H]. simpl in *.
    rewrite Hin in *. by apply bool_decide_eq_true in H as ->.
  - intros H. split.
    + exists (file, "delete"). split; [done|]. by apply elem_of_map_to_list.
    + rewrite H. by apply bool_decide_eq_true.
Qed.

Lemma copy_files_elem s files file :
  file ∈ Craft.copy_files s files ↔ file ∈ files ∧ Craft.skip s file = false.
Proof.
  unfold Craft.copy_files.
  rewrite list_elem_of_In, filter_In, <- list_elem_of_In, negb_true_iff. done.
Qed.

Lemma path_join_inj p dir : Inj (=) (=) (path_join p dir).
Proof.
  intros file file' H. unfold path_join in H.
  by apply (inj (String.app dir)), (inj (String.app (path_sep p))) in H.
Qed.

(** The value the Spec holds decides [skip], and where it holds none, the
    members of [Object.prototype] do. *)
Lemma skip_own s file d :
  s !! file = Some d →
  Craft.skip s file =
    negb (bool_decide (d = EmptyString)) && negb (bool_decide (d = "replace")).
Proof. intros H. unfold Craft.skip, Js.get. by rewrite H. Qed.

Lemma skip_absent s file :
  s !! file = None →
  Craft.skip s file = bool_decide (file ∈ Js.object_prototype_names).
Proof.
  intros H. unfold Craft.skip, Js.get. rewrite H.
  by destruct (bool_decide (file ∈ Js.object_prototype_names)).
Qed.

Lemma skip_iff r w lines s file :
  Craft.load r w = (lines, Some s) →
  file ∉ Js.object_prototype_names →
  Craft.skip s file = true ↔ ∃ d, s !! file = Some d ∧ d ≠ "replace".
Proof.
  intros Hload Hname. destruct (s !! file) as [d|] eqn:E.
  - rewrite (skip_own _ _ _ E).
    pose proof (load_value_nonempty _ _ _ _ _ _ Hload E) as Hne.
    rewrite bool_decide_eq_false_2 by done. simpl. rewrite negb_true_iff.
    split.
    + intros H%bool_decide_eq_false. by exists d.
    + intros (d' & [= <-] & H). by apply bool_decide_eq_false.
  - rewrite (skip_absent _ _ E), bool_decide_eq_false_2 by done.
    split; [done|]. by intros (d & ? & _).
Qed.

(** X11. Away from the names of [Object.prototype], a top-level entry of the
    template is handed to [fs.copy], for the matching path under the
    project root, exactly when the Spec has no directive for its name or
    has [replace]. *)
Lemma top_level_copy_iff r w lines obj s files file :
  Craft.load r w = (lines, Some s) →
  spec obj = Some s →
  template_entries w = Some files →
  file ∈ files →
  file ∉ Js.object_prototype_names →
  Copy (path_join (host w) (tmpdir obj) file) (path_join (host w) (root w) file)
    ∈ (Craft.copy w obj).1
  ↔ s !! file = None ∨ s !! file = Some "replace".
Proof.
  intros Hload Hs Hfiles Hin Hname. rewrite (copy_run _ _ _ _ Hs Hfiles). simpl.
  rewrite !elem_of_cons, elem_of_app, !list_elem_of_fmap.
  assert (Craft.skip s file = false ↔ s !! file = None ∨ s !! file = Some "replace")
    as Hcopy.
  { destruct (Craft.skip s file) eqn:E;
      pose proof (skip_iff _ _ _ _ file Hload Hname) as Hskip.
    - apply Hskip in E as (d & Hd & Hne). rewrite Hd. split; [done|].
      intros [?|[= ->]]; done.
    - split; [|done]. intros _. destruct (s !! file) as [d|] eqn:Ed; [|by left].
      right. f_equal. destruct (decide (d = "replace")) as [|Hne]; [done|].
      assert (Craft.skip s file = true) as H by (apply Hskip; by exists d).
      congruence. }
  rewrite <- Hcopy. split.
  - intros [[=]|[[=]|[(file' & [= H1%path_join_inj _] & Hin')|(? & [=] & _)]]].
    subst file'. by apply copy_files_elem in Hin' as [_ ?].
  - intros H. right; right; left. exists file. split; [done|].
    by apply copy_files_elem.
Qed.

End Stages.

(** C2, at the input where the code departs from it: a top-level entry
    named like a member of [Object.prototype] has no directive in the Spec
    and yet [skip] holds for it, so the copy stage never hands it to
    [fs.copy]. *)
Theorem inherited_name_not_copied w obj s files name :
  spec obj = Some s →
  template_entries w = Some files →
  name ∈ Js.object_prototype_names →
  s !! name = None →
  Craft.skip s name = true ∧
  ∀ src dest, Copy src dest ∈ (Craft.copy w obj).1 →
              src ≠ path_join (host w) (tmpdir obj) name.
Proof.
  intros Hs Hfiles Hname Hnone.
  assert (Craft.skip s name = true) as Hskip
    by by rewrite (skip_absent _ _ Hnone), bool_decide_eq_true.
  split; [done|]. intros src dest. rewrite (copy_run _ _ _ _ Hs Hfiles). simpl.
  rewrite !elem_of_cons, elem_of_app, !list_elem_of_fmap.
  intros [[=]|[[=]|[(file & [= -> _] & Hin)|(? & [=] & _)]]] Heq.
  apply path_join_inj in Heq as ->.
  apply copy_files_elem in Hin as [_ Hin]. congruence.
Qed.

Lemma inherited_name_not_copied_witness :
  SpecFile.defaultSpec !! "constructor" = None ∧
  Craft.skip SpecFile.defaultSpec "constructor" = true ∧
  Craft.copy_files SpecFile.defaultSpec ["a.txt"; "constructor"] = ["a.txt"].
Proof.
  split; [reflexivity|]. split; [|reflexivity].
  refine (proj1 (inherited_name_not_copied Sample.with_constructor
                   {| tmpdir := "/tmp/tmp-1"; spec := Some SpecFile.defaultSpec |}
                   SpecFile.defaultSpec ["a.txt"; "constructor"] "constructor"
                   eq_refl eq_refl _ eq_refl)).
  apply (bool_decide_eq_true_1 _). reflexivity.
Defined.

Section Nested.

Lemma substring_from_join p dir rel :
  Js.substring_from (String.length dir + 1) (path_join p dir rel) = rel.
Proof.
  unfold path_join, path_sep.
  induction dir as [|c dir IH]; simpl; [by destruct rel|done].
Qed.

Lemma nested_not_inherited p rel :
  nested p rel = true → rel ∉ Js.object_prototype_names.
Proof.
  intros Hn Hin.
  assert (Forall (fun name => nested p name = false) Js.object_prototype_names) as Hall
    by (destruct p; repeat constructor).
  rewrite Forall_forall in Hall. apply Hall in Hin. congruence.
Qed.

End Nested.





(** ** Own properties and [Object.assign] *)

Section Assign.

Import Js.

Implicit Types (k : string) (v : value) (ps : list (string * value)) (t : target).

Lemma own_lookup_app k ps ps' :
  own_lookup k (ps ++ ps') =
    match own_lookup k ps' with
    | Some w => Some w
    | None => own_lookup k ps
    end.
Proof.
  induction ps as [|[k' v'] ps IH]; simpl.
  - by destruct (own_lookup k ps').
  - rewrite IH. by destruct (own_lookup k ps').
Qed.

Lemma has_own_false k ps : has_own k ps = false ↔ own_lookup k ps = None.
Proof.
  unfold has_own. rewrite bool_decide_eq_false.
  destruct (own_lookup k ps) as [w|]; split; try done.
  all: try (intros []; by exists w); by intros _ [? [=]].
Qed.

Lemma own_lookup_overwrite k k' v ps :
  own_lookup k (overwrite k' v ps) =
    if bool_decide (k' = k) then (fun _ => v) <$> own_lookup k ps else own_lookup k ps.
Proof.
  unfold overwrite. induction ps as [|[k0 v0] ps IH]; simpl.
  - by case_bool_decide.
  - rewrite IH. clear IH.
    destruct (own_lookup k ps); repeat (case_bool_decide; simpl in *); congruence.
Qed.

Lemma insert_index_split i k v ps :
  ∃ l1 l2, ps = l1 ++ l2 ∧ insert_index i k v ps = l1 ++ (k, v) :: l2.
Proof.
  induction ps as [|[k' v'] ps (l1 & l2 & -> & IH)]; simpl.
  - by exists [], [].
  - destruct (array_index k') as [j|].
    + destruct (i <? j)%N.
      * by exists [], ((k', v') :: l1 ++ l2).
      * exists ((k', v') :: l1), l2. by rewrite IH.
    + by exists [], ((k', v') :: l1 ++ l2).
Qed.

(** Creating or overwriting a property changes that property only. *)
Lemma own_lookup_define k k' v ps :
  own_lookup k (define k' v ps) =
    if bool_decide (k' = k) then Some v else own_lookup k ps.
Proof.
  unfold define. destruct (has_own k' ps) eqn:Hown.
  - rewrite own_lookup_overwrite. case_bool_decide; [|done]. subst.
    apply bool_decide_eq_true in Hown as [w ->]. done.
  - apply has_own_false in Hown.
    assert (∀ l1 l2, ps = l1 ++ l2 →
              own_lookup k (l1 ++ (k', v) :: l2) =
                if bool_decide (k' = k) then Some v else own_lookup k ps) as Hmid.
    { intros l1 l2 ->. rewrite own_lookup_app in Hown. rewrite !own_lookup_app. simpl.
      destruct (own_lookup k' l2) eqn:E2; [done|].
      case_bool_decide; subst.
      - by rewrite E2.
      - by destruct (own_lookup k l2). }
    destruct (array_index k') as [i|].
    + destruct (insert_index_split i k' v ps) as (l1 & l2 & Hps & ->). by apply Hmid.
    + apply (Hmid ps []). by rewrite app_nil_r.
Qed.

(** Writing a property into the target changes no other property, and
    changes that one unless it is [__proto__]. *)
Lemma assign_prop_lookup t (kv : string * value) k :
  k ≠ "__proto__" →
  own_lookup k (t_props (assign_prop t kv)) =
    if bool_decide (kv.1 = k) then Some kv.2 else own_lookup k (t_props t).
Proof.
  intros Hk. unfold assign_prop.
  destruct (bool_decide (kv.1 = "__proto__") && negb (has_own kv.1 (t_props t))
            && t_setter t) eqn:E.
  - apply andb_true_iff in E as [[E _]%andb_true_iff _].
    apply bool_decide_eq_true in E.
    rewrite bool_decide_eq_false_2 by congruence.
    by destruct kv.2.
  - simpl. apply own_lookup_define.
Qed.

Lemma assign_props_lookup t ps k :
  k ≠ "__proto__" →
  own_lookup k (t_props (foldl assign_prop t ps)) =
    match own_lookup k ps with
    | Some v => Some v
    | None => own_lookup k (t_props t)
    end.
Proof.
  intros Hk. revert t. induction ps as [|[k' v'] ps IH]; intros t; simpl; [done|].
  rewrite IH. destruct (own_lookup k ps); [done|].
  rewrite assign_prop_lookup by done. simpl. by case_bool_decide.
Qed.

(** One source laid over the target. *)
Lemma assign_source_lookup t source k :
  k ≠ "__proto__" →
  own_lookup k (t_props (assign_source t source)) =
    match field source k with
    | Some v => Some v
    | None => own_lookup k (t_props t)
    end.
Proof. intros Hk. unfold assign_source, field. by apply assign_props_lookup. Qed.

Lemma assign2_field a b k :
  k ≠ "__proto__" →
  field (assign [a; b]) k =
    match field b k with
    | Some v => Some v
    | None => field a k
    end.
Proof.
  intros Hk. unfold assign, field at 1. simpl.
  rewrite !assign_source_lookup by done. simpl.
  by destruct (field b k), (field a k).
Qed.

Lemma assign3_field a b c k :
  k ≠ "__proto__" →
  field (assign [a; b; c]) k =
    match field c k with
    | Some v => Some v
    | None =>
        match field b k with
        | Some v => Some v
        | None => field a k
        end
    end.
Proof.
  intros Hk. unfold assign, field at 1. simpl.
  rewrite !assign_source_lookup by done. simpl.
  by destruct (field c k), (field b k), (field a k).
Qed.

End Assign.

(** ** The manifest stage *)

Section Manifest.

Import Js.

Implicit Types (k : string) (v template app merged : value) (w : world) (obj : context).

Lemma get_prop_some v k x : get_prop v k = Some x → x = Craft.prop v k.
Proof. unfold get_prop, Craft.prop. destruct v; by intros [= <-]. Qed.

Lemma field_literal_scripts scripts k :
  field (VObj [("scripts", scripts)]) k =
    if bool_decide (k = "scripts") then Some scripts else None.
Proof. unfold field. simpl. repeat case_bool_decide; congruence. Qed.

Lemma field_literal_scripts_eslint scripts eslintConfig k :
  field (VObj [("scripts", scripts); ("eslintConfig", eslintConfig)]) k =
    if bool_decide (k = "eslintConfig") then Some eslintConfig
    else if bool_decide (k = "scripts") then Some scripts else None.
Proof. unfold field. simpl. repeat case_bool_decide; congruence. Qed.

(** The merge gives each field the value [merged_as_amended] names. *)
Lemma merge_manifests_as_amended r template app merged :
  Craft.merge_manifests r template app = Some merged →
  Craft.merged_as_amended r template app merged.
Proof.
  unfold Craft.merge_manifests.
  destruct (get_prop app "scripts") as [app_scripts|] eqn:Ea; [|done].
  destruct (get_prop template "scripts") as [template_scripts|] eqn:Et; [|done].
  apply get_prop_some in Ea as ->. apply get_prop_some in Et as ->. simpl.
  destruct r.
  - intros [= <-]. split; [|split; [|done]].
    + intros k Hp Hs _. rewrite assign3_field, field_literal_scripts by done.
      by rewrite bool_decide_eq_false_2.
    + eexists. split.
      * by rewrite assign3_field, field_literal_scripts.
      * intros k Hp. by apply assign2_field.
  - destruct (get_prop template "eslintConfig") as [te|] eqn:Ete; [|done].
    destruct (get_prop app "eslintConfig") as [ae|] eqn:Eae; [|done].
    apply get_prop_some in Ete as ->. apply get_prop_some in Eae as ->. simpl.
    intros [= <-]. split; [|split].
    + intros k Hp Hs He. rewrite assign3_field, field_literal_scripts_eslint by done.
      by rewrite !bool_decide_eq_false_2 by auto.
    + eexists. split.
      * by rewrite assign3_field, field_literal_scripts_eslint.
      * intros k Hp. by apply assign2_field.
    + intros _. by rewrite assign3_field, field_literal_scripts_eslint.
Qed.

End Manifest.

Section ManifestStage.

Import Js.

Implicit Types (w : world) (obj : context) (r : revision).

Lemma already_installed_elem r w (e : event) : e ∉ (Craft.already_installed r w).1.
Proof.
  destruct r; simpl; [apply not_elem_of_nil|].
  intros [H%read_elem|(a & _ & H)]%bind_elem; [done|].
  apply bind_elem in H as [H%lift_elem|(d & _ & H)]; [done|].
  by apply not_elem_of_nil in H.
Qed.

(** The only thing an installation does is to start [npm]. *)
Lemma install_elem w dependencies (e : event) :
  e ∈ (Craft.install w dependencies).1 →
  ∃ args, Craft.install_args dependencies = Some args ∧ e = Spawn "npm" args.
Proof.
  unfold Craft.install.
  intros [H%lift_elem|(args & Hargs%lift_resolved & H)]%bind_elem; [done|].
  exists args. split; [done|].
  apply bind_elem in H as [H%list_elem_of_singleton|(u & _ & H)]; [done|].
  destruct (exited_ok (install_exit w)); [by apply not_elem_of_nil in H|].
  unfold Craft.reject_failed in H. simpl in H. by apply not_elem_of_nil in H.
Qed.

Lemma strict_eq_own (s : gmap string string) k d :
  strict_eq (get s k) d = true → s !! k = Some d.
Proof.
  unfold strict_eq, get. destruct (s !! k) as [d'|].
  - by intros ->%bool_decide_eq_true.
  - by case_bool_decide.
Qed.

(** Every step that leads the manifest stage to a write. *)
Lemma manifest_write_inv r w obj path text :
  WriteFile path text ∈ (Craft.manifest r w obj).1 →
  ∃ s template dependencies names pruned app merged,
    spec obj = Some s ∧ s !! "package.json" = Some "merge" ∧
    template_manifest w = Some template ∧
    get_prop template "dependencies" = Some dependencies ∧
    (Craft.already_installed r w).2 = resolved names ∧
    Craft.prune names (or_else dependencies (VObj [])) = Some pruned ∧
    baseline_manifest_after w = Some app ∧
    Craft.merge_manifests r (Craft.after_prune template dependencies pruned) app
      = Some merged ∧
    stringify merged 2 = Some text ∧
    path = path_join (host w) (root w) "package.json".
Proof.
  unfold Craft.manifest. intros H.
  apply bind_elem in H as [H%lift_elem|(s & Hs%lift_resolved & H)]; [done|].
  destruct (strict_eq (get s "package.json") "merge") eqn:Hmerge; cbn [negb] in H;
    [|by apply not_elem_of_nil in H].
  apply strict_eq_own in Hmerge.
  apply bind_elem in H as [H|(u & _ & H)].
  { simpl in H. repeat (apply elem_of_cons in H as [[=]|H]). by apply not_elem_of_nil in H. }
  destruct (template_manifest w) as [template|] eqn:Ht; [|by apply not_elem_of_nil in H].
  apply bind_elem in H as [H%lift_elem|(dependencies & Hd%lift_resolved & H)]; [done|].
  apply bind_elem in H as [H%already_installed_elem|(names & Hnames & H)]; [done|].
  apply bind_elem in H as [H%lift_elem|(pruned & Hpruned%lift_resolved & H)]; [done|].
  apply bind_elem in H as [(args & _ & [=])%install_elem|(u' & _ & H)].
  apply bind_elem in H as [H%read_elem|(app & Happ%read_resolved & H)]; [done|].
  apply bind_elem in H as [H%lift_elem|(merged & Hmerged%lift_resolved & H)]; [done|].
  apply bind_elem in H as [H%lift_elem|(text' & Htext%lift_resolved & H)]; [done|].
  apply bind_elem in H as [H|(u'' & _ & H)]; [|by apply not_elem_of_nil in H].
  apply list_elem_of_singleton in H as [= -> ->].
  by exists s, template, dependencies, names, pruned, app, merged.
Qed.

(** The way to the write, forwards: when each step succeeds, the stage
    starts [npm], writes the merged manifest and resolves. *)
Lemma manifest_writes r w obj s template dependencies names pruned args app merged text :
  spec obj = Some s →
  s !! "package.json" = Some "merge" →
  template_manifest w = Some template →
  get_prop template "dependencies" = Some dependencies →
  Craft.already_installed r w = ([], resolved names) →
  Craft.prune names (or_else dependencies (VObj [])) = Some pruned →
  Craft.install_args pruned = Some args →
  install_exit w = Some 0 →
  baseline_manifest_after w = Some app →
  Craft.merge_manifests r (Craft.after_prune template dependencies pruned) app
    = Some merged →
  stringify merged 2 = Some text →
  Craft.manifest r w obj =
    ([Log EmptyString; Log "Installing template packages..."; Chdir (root w);
      Spawn "npm" args;
      WriteFile (path_join (host w) (root w) "package.json") text],
     resolved obj).
Proof.
  intros Hs Hmerge Ht Hd Hnames Hpruned Hargs Hexit Happ Hmerged Htext.
  assert (strict_eq (get s "package.json") "merge" = true) as Hse
    by (unfold get; by rewrite Hmerge).
  unfold Craft.manifest, Craft.install, lift, read, emit, mbind, M_bind, mret, M_ret.
  rewrite Hs. simpl. rewrite Hse. simpl. rewrite Ht, Hd. simpl.
  rewrite Hnames. simpl. rewrite Hpruned. simpl. rewrite Hargs, Hexit. simpl.
  rewrite Happ. simpl. rewrite Hmerged. simpl. rewrite Htext. done.
Qed.

(** An object always serialises, and two manifests that are neither
    [null] nor [undefined] always merge. *)
Lemma stringify_object ps n : is_Some (stringify (VObj ps) n).
Proof. by eexists. Qed.

Lemma merge_manifests_total r template app :
  is_Some (get_prop template "scripts") →
  is_Some (get_prop app "scripts") →
  ∃ ps, Craft.merge_manifests r template app = Some (VObj ps).
Proof.
  intros [ts Hts] [as_ Has]. unfold Craft.merge_manifests. rewrite Has, Hts. simpl.
  destruct r; [by eexists|].
  assert (∀ v k x, get_prop v "scripts" = Some x → is_Some (get_prop v k)) as Hany
    by (intros v k x; destruct v; by eexists).
  destruct (Hany _ "eslintConfig" _ Hts) as [te ->].
  destruct (Hany _ "eslintConfig" _ Has) as [ae ->]. simpl. by eexists.
Qed.

End ManifestStage.

(** C4, amended. Whenever the manifest stage writes a file, the Spec maps
    the manifest to [merge], both manifests were read, the file is the
    manifest of the project, and its text is the JSON rendering, indented
    by two spaces, of an object in which: every field other than
    [scripts], [__proto__] and, in the [craft.yaml] revision,
    [eslintConfig], is the project's where the project has it and else the
    template's as the pruning of its dependencies left it; [scripts] holds
    the template's scripts over the project's; and, in the [craft.yaml]
    revision, [eslintConfig] is the template's value when that value is
    truthy, and the project's otherwise. *)
Theorem merged_manifest_written r w obj path text :
  WriteFile path text ∈ (Craft.manifest r w obj).1 →
  ∃ s template dependencies names pruned app merged,
    spec obj = Some s ∧ s !! "package.json" = Some "merge" ∧
    template_manifest w = Some template ∧
    Js.get_prop template "dependencies" = Some dependencies ∧
    (Craft.already_installed r w).2 = resolved names ∧
    Craft.prune names (Js.or_else dependencies (Js.VObj [])) = Some pruned ∧
    baseline_manifest_after w = Some app ∧
    path = path_join (host w) (root w) "package.json" ∧
    Js.stringify merged 2 = Some text ∧
    Craft.merged_as_amended r (Craft.after_prune template dependencies pruned) app merged.
Proof.
  intros H. apply manifest_write_inv in H
    as (s & template & dependencies & names & pruned & app & merged
        & Hs & Hm & Ht & Hd & Hn & Hp & Ha & Hmerged & Htext & ->).
  exists s, template, dependencies, names, pruned, app, merged.
  repeat (split; [done|]). by apply merge_manifests_as_amended.
Qed.

(** Find an event in an explicit list. *)
Ltac find_event :=
  repeat first [ apply list_elem_of_here | apply list_elem_of_further ].

Lemma merged_manifest_written_witness :
  let w := Sample.with_empty_yaml in
  let obj := {| tmpdir := "/tmp/tmp-1"; spec := (Craft.load craft_yaml w).2 |} in
  ∃ text,
    WriteFile "/home/dev/my-app/package.json" text ∈ (Craft.manifest craft_yaml w obj).1 ∧
    (∃ rest, text = "{" +:+ Js.NL +:+ "  " +:+ String Js.QUOTE "name" +:+ rest) ∧
    ∃ merged,
      Js.stringify merged 2 = Some text ∧
      Js.field merged "name" = Some (Js.VStr "app") ∧
      Js.field (Craft.prop merged "scripts") "build" = Some (Js.VStr "custom-build") ∧
      Js.field (Craft.prop merged "scripts") "test" = Some (Js.VStr "react-scripts test").
Proof.
  intros w obj. eexists. split; [vm_compute; find_event|].
  split; [eexists; reflexivity|].
  match goal with
  | |- ∃ merged, Js.stringify merged 2 = Some ?text ∧ _ =>
      assert (WriteFile "/home/dev/my-app/package.json" text
                ∈ (Craft.manifest craft_yaml w obj).1) as Hin
        by (vm_compute; find_event)
  end.
  destruct (merged_manifest_written craft_yaml w obj _ _ Hin)
    as (s & template & dependencies & names & pruned & app & merged
        & Hs & Hm & Ht & Hd & Hn & Hp & Ha & _ & Htext & Hfields & Hscripts & _).
  exists merged. split; [exact Htext|].
  injection Ht as <-. injection Ha as <-. injection Hd as <-.
  injection Hn as <-. injection Hp as <-.
  destruct Hscripts as (scripts & Hsc & Hall). unfold Craft.prop. rewrite Hsc.
  split; [|split].
  - rewrite Hfields; [reflexivity|discriminate..].
  - rewrite Hall; [reflexivity|discriminate].
  - rewrite Hall; [reflexivity|discriminate].
Defined.

(** C4 as worded fails twice over. In the [craft.yaml] revision a template
    manifest whose [eslintConfig] is [false] has the field, and the
    manifest written carries the project's value. In the [craft.spec]
    revision, whose merge is that of the earlier `index.js` too, nothing
    forces [eslintConfig]: the project's value wins over the template's as
    for any other field. *)
Lemma eslint_counterexample :
  (∃ merged,
      Craft.merge_manifests craft_yaml Sample.eslint_off_json Sample.baseline_json
        = Some merged ∧
      Js.field Sample.eslint_off_json "eslintConfig" = Some (Js.VBool false) ∧
      Js.field merged "eslintConfig"
        = Some (Js.VObj [("extends", Js.VStr "react-app")]) ∧
      ¬ Craft.eslint_as_specified Sample.eslint_off_json Sample.baseline_json merged) ∧
  (∃ merged,
      Craft.merge_manifests craft_spec Sample.eslint_custom_json Sample.baseline_json
        = Some merged ∧
      Js.field Sample.eslint_custom_json "eslintConfig"
        = Some (Js.VObj [("extends", Js.VStr "airbnb")]) ∧
      Js.field merged "eslintConfig"
        = Some (Js.VObj [("extends", Js.VStr "react-app")]) ∧
      ¬ Craft.eslint_as_specified Sample.eslint_custom_json Sample.baseline_json merged).
Proof.
  split; eexists; (split; [reflexivity|]); (split; [reflexivity|]);
    (split; [reflexivity|]); unfold Craft.eslint_as_specified; vm_compute; discriminate.
Qed.

(** ** Which packages are installed *)

Section Install.

Import Js.

Implicit Types (w : world) (obj : context) (ps : list (string * value)).

Lemma prune_object names ps :
  Craft.prune names (VObj ps) =
    Some (VObj (filter (fun kv : string * value => kv.1 ∉ names) ps)).
Proof.
  unfold Craft.prune. revert ps. induction names as [|name names IH]; intros ps; simpl.
  - do 2 f_equal. induction ps as [|kv ps IHps]; [done|].
    rewrite filter_cons_True by apply not_elem_of_nil. by f_equal.
  - rewrite IH. do 2 f_equal. rewrite list_filter_filter.
    apply list_filter_iff. intros [k v]. simpl. rewrite not_elem_of_cons. tauto.
Qed.

Lemma packages_object ps specs :
  Craft.packages (VObj ps) = Some specs →
  ∀ spec, spec ∈ specs ↔
          (∃ name v version, (name, v) ∈ ps ∧ to_string v = Some version ∧
                             spec = name +:+ "@" +:+ version).
Proof.
  unfold Craft.packages. simpl. rewrite mapM_Some. intros Hall spec. split.
  - intros [i Hi]%list_elem_of_lookup.
    destruct (Forall2_lookup_r _ _ _ _ _ Hall Hi) as ([name v] & Hkv & H). simpl in H.
    destruct (to_string v) as [version|] eqn:E; [|done]. injection H as <-.
    exists name, v, version. split; [|done]. apply list_elem_of_lookup. by exists i.
  - intros (name & v & version & [i Hi]%list_elem_of_lookup & Hv & ->).
    destruct (Forall2_lookup_l _ _ _ _ _ Hall Hi) as (spec & Hspec & H). simpl in H.
    rewrite Hv in H. injection H as <-. apply list_elem_of_lookup. by exists i.
Qed.

(** In the [craft.yaml] revision the arguments given to [npm] are the fixed
    options followed by the packages of the template's dependencies from
    which the names of the project's dependencies were deleted. *)
Lemma yaml_install_inv w obj args :
  Spawn "npm" args ∈ (Craft.manifest craft_yaml w obj).1 →
  ∃ template baseline pruned specs,
    template_manifest w = Some template ∧
    baseline_manifest w = Some baseline ∧
    Craft.prune (keys (or_else (Craft.prop baseline "dependencies") (VObj [])))
                (or_else (Craft.prop template "dependencies") (VObj [])) = Some pruned ∧
    Craft.packages pruned = Some specs ∧
    args = ["install"; "--save"; "--loglevel"; "error"] ++ specs.
Proof.
  unfold Craft.manifest. intros H.
  apply bind_elem in H as [H%lift_elem|(s & Hs%lift_resolved & H)]; [done|].
  destruct (strict_eq (get s "package.json") "merge") eqn:Hmerge; cbn [negb] in H;
    [|by apply not_elem_of_nil in H].
  apply bind_elem in H as [H|(u & _ & H)].
  { simpl in H. repeat (apply elem_of_cons in H as [[=]|H]). by apply not_elem_of_nil in H. }
  destruct (template_manifest w) as [template|] eqn:Ht; [|by apply not_elem_of_nil in H].
  apply bind_elem in H as [H%lift_elem|(dependencies & Hd%lift_resolved & H)]; [done|].
  apply bind_elem in H as [H%already_installed_elem|(names & Hnames & H)]; [done|].
  apply bind_elem in H as [H%lift_elem|(pruned & Hpruned%lift_resolved & H)]; [done|].
  apply get_prop_some in Hd as ->.
  simpl in Hnames.
  destruct (baseline_manifest w) as [baseline|] eqn:Hb; [|done].
  unfold read, mbind, M_bind in Hnames. simpl in Hnames.
  destruct (get_prop baseline "dependencies") as [bd|] eqn:Hbd; [|done].
  apply get_prop_some in Hbd as ->. simpl in Hnames. injection Hnames as <-.
  apply bind_elem in H as [(args' & Hargs & [= <-])%install_elem|(u' & _ & H)].
  - unfold Craft.install_args in Hargs.
    destruct (Craft.packages pruned) as [specs|] eqn:Hspecs; [|done].
    injection Hargs as <-. by exists template, baseline, pruned, specs.
  - apply bind_elem in H as [H%read_elem|(app & _ & H)]; [done|].
    apply bind_elem in H as [H%lift_elem|(merged & _ & H)]; [done|].
    apply bind_elem in H as [H%lift_elem|(text & _ & H)]; [done|].
    apply bind_elem in H as [H|(u'' & _ & H)]; [|by apply not_elem_of_nil in H].
    by apply list_elem_of_singleton in H.
Qed.

(** X16. The [craft.yaml] revision, for a template whose dependencies are an
    object: a package is handed to [npm] exactly when it renders a
    dependency of the template whose name the project's manifest, as the
    generator wrote it, does not hold. *)
Lemma yaml_installs_template_only w obj args template baseline ps :
  Spawn "npm" args ∈ (Craft.manifest craft_yaml w obj).1 →
  template_manifest w = Some template →
  baseline_manifest w = Some baseline →
  or_else (Craft.prop template "dependencies") (VObj []) = VObj ps →
  ∃ specs,
    args = ["install"; "--save"; "--loglevel"; "error"] ++ specs ∧
    ∀ spec, spec ∈ specs ↔
            (∃ name v version,
                (name, v) ∈ ps ∧
                (name ∉ keys (or_else (Craft.prop baseline "dependencies") (VObj []))) ∧
                to_string v = Some version ∧
                spec = name +:+ "@" +:+ version).
Proof.
  intros H Ht Hb Hps.
  apply yaml_install_inv in H as (t & b & pruned & specs & Ht' & Hb' & Hp & Hspecs & ->).
  rewrite Ht in Ht'. rewrite Hb in Hb'. injection Ht' as <-. injection Hb' as <-.
  rewrite Hps, prune_object in Hp. injection Hp as <-.
  exists specs. split; [done|]. intros spec.
  rewrite (packages_object _ _ Hspecs spec). split.
  - intros (name & v & version & [Hn Hin]%list_elem_of_filter & Hv & ->).
    by exists name, v, version.
  - intros (name & v & version & Hin & Hn & Hv & ->).
    exists name, v, version. split; [|done]. by apply list_elem_of_filter.
Qed.

End Install.

(** C5, at the input where the [craft.spec] revision departs from it: the
    generator's manifest already depends on [web-vitals], the template
    asks for it as well, and it is handed to [npm] all the same, the names
    left out being a fixed list; the [craft.yaml] revision leaves it out. *)
Theorem fixed_list_installs_present_dependency :
  Js.field (Craft.prop Sample.vitals_baseline_json "dependencies") "web-vitals"
    = Some (Js.VStr "^0.2.4") ∧
  Spawn "npm" ["install"; "--save"; "--loglevel"; "error";
               "lodash@^4.0.0"; "web-vitals@^1.0.0"]
    ∈ (Craft.run craft_spec Sample.with_vitals).1 ∧
  Spawn "npm" ["install"; "--save"; "--loglevel"; "error"; "lodash@^4.0.0"]
    ∈ (Craft.run craft_yaml Sample.with_vitals).1.
Proof.
  split; [reflexivity|]. split; vm_compute; find_event.
Qed.

(** ** Loading the configuration and going on *)

Section Fallback.

Implicit Types (w : world) (p : platform).

(** The [craft.spec] revision: no file gives the defaults and no output;
    a file that cannot be read gives the defaults and a warning; and a
    Spec is there in every case. *)
Lemma readSpec_falls_back p :
  SpecFile.readSpec p absent = (SpecFile.defaultSpec, []) ∧
  SpecFile.readSpec p unreadable =
    (SpecFile.defaultSpec,
     [ "Using template specification from craft.spec.";
       chalk red "Failed to read craft.spec. Using defaults." ]).
Proof. done. Qed.

Lemma spec_file_always_loads w : is_Some (Craft.load craft_spec w).2.
Proof. by eexists. Qed.

(** The [craft.yaml] revision returns an object without [spec] unless a
    file was found, loaded and normalised. *)
Lemma readConfig_without_content p yaml yml :
  (∀ config, Yaml.chosen yaml yml ≠ content config) →
  (Yaml.readConfig p yaml yml).2 = None.
Proof.
  unfold Yaml.chosen, Yaml.readConfig. intros H.
  destruct yaml as [| |v]; simpl in *; [|done|by destruct (H v)].
  destruct yml as [| |v]; simpl in *; [done..|by destruct (H v)].
Qed.

Lemma delete_without_spec w dir :
  Craft.delete w {| tmpdir := dir; spec := None |} =
    ([Log EmptyString; Log "Deleting files..."], rejected (thrown TypeError)).
Proof. done. Qed.

End Fallback.

(** C7, at the inputs where the [craft.yaml] revision departs from it: when
    the template holds no configuration file, or holds one that cannot be
    read or parsed, [readConfig] returns an object without a Spec rather
    than the defaults, the delete stage throws on it, and the run
    aborts. *)
Theorem yaml_without_config_aborts w dir :
  exited_ok (createApp_exit w) = true →
  tmp_dir w = Some dir →
  exited_ok (clone_exit w) = true →
  (∀ config, Yaml.chosen (craft_yaml_file w) (craft_yml_file w) ≠ content config) →
  (Craft.load craft_yaml w).2 = None ∧
  (Craft.chain craft_yaml w).2 = rejected (thrown TypeError) ∧
  (Craft.run craft_yaml w).2 = Craft.aborted.
Proof.
  intros Hgen Hdir Hclone Hconfig.
  assert ((Craft.load craft_yaml w).2 = None) as Hload
    by by apply readConfig_without_content.
  split; [done|].
  assert ((Craft.chain craft_yaml w).2 = rejected (thrown TypeError)) as Hchain.
  { destruct (Craft.load craft_yaml w) as [lines o] eqn:E. simpl in Hload. subst o.
    unfold Craft.chain, Craft.createApp, Craft.clone, read, emit, mbind, M_bind, mret, M_ret.
    rewrite Hgen, Hdir, Hclone, E. done. }
  split; [done|]. unfold Craft.run, Craft.catch. by rewrite Hchain.
Qed.

Lemma yaml_without_config_aborts_witness :
  (Craft.load craft_yaml Sample.bare).2 = None ∧
  (Craft.run craft_yaml Sample.bare).2 = Craft.aborted ∧
  (Craft.run craft_spec Sample.bare).2 = Craft.completed.
Proof.
  assert (∀ config,
            Yaml.chosen (craft_yaml_file Sample.bare) (craft_yml_file Sample.bare)
            ≠ content config) as H by (intros config; discriminate).
  destruct (yaml_without_config_aborts Sample.bare "/tmp/tmp-1" eq_refl eq_refl eq_refl H)
    as (Hload & _ & Hrun).
  split; [exact Hload|]. split; [exact Hrun|reflexivity].
Defined.

(** ** Failing subprocesses *)

Section Subprocesses.

Implicit Types (w : world) (r : revision).

(** X20. The generator fails: nothing else is started and the handler names the
    command line. *)
Lemma failed_generator_reported r w :
  exited_ok (createApp_exit w) = false →
  Craft.run r w =
    (let command := if npx w then "npx" else "create-react-app" in
     let args := if npx w then ["create-react-app"; projectName w] else [projectName w] in
     [ Spawn command args; Log EmptyString; Log "Aborting installation.";
       Log ("  " +:+ chalk cyan (command +:+ " " +:+ Js.join " " args) +:+ " has failed.");
       Log EmptyString ],
     Craft.aborted).
Proof.
  intros H. unfold Craft.run, Craft.chain, Craft.createApp, emit, mbind, M_bind.
  rewrite H. by destruct (npx w).
Qed.

(** X21. The clone fails: the configuration is still looked for, no later stage
    runs and the handler names the command line. *)
Lemma failed_clone_reported r w dir :
  exited_ok (createApp_exit w) = true →
  tmp_dir w = Some dir →
  exited_ok (clone_exit w) = false →
  Craft.run r w =
    (let command := if npx w then "npx" else "create-react-app" in
     let args := if npx w then ["create-react-app"; projectName w] else [projectName w] in
     [ Spawn command args; Log EmptyString;
       Log (chalk magenta "Applying custom template..."); Log EmptyString;
       Spawn "git" ["clone"; projectTemplate w; dir] ]
       ++ (Log <$> (Craft.load r w).1)
       ++ [ Log EmptyString; Log "Aborting installation.";
            Log ("  " +:+ chalk cyan ("git clone " +:+ projectTemplate w +:+ " " +:+ dir)
                      +:+ " has failed.");
            Log EmptyString ],
     Craft.aborted).
Proof.
  intros Hgen Hdir Hclone.
  unfold Craft.run, Craft.chain, Craft.createApp, Craft.clone, read, emit, mbind, M_bind,
    mret, M_ret.
  rewrite Hgen, Hdir, Hclone. simpl. unfold Craft.catch. simpl. done.
Qed.

End Subprocesses.

Section InstallFailure.

Implicit Types (w : world) (r : revision) (obj : context).

(** An event of a bind that the first stage did not emit comes from the
    second, whose outcome is then that of the whole. *)
Lemma bind_elem_outcome {A B : Type} (m : M A) (f : A → M B) (e : event) :
  e ∈ (m ≫= f).1 → e ∉ m.1 →
  ∃ a, m.2 = resolved a ∧ e ∈ (f a).1 ∧ (m ≫= f).2 = (f a).2.
Proof.
  unfold mbind, M_bind. destruct m as [es [a|reason|err]]; simpl; [|done..].
  rewrite elem_of_app. intros [?|?] ?; [done|]. by exists a.
Qed.

Lemma bind_outcome_uncaught {A B : Type} (m : M A) (f : A → M B) err :
  m.2 = uncaught err → (m ≫= f).2 = uncaught err.
Proof. unfold mbind, M_bind. by intros ->. Qed.

Lemma emit_logs_no_spawn (lines : list string) command args :
  Spawn command args ∉ (Log <$> lines).
Proof. by intros (line & [=] & _)%list_elem_of_fmap. Qed.

Lemma createApp_no_npm w args : Spawn "npm" args ∉ (Craft.createApp w).1.
Proof.
  unfold Craft.createApp.
  intros [H|(u & _ & H)]%bind_elem.
  - apply list_elem_of_singleton in H. by destruct (npx w).
  - destruct (exited_ok (createApp_exit w)); by apply not_elem_of_nil in H.
Qed.

Lemma clone_no_npm r w args : Spawn "npm" args ∉ (Craft.clone r w).1.
Proof.
  unfold Craft.clone. intros H.
  apply bind_elem in H as [H|(u & _ & H)].
  { simpl in H. repeat (apply elem_of_cons in H as [[=]|H]). by apply not_elem_of_nil in H. }
  apply bind_elem in H as [H%read_elem|(dir & _ & H)]; [done|].
  apply bind_elem in H as [H%list_elem_of_singleton|(u1 & _ & H)]; [done|].
  apply bind_elem in H as [H|(u2 & _ & H)].
  { destruct (exited_ok (clone_exit w)); simpl in H.
    - by apply not_elem_of_nil in H.
    - by apply emit_logs_no_spawn in H. }
  apply bind_elem in H as [H%emit_logs_no_spawn|(u3 & _ & H)]; [done|].
  by apply not_elem_of_nil in H.
Qed.

Lemma delete_no_npm w obj args : Spawn "npm" args ∉ (Craft.delete w obj).1.
Proof.
  unfold Craft.delete. intros H.
  apply bind_elem in H as [H|(u & _ & H)].
  { simpl in H. repeat (apply elem_of_cons in H as [[=]|H]). by apply not_elem_of_nil in H. }
  apply bind_elem in H as [H%lift_elem|(s & _ & H)]; [done|].
  apply bind_elem in H as [(? & [=] & _)%list_elem_of_fmap|(u1 & _ & H)].
  apply bind_elem in H as [(? & [=] & _)%list_elem_of_fmap|(u2 & _ & H)].
  by apply not_elem_of_nil in H.
Qed.

Lemma copy_no_npm w obj args : Spawn "npm" args ∉ (Craft.copy w obj).1.
Proof.
  unfold Craft.copy. intros H.
  apply bind_elem in H as [H|(u & _ & H)].
  { simpl in H. repeat (apply elem_of_cons in H as [[=]|H]). by apply not_elem_of_nil in H. }
  apply bind_elem in H as [H%read_elem|(files & _ & H)]; [done|].
  apply bind_elem in H as [H%lift_elem|(copied & _ & H)]; [done|].
  apply bind_elem in H as [(? & [=] & _)%list_elem_of_fmap|(u1 & _ & H)].
  apply bind_elem in H as [(? & [=] & _)%list_elem_of_fmap|(u2 & _ & H)].
  by apply not_elem_of_nil in H.
Qed.

(** A failing [npm] leaves [install] with the escaped error. *)
Lemma install_fails w dependencies args :
  Craft.install_args dependencies = Some args →
  exited_ok (install_exit w) = false →
  Craft.install w dependencies =
    ([Spawn "npm" args], uncaught (ReferenceError "command")).
Proof.
  intros Hargs Hexit. unfold Craft.install, lift, emit, mbind, M_bind, mret, M_ret.
  rewrite Hargs. simpl. rewrite Hexit. done.
Qed.

(** Once the manifest stage has started [npm] and [npm] fails, the stage
    ends with the escaped error. *)
Lemma manifest_install_fails r w obj args :
  Spawn "npm" args ∈ (Craft.manifest r w obj).1 →
  exited_ok (install_exit w) = false →
  (Craft.manifest r w obj).2 = uncaught (ReferenceError "command").
Proof.
  unfold Craft.manifest. intros H Hexit.
  apply bind_elem_outcome in H as (s & _ & H & ->); [|apply lift_elem].
  destruct (Js.strict_eq (Js.get s "package.json") "merge"); cbn [negb] in *;
    [|by apply not_elem_of_nil in H].
  apply bind_elem_outcome in H as (u & _ & H & ->).
  2: { simpl. intros Hin. repeat (apply elem_of_cons in Hin as [[=]|Hin]).
       by apply not_elem_of_nil in Hin. }
  destruct (template_manifest w) as [template|]; [|by apply not_elem_of_nil in H].
  apply bind_elem_outcome in H as (dependencies & _ & H & ->); [|apply lift_elem].
  apply bind_elem_outcome in H as (names & _ & H & ->); [|apply already_installed_elem].
  apply bind_elem_outcome in H as (pruned & _ & H & ->); [|apply lift_elem].
  apply bind_outcome_uncaught.
  destruct (Craft.install_args pruned) as [args'|] eqn:Hargs.
  - by rewrite (install_fails _ _ _ Hargs Hexit).
  - apply bind_elem in H as [(? & ? & _)%install_elem|(u1 & Hu & _)]; [congruence|].
    unfold Craft.install, lift in Hu. by rewrite Hargs in Hu.
Qed.

End InstallFailure.

(** C9, at the input where the code departs from it: when [npm] exits with
    a status other than zero, the listener in [install] names [command],
    which nothing binds there; the [ReferenceError] escapes the listener,
    the promise is never rejected and the handler at the end of the chain
    does not run, so the run ends there and no command line is printed
    after the start of [npm]. *)
Theorem failed_install_escapes r w args :
  Spawn "npm" args ∈ (Craft.chain r w).1 →
  exited_ok (install_exit w) = false →
  Craft.run r w = ((Craft.chain r w).1, Craft.crashed (ReferenceError "command")).
Proof.
  intros H Hexit.
  assert ((Craft.chain r w).2 = uncaught (ReferenceError "command")) as Hout.
  { unfold Craft.chain in *.
    apply bind_elem_outcome in H as (u & _ & H & ->); [|apply createApp_no_npm].
    apply bind_elem_outcome in H as (obj1 & _ & H & ->); [|apply clone_no_npm].
    apply bind_elem_outcome in H as (obj2 & _ & H & ->); [|apply delete_no_npm].
    apply bind_elem_outcome in H as (obj3 & _ & H & ->); [|apply copy_no_npm].
    apply bind_outcome_uncaught.
    apply bind_elem in H as [H|(obj4 & _ & H)].
    - by eapply manifest_install_fails.
    - simpl in H. repeat (apply elem_of_cons in H as [[=]|H]).
      by apply not_elem_of_nil in H. }
  unfold Craft.run, Craft.catch. by rewrite Hout.
Qed.

Lemma failed_install_escapes_witness :
  let w := Sample.npm_fails Sample.bare in
  let args := ["install"; "--save"; "--loglevel"; "error"; "lodash@^4.0.0"] in
  Spawn "npm" args ∈ (Craft.run craft_spec w).1 ∧
  (Craft.run craft_spec w).2 = Craft.crashed (ReferenceError "command") ∧
  (Log ("  " +:+ chalk cyan ("npm " +:+ Js.join " " args) +:+ " has failed.")
     ∉ (Craft.run craft_spec w).1) ∧
  (Craft.run craft_yaml (Sample.npm_fails Sample.with_empty_yaml)).2
    = Craft.crashed (ReferenceError "command").
Proof.
  intros w args.
  assert (Spawn "npm" args ∈ (Craft.chain craft_spec w).1) as Hin
    by (vm_compute; find_event).
  rewrite (failed_install_escapes craft_spec w args Hin eq_refl).
  split; [exact Hin|]. split; [reflexivity|]. split; [|reflexivity].
  intros Hlog. vm_compute in Hlog.
  repeat (apply elem_of_cons in Hlog as [Heq|Hlog]; [discriminate Heq|]).
  by apply not_elem_of_nil in Hlog.
Defined.

(** ** The scenarios of the specification *)

Section Scenarios.

Import Js.

(** Defaults only: of [a.txt], [node_modules] and [package.json], the copy
    stage hands [a.txt] alone to [fs.copy]. *)
Example scenario_copy_defaults :
  Craft.copy_files Yaml.defaultSpec ["a.txt"; "node_modules"; "package.json"] = ["a.txt"] ∧
  Craft.copy_files SpecFile.defaultSpec ["a.txt"; "node_modules"; "package.json"]
    = ["a.txt"].
Proof. split; reflexivity. Qed.

(** A configuration that deletes [old/file.txt] has the delete stage
    remove that path under the project root, be it there or not. *)
Example scenario_delete :
  Remove "/home/dev/my-app/old/file.txt" ∈ (Craft.run craft_yaml Sample.with_yaml).1 ∧
  Remove "/home/dev/my-app/old/file.txt" ∈ (Craft.run craft_spec Sample.with_spec_file).1.
Proof. split; vm_compute; find_event. Qed.

(** The template depends on [lodash], the project does not: [npm] is
    started with [lodash@^4.0.0]. *)
Example scenario_install :
  Craft.install_args
    (default VUndef
       (Craft.prune (keys (Craft.prop Sample.baseline_json "dependencies"))
                    (Craft.prop Sample.template_json "dependencies")))
  = Some ["install"; "--save"; "--loglevel"; "error"; "lodash@^4.0.0"].
Proof. reflexivity. Qed.

(** The template's [build] script wins, the project's [test] script
    stays. *)
Example scenario_scripts :
  assign [ VObj [("build", VStr "react-scripts build"); ("test", VStr "react-scripts test")];
           VObj [("build", VStr "custom-build")] ]
  = VObj [("build", VStr "custom-build"); ("test", VStr "react-scripts test")].
Proof. reflexivity. Qed.

End Scenarios.

(** * Further properties of the code *)

(** ** Reading [craft.spec] *)

Section SpecLines.

Implicit Types (s line : string) (a : ascii).

Lemma split_lines_cons a s :
  Js.split_lines (String a s) =
    if Ascii.eqb a Js.LF then EmptyString :: Js.split_lines s
    else
      match s with
      | String b _ =>
          if Ascii.eqb a Js.CR && Ascii.eqb b Js.LF then Js.split_lines s
          else
            match Js.split_lines s with
            | l :: ls => String a l :: ls
            | [] => [String a EmptyString]
            end
      | EmptyString => [String a EmptyString]
      end.
Proof. by destruct s. Qed.

Lemma split_lines_nonempty s : Js.split_lines s ≠ [].
Proof.
  induction s as [|a s IH]; [done|]. rewrite split_lines_cons.
  destruct (Ascii.eqb a Js.LF); [done|]. destruct s as [|b s]; [done|].
  destruct (Ascii.eqb a Js.CR && Ascii.eqb b Js.LF); [done|].
  by destruct (Js.split_lines (String b s)).
Qed.

Lemma join_head sep a l ls :
  Js.join sep (String a l :: ls) = String a (Js.join sep (l :: ls)).
Proof. by destruct ls. Qed.

Lemma join_empty_head sep l ls :
  Js.join sep (EmptyString :: l :: ls) = sep +:+ Js.join sep (l :: ls).
Proof. done. Qed.

Lemma contains_colon_none line :
  Js.contains_char ":"%char line = false → SpecFile.split_colon line = None.
Proof.
  induction line as [|a line IH]; simpl; [done|].
  intros [Ha Hl]%orb_false_iff. by rewrite Ha, IH.
Qed.

End SpecLines.

(** X2. Splitting the text of [craft.spec] into lines leaves no line feed
    in any line, and joining the lines with line feeds gives the text back
    when it holds no carriage return. *)
Theorem split_lines_round_trip s :
  Forall (fun line => Js.contains_char Js.LF line = false) (Js.split_lines s) ∧
  (Js.contains_char Js.CR s = false → Js.join Js.NL (Js.split_lines s) = s).
Proof.
  induction s as [|a s [IHf IHj]]; [by split; [repeat constructor|]|].
  rewrite split_lines_cons. destruct (Ascii.eqb a Js.LF) eqn:Ea.
  - apply Ascii.eqb_eq in Ea as ->. split; [by constructor|].
    intros [_ Hcr]%orb_false_iff.
    destruct (Js.split_lines s) as [|l ls] eqn:E; [by apply split_lines_nonempty in E|].
    rewrite join_empty_head, IHj by done. done.
  - destruct s as [|b s].
    { split; [|done]. repeat constructor. simpl. by rewrite Ea. }
    destruct (Ascii.eqb a Js.CR && Ascii.eqb b Js.LF) eqn:Ecr.
    + split; [done|]. apply andb_true_iff in Ecr as [Ecr _].
      simpl. by rewrite Ecr.
    + destruct (Js.split_lines (String b s)) as [|l ls] eqn:E;
        [by apply split_lines_nonempty in E|].
      split.
      * apply Forall_cons in IHf as [Hl Hls]. constructor; [|done].
        simpl. by rewrite Ea.
      * intros [_ Hcr]%orb_false_iff. rewrite join_head. f_equal. by apply IHj.
Qed.

Lemma split_lines_round_trip_witness :
  Js.join Js.NL (Js.split_lines Sample.spec_text) = Sample.spec_text.
Proof. exact (proj2 (split_lines_round_trip Sample.spec_text) eq_refl). Defined.

(** X3. [readSpec] passes over a comment line, a line without a colon and
    a line that holds a carriage return: the Spec and the console stay as
    they are. *)
Theorem passed_over_line_changes_nothing p (st : gmap string string * list string) line :
  passed_over line = true → SpecFile.read_line p st line = st.
Proof.
  unfold passed_over, SpecFile.read_line, SpecFile.exec_line.
  case_bool_decide; [done|]. simpl.
  destruct (Js.has_line_terminator line); [done|].
  rewrite orb_false_r, negb_true_iff. intros Hcolon.
  by rewrite (contains_colon_none _ Hcolon).
Qed.

Lemma passed_over_line_changes_nothing_witness :
  SpecFile.read_line posix (SpecFile.defaultSpec, []) "# package.json: delete"
    = (SpecFile.defaultSpec, []) ∧
  SpecFile.read_line posix (SpecFile.defaultSpec, []) "package.json delete"
    = (SpecFile.defaultSpec, []) ∧
  SpecFile.read_line posix (SpecFile.defaultSpec, [])
    ("package.json: delete" +:+ String Js.CR EmptyString)
    = (SpecFile.defaultSpec, []).
Proof.
  split; [|split]; by apply passed_over_line_changes_nothing.
Defined.

(** ** What any loaded Spec holds *)

Section LoadedSpec.

Implicit Types (s : gmap string string) (path raw d : string).

Lemma replace_all_no_slash raw :
  Js.contains_char "/"%char (Js.replace_all "/"%char (path_sep win32) raw) = false.
Proof.
  induction raw as [|a raw IH]; [done|]. simpl.
  destruct (Ascii.eqb a "/"%char) eqn:E; simpl; [done|]. by rewrite E.
Qed.

End LoadedSpec.

(** X4. In every Spec a run loads, any path other than [__proto__] maps to
    the directive of the last valid entry whose path, rewritten to the host
    separator, is that path; without such an entry it maps to what the
    defaults give it, which for a path outside the defaults is nothing. *)
Theorem loaded_spec_lookup r w lines s path :
  Craft.load r w = (lines, Some s) →
  path ≠ "__proto__" →
  s !! path =
    match last_directive path (normalized (host w) (Craft.supplied r w)) with
    | Some d => Some d
    | None => Craft.defaults r !! path
    end.
Proof.
  intros Hload Hpath. rewrite (load_spec _ _ _ _ Hload). by apply apply_entries_lookup.
Qed.

Lemma loaded_spec_lookup_witness :
  ∃ s, (Craft.load craft_spec Sample.with_spec_file).2 = Some s ∧
       s !! "old/file.txt" = Some "delete" ∧ s !! "README.md" = None.
Proof.
  eexists. split; [reflexivity|]. split.
  - eapply (loaded_spec_lookup craft_spec Sample.with_spec_file); [reflexivity|discriminate].
  - eapply (loaded_spec_lookup craft_spec Sample.with_spec_file); [reflexivity|discriminate].
Defined.

(** X5. An entry written for [__proto__] never reaches the Spec: no loaded
    Spec has a value there, and the copy stage skips an entry of that name
    all the same. *)
Theorem proto_entry_never_stored r w lines s :
  Craft.load r w = (lines, Some s) →
  s !! "__proto__" = None ∧ Craft.skip s "__proto__" = true.
Proof.
  intros Hload.
  assert (s !! "__proto__" = None) as Hnone
    by by rewrite (load_spec _ _ _ _ Hload), apply_entries_proto, defaults_proto.
  split; [done|]. by rewrite (skip_absent _ _ Hnone).
Qed.

Lemma proto_entry_never_stored_witness :
  let w := Sample.world_of (content "__proto__: replace") absent ["__proto__"]
             Sample.template_json Sample.baseline_json Sample.baseline_after_json (Some 0) in
  ∃ s, (Craft.load craft_spec w).2 = Some s ∧
       SpecFile.entries "__proto__: replace" = [("__proto__", "replace")] ∧
       s !! "__proto__" = None ∧ Craft.skip s "__proto__" = true.
Proof.
  intros w. eexists. split; [reflexivity|]. split; [reflexivity|].
  exact (proto_entry_never_stored craft_spec w _ _ eq_refl).
Defined.

(** X6. On a host whose separator is the backslash no key of a loaded Spec
    holds a forward slash. *)
Theorem windows_keys_hold_no_slash r w lines s path d :
  host w = win32 →
  Craft.load r w = (lines, Some s) →
  s !! path = Some d →
  Js.contains_char "/"%char path = false.
Proof.
  intros Hhost Hload Hd.
  destruct (decide (path = "__proto__")) as [->|Hne]; [done|].
  rewrite (load_spec _ _ _ _ Hload), apply_entries_lookup in Hd by done.
  destruct (last_directive path _) as [d'|] eqn:E.
  - apply last_directive_elem in E. unfold normalized in E.
    apply list_elem_of_fmap in E as ([raw d''] & [= -> _] & _).
    rewrite Hhost. apply replace_all_no_slash.
  - apply defaults_cases in Hd as (Hplain & _). unfold plain in Hplain.
    by apply andb_true_iff in Hplain as [->%negb_true_iff _].
Qed.

Lemma windows_keys_hold_no_slash_witness :
  let p := win32 in
  (SpecFile.readSpec p (content "src/old/file.txt: delete")).1 !! "src\old\file.txt"
    = Some "delete" ∧
  Js.contains_char "/"%char "src\old\file.txt" = false.
Proof.
  intros p. split; [reflexivity|].
  set (w := {| host := win32; projectName := "a"; projectTemplate := "t"; root := "C:\a";
               npx := true; createApp_exit := Some 0; tmp_dir := Some "C:\tmp";
               clone_exit := Some 0;
               craft_spec_file := content "src/old/file.txt: delete";
               craft_yaml_file := absent; craft_yml_file := absent;
               present := fun _ => false; remove_error := fun _ => false;
               template_entries := Some []; copy_error := fun _ => false;
               template_manifest := None; baseline_manifest := None;
               install_exit := Some 0; baseline_manifest_after := None |}).
  exact (windows_keys_hold_no_slash craft_spec w _ _ "src\old\file.txt" "delete"
           eq_refl eq_refl eq_refl).
Defined.

(** ** Reading [craft.yaml] *)

(** Once [craft.yaml] exists, [craft.yml] is never looked at: be
    [craft.yaml] readable or not, [readConfig] gives the same whatever
    [craft.yml] is. *)
Lemma yaml_hides_yml p yaml yml yml' :
  existsSync yaml = true →
  Yaml.readConfig p yaml yml = Yaml.readConfig p yaml yml'.
Proof. intros H. unfold Yaml.readConfig. by rewrite H. Qed.

Lemma own_lookup_elem k ps v : Js.own_lookup k ps = Some v → (k, v) ∈ ps.
Proof.
  induction ps as [|[k' v'] ps IH]; simpl; [done|].
  destruct (Js.own_lookup k ps) as [x|].
  - intros [= <-]. right. by apply IH.
  - case_bool_decide; [|done]. intros [= <-]. subst. left.
Qed.

Lemma add_is_Some p directive (st : Yaml.state) value :
  is_Some st.2 → is_Some (Js.to_string value) → is_Some (Yaml.add p directive st value).2.
Proof.
  intros [s Hs] [shown Hshown]. unfold Yaml.add. rewrite Hs, Hshown.
  case_bool_decide; by eexists.
Qed.

Lemma add_all_is_Some p directive (st : Yaml.state) values :
  is_Some st.2 → Forall (fun value => is_Some (Js.to_string value)) values →
  is_Some (foldl (Yaml.add p directive) st values).2.
Proof.
  intros Hst Hall. revert st Hst.
  induction Hall as [|value values Hvalue Hall IH]; intros st Hst; [done|].
  simpl. apply IH. by apply add_is_Some.
Qed.

Lemma add_directive_is_Some p config_spec (st : Yaml.state) directive :
  is_Some st.2 →
  Forall (fun value => is_Some (Js.to_string value))
         (values_of (default Js.VUndef (Js.get_prop config_spec directive))) →
  is_Some (Yaml.add_directive p config_spec st directive).2.
Proof.
  intros [s Hs] Hall. unfold Yaml.add_directive. rewrite Hs.
  destruct (includes directives directive); [|by eexists].
  assert (is_Some st.2) as Hst by by eexists.
  destruct (default Js.VUndef (Js.get_prop config_spec directive)) eqn:E;
    try (apply add_is_Some; [done|]; by apply Forall_cons in Hall as [? _]).
  by apply add_all_is_Some.
Qed.

(** X7. [normalizeConfig] throws only on [null] or on a value that cannot
    be printed: for a loaded configuration that is not [null], and under
    whose [spec] every value, and every element of a list, has a string
    form, it returns a Spec, whatever the keys and the types of the values
    are. *)
Theorem normalizeConfig_gives_spec p config :
  config ≠ Js.VNull →
  Forall (fun kv : string * Js.value =>
            Forall (fun value => is_Some (Js.to_string value)) (values_of kv.2))
         (Js.own_props (Craft.prop config "spec")) →
  is_Some (Yaml.normalizeConfig p config).2.
Proof.
  intros Hnull Hall. unfold Yaml.normalizeConfig.
  set (config' := match config with Js.VUndef => Js.VObj [] | _ => config end).
  assert (Js.get_prop config' "spec" = Some (Craft.prop config "spec")) as ->
    by (by destruct config).
  set (config_spec := Craft.prop config "spec") in *.
  destruct (Js.truthy_value config_spec) eqn:Htruthy; [|by eexists].
  assert (∀ directive,
            Forall (fun value => is_Some (Js.to_string value))
                   (values_of (default Js.VUndef (Js.get_prop config_spec directive))))
    as Hvalues.
  { intros directive. unfold Js.get_prop.
    destruct config_spec eqn:E; try done;
      (destruct (Js.field _ directive) as [v|] eqn:Ev; simpl;
       [|by repeat constructor]);
      apply own_lookup_elem in Ev;
      exact (proj1 (Forall_forall _ _) Hall _ Ev). }
  assert (∀ keys (st : Yaml.state),
            is_Some st.2 →
            is_Some (foldl (Yaml.add_directive p config_spec) st keys).2) as Hfold.
  { induction keys as [|k keys IH]; intros st Hst; [done|].
    simpl. apply IH. by apply add_directive_is_Some. }
  apply Hfold. by eexists.
Qed.

Lemma normalizeConfig_gives_spec_witness :
  is_Some (Yaml.normalizeConfig posix Sample.yaml_config).2 ∧
  (Yaml.normalizeConfig posix
     (Js.VObj [("spec", Js.VObj [("ignore", Js.VObj [("toString", Js.VNum "1")])])])).2
    = None.
Proof.
  split; [|reflexivity].
  apply normalizeConfig_gives_spec; [discriminate|].
  repeat (apply Forall_cons; split; [repeat constructor; by eexists|]).
  apply Forall_nil_2.
Defined.

(** X8. A loaded configuration that is not [null] and has no truthy [spec]
    property (an empty document, a scalar, a list, a mapping without
    [spec]) gives exactly the defaults and writes nothing. *)
Theorem normalizeConfig_without_spec p config :
  config ≠ Js.VNull →
  Js.truthy_value (Craft.prop config "spec") = false →
  Yaml.normalizeConfig p config = ([], Some Yaml.defaultSpec).
Proof.
  intros Hnull Hspec. unfold Yaml.normalizeConfig, Craft.prop in *.
  destruct config; try done; simpl in *; by rewrite ?Hspec.
Qed.

Lemma normalizeConfig_without_spec_witness :
  Yaml.normalizeConfig posix Js.VUndef = ([], Some Yaml.defaultSpec) ∧
  Yaml.normalizeConfig posix (Js.VStr "spec") = ([], Some Yaml.defaultSpec) ∧
  Yaml.normalizeConfig posix (Js.VObj [("spec", Js.VNull)]) = ([], Some Yaml.defaultSpec) ∧
  (Yaml.normalizeConfig posix Js.VNull).2 = None.
Proof.
  split; [|split; [|split; [|reflexivity]]].
  - by apply normalizeConfig_without_spec.
  - by apply normalizeConfig_without_spec.
  - by apply normalizeConfig_without_spec.
Defined.

(** ** What each stage can do *)

Section Kinds.

Implicit Types (w : world) (r : revision) (obj : context) (e : event).

Lemma logs_kind (lines : list string) e : e ∈ Log <$> lines → kind_of e = console.
Proof. by intros (line & -> & _)%list_elem_of_fmap. Qed.

Lemma createApp_kind w e : e ∈ (Craft.createApp w).1 → kind_of e = subprocess.
Proof.
  unfold Craft.createApp. intros [H|(u & _ & H)]%bind_elem.
  - by apply list_elem_of_singleton in H as ->.
  - destruct (exited_ok (createApp_exit w)); by apply not_elem_of_nil in H.
Qed.

Lemma clone_kind r w e :
  e ∈ (Craft.clone r w).1 → kind_of e = console ∨ kind_of e = subprocess.
Proof.
  unfold Craft.clone. intros H.
  apply bind_elem in H as [H|(u & _ & H)].
  { simpl in H. repeat (apply elem_of_cons in H as [->|H]; [by left|]).
    by apply not_elem_of_nil in H. }
  apply bind_elem in H as [H%read_elem|(dir & _ & H)]; [done|].
  apply bind_elem in H as [->%list_elem_of_singleton|(u1 & _ & H)]; [by right|].
  apply bind_elem in H as [H|(u2 & _ & H)].
  { destruct (exited_ok (clone_exit w)); simpl in H.
    - by apply not_elem_of_nil in H.
    - left. exact (logs_kind _ _ H). }
  apply bind_elem in H as [H|(u3 & _ & H)]; [left; exact (logs_kind _ _ H)|].
  by apply not_elem_of_nil in H.
Qed.

Lemma clone_resolved r w obj :
  (Craft.clone r w).2 = resolved obj → spec obj = (Craft.load r w).2.
Proof.
  unfold Craft.clone, Craft.reject_failed, read, emit, mbind, M_bind, mret, M_ret.
  destruct (tmp_dir w); simpl; [|done].
  destruct (exited_ok (clone_exit w)); simpl; [|done]. by intros [= <-].
Qed.

Lemma delete_kind w obj e :
  e ∈ (Craft.delete w obj).1 → kind_of e = console ∨ kind_of e = removal.
Proof.
  unfold Craft.delete. intros H.
  apply bind_elem in H as [H|(u & _ & H)].
  { simpl in H. repeat (apply elem_of_cons in H as [->|H]; [by left|]).
    by apply not_elem_of_nil in H. }
  apply bind_elem in H as [H%lift_elem|(s & _ & H)]; [done|].
  apply bind_elem in H as [(? & -> & _)%list_elem_of_fmap|(u1 & _ & H)]; [by right|].
  apply bind_elem in H as [(? & -> & _)%list_elem_of_fmap|(u2 & _ & H)]; [by left|].
  by apply not_elem_of_nil in H.
Qed.

Lemma copy_kind w obj e :
  e ∈ (Craft.copy w obj).1 → kind_of e = console ∨ kind_of e = copying.
Proof.
  unfold Craft.copy. intros H.
  apply bind_elem in H as [H|(u & _ & H)].
  { simpl in H. repeat (apply elem_of_cons in H as [->|H]; [by left|]).
    by apply not_elem_of_nil in H. }
  apply bind_elem in H as [H%read_elem|(files & _ & H)]; [done|].
  apply bind_elem in H as [H%lift_elem|(copied & _ & H)]; [done|].
  apply bind_elem in H as [(? & -> & _)%list_elem_of_fmap|(u1 & _ & H)]; [by right|].
  apply bind_elem in H as [(? & -> & _)%list_elem_of_fmap|(u2 & _ & H)]; [by left|].
  by apply not_elem_of_nil in H.
Qed.

Lemma manifest_kind r w obj e :
  e ∈ (Craft.manifest r w obj).1 →
  kind_of e = console ∨ kind_of e = directory ∨ kind_of e = subprocess
  ∨ kind_of e = writing.
Proof.
  unfold Craft.manifest. intros H.
  apply bind_elem in H as [H%lift_elem|(s & _ & H)]; [done|].
  destruct (Js.strict_eq (Js.get s "package.json") "merge"); cbn [negb] in H;
    [|by apply not_elem_of_nil in H].
  apply bind_elem in H as [H|(u & _ & H)].
  { simpl in H. repeat (apply elem_of_cons in H as [->|H]; [by auto|]).
    by apply not_elem_of_nil in H. }
  destruct (template_manifest w) as [template|]; [|by apply not_elem_of_nil in H].
  apply bind_elem in H as [H%lift_elem|(dependencies & _ & H)]; [done|].
  apply bind_elem in H as [H%already_installed_elem|(names & _ & H)]; [done|].
  apply bind_elem in H as [H%lift_elem|(pruned & _ & H)]; [done|].
  apply bind_elem in H as [(args & _ & ->)%install_elem|(u1 & _ & H)]; [by auto|].
  apply bind_elem in H as [H%read_elem|(app & _ & H)]; [done|].
  apply bind_elem in H as [H%lift_elem|(merged & _ & H)]; [done|].
  apply bind_elem in H as [H%lift_elem|(text & _ & H)]; [done|].
  apply bind_elem in H as [->%list_elem_of_singleton|(u2 & _ & H)]; [by auto|].
  by apply not_elem_of_nil in H.
Qed.

Lemma bind_outcome_resolved {A B : Type} (m : M A) (f : A → M B) a :
  m.2 = resolved a → (m ≫= f).2 = (f a).2.
Proof. unfold mbind, M_bind. by intros ->. Qed.

Lemma bind_outcome_rejected {A B : Type} (m : M A) (f : A → M B) rsn :
  m.2 = rejected rsn → (m ≫= f).2 = rejected rsn.
Proof. unfold mbind, M_bind. by intros ->. Qed.

(** The handler at the end only writes to the console. *)
Lemma catch_elem (m : M unit) e :
  e ∈ (Craft.catch m).1 → e ∈ m.1 ∨ (kind_of e = console ∧ ∃ reason, m.2 = rejected reason).
Proof.
  unfold Craft.catch. destruct m as [es [u|rsn|err]]; cbn [fst snd]; [by left| |by left].
  rewrite !elem_of_app. intros [H|[H|[H|H]]]; [by left|right..]; (split; [|by eexists]).
  - repeat (apply elem_of_cons in H as [->|H]; [done|]). by apply not_elem_of_nil in H.
  - destruct rsn as [command|err].
    + case_bool_decide; simpl in H;
        repeat (apply elem_of_cons in H as [->|H]; [done|]); by apply not_elem_of_nil in H.
    + repeat (apply elem_of_cons in H as [->|H]; [done|]). by apply not_elem_of_nil in H.
  - repeat (apply elem_of_cons in H as [->|H]; [done|]). by apply not_elem_of_nil in H.
Qed.

(** Where an event of the chain comes from. *)
Lemma chain_elem r w e :
  e ∈ (Craft.chain r w).1 →
  e ∈ (Craft.createApp w).1 ∨ e ∈ (Craft.clone r w).1 ∨
  (∃ obj, (Craft.clone r w).2 = resolved obj ∧
          (e ∈ (Craft.delete w obj).1 ∨ e ∈ (Craft.copy w obj).1 ∨
           e ∈ (Craft.manifest r w obj).1)) ∨
  ((Craft.chain r w).2 = resolved tt ∧
   e ∈ [Log EmptyString; Log (chalk green "Template applied successfully!"); Cleanup]).
Proof.
  unfold Craft.chain. intros H.
  apply bind_elem in H as [H|(u & Hu & H)]; [by left|].
  apply bind_elem in H as [H|(obj1 & Hclone & H)]; [by auto|].
  apply bind_elem in H as [H|(obj2 & Hdelete & H)]; [right; right; left; eauto|].
  assert (obj2 = obj1) as ->.
  { unfold Craft.delete, emit, lift, mbind, M_bind, mret, M_ret in Hdelete.
    destruct (spec obj1); by simplify_eq/=. }
  apply bind_elem in H as [H|(obj3 & Hcopy & H)]; [right; right; left; eauto|].
  assert (obj3 = obj1) as ->.
  { unfold Craft.copy, emit, lift, read, mbind, M_bind, mret, M_ret in Hcopy.
    destruct (template_entries w) as [[|f files]|]; simpl in Hcopy; [| |done];
      destruct (spec obj1); by simplify_eq/=. }
  apply bind_elem in H as [H|(obj4 & Hmanifest & H)]; [right; right; left; eauto 6|].
  right; right; right. split; [|done].
  rewrite (bind_outcome_resolved _ _ _ Hu), (bind_outcome_resolved _ _ _ Hclone),
    (bind_outcome_resolved _ _ _ Hdelete), (bind_outcome_resolved _ _ _ Hcopy),
    (bind_outcome_resolved _ _ _ Hmanifest). done.
Qed.

End Kinds.

(** ** The stages of the run *)

Section Stages.

Implicit Types (w : world) (r : revision) (obj : context) (e : event).

Lemma bind_resolved_inv {A B : Type} (m : M A) (f : A → M B) b :
  (m ≫= f).2 = resolved b →
  ∃ a, m.2 = resolved a ∧ (f a).2 = resolved b ∧ (m ≫= f).1 = m.1 ++ (f a).1.
Proof.
  unfold mbind, M_bind. destruct m as [es [a|rsn|err]]; simpl; [|done..].
  intros H. by exists a.
Qed.

Lemma loaded_delete_supplied r w lines s file :
  Craft.load r w = (lines, Some s) →
  s !! file = Some "delete" →
  ∃ raw, (raw, "delete") ∈ Craft.supplied r w ∧
         file = Js.replace_all "/"%char (path_sep (host w)) raw.
Proof.
  intros Hload Hfile.
  assert (file ≠ "__proto__") as Hproto.
  { intros ->. by rewrite (load_spec _ _ _ _ Hload), apply_entries_proto, defaults_proto
      in Hfile. }
  rewrite (load_spec _ _ _ _ Hload), apply_entries_lookup in Hfile by done.
  destruct (last_directive file _) as [d|] eqn:E.
  - injection Hfile as ->. apply last_directive_elem in E.
    unfold normalized in E. apply list_elem_of_fmap in E as ([raw d] & [= -> ->] & E).
    by exists raw.
  - apply defaults_cases in Hfile as (_ & _ & Hd & _).
    rewrite !elem_of_cons in Hd. destruct Hd as [Hd|[Hd|Hd]]; [done..|].
    by apply not_elem_of_nil in Hd.
Qed.

Lemma delete_removes_inv w obj s target :
  spec obj = Some s →
  Remove target ∈ (Craft.delete w obj).1 →
  ∃ file, s !! file = Some "delete" ∧ target = path_join (host w) (root w) file.
Proof.
  intros Hspec. rewrite (delete_run _ _ _ Hspec). cbn [fst].
  rewrite !elem_of_app, !list_elem_of_fmap.
  intros [H|[(file & [= ->] & H)|(file & [=] & _)]].
  - repeat (apply elem_of_cons in H as [[=]|H]). by apply not_elem_of_nil in H.
  - exists file. by rewrite <- delete_files_elem.
Qed.

(** X9. The delete stage asks for the removal of exactly the paths the
    Spec maps to [delete], each resolved against the project directory. *)
Theorem delete_stage_removes_exactly w obj s target :
  spec obj = Some s →
  Remove target ∈ (Craft.delete w obj).1
  ↔ ∃ file, s !! file = Some "delete" ∧ target = path_join (host w) (root w) file.
Proof.
  intros Hspec. split; [by apply delete_removes_inv|].
  rewrite (delete_run _ _ _ Hspec). cbn [fst].
  rewrite !elem_of_app, !list_elem_of_fmap.
  intros (file & H & ->). right; left. exists file. by rewrite delete_files_elem.
Qed.

Lemma delete_stage_removes_exactly_witness :
  let w := Sample.with_spec_file in
  ∃ s, (Craft.load craft_spec w).2 = Some s ∧
       (Remove "/home/dev/my-app/old/file.txt"
          ∈ (Craft.delete w {| tmpdir := "/tmp/tmp-1"; spec := Some s |}).1
        ↔ ∃ file, s !! file = Some "delete" ∧
                  "/home/dev/my-app/old/file.txt" = path_join (host w) (root w) file).
Proof.
  intros w. eexists. split; [reflexivity|].
  exact (delete_stage_removes_exactly w {| tmpdir := "/tmp/tmp-1"; spec := Some _ |} _
           "/home/dev/my-app/old/file.txt" eq_refl).
Defined.

(** X10. A run removes something from the project only when the
    configuration of the template has a [delete] entry for it: the defaults,
    the generator, the clone, the copy and the installation never do. *)
Theorem removal_needs_delete_entry r w target :
  Remove target ∈ (Craft.run r w).1 →
  ∃ raw, (raw, "delete") ∈ Craft.supplied r w ∧
         target = path_join (host w) (root w)
                    (Js.replace_all "/"%char (path_sep (host w)) raw).
Proof.
  unfold Craft.run. intros [H|[[=] _]]%catch_elem.
  apply chain_elem in H as [H|[H|[(obj & Hclone & [H|[H|H]])|[_ H]]]].
  - by apply createApp_kind in H.
  - by apply clone_kind in H as [|].
  - apply clone_resolved in Hclone.
    destruct (spec obj) as [s|] eqn:Hspec.
    + apply (delete_removes_inv _ _ _ _ Hspec) in H as (file & Hfile & ->).
      destruct (Craft.load r w) as [lines o] eqn:Hload. simpl in Hclone. subst o.
      destruct (loaded_delete_supplied _ _ _ _ _ Hload Hfile) as (raw & Hraw & ->).
      by exists raw.
    + destruct obj as [dir o]. simpl in Hspec. subst o.
      rewrite delete_without_spec in H. simpl in H.
      repeat (apply elem_of_cons in H as [[=]|H]). by apply not_elem_of_nil in H.
  - by apply copy_kind in H as [|].
  - by apply manifest_kind in H as [|[|[|]]].
  - repeat (apply elem_of_cons in H as [[=]|H]). by apply not_elem_of_nil in H.
Qed.

Lemma removal_needs_delete_entry_witness :
  let w := Sample.with_yaml in
  Remove "/home/dev/my-app/old/file.txt" ∈ (Craft.run craft_yaml w).1 ∧
  ∃ raw, (raw, "delete") ∈ Craft.supplied craft_yaml w ∧
         "/home/dev/my-app/old/file.txt"
           = path_join (host w) (root w) (Js.replace_all "/"%char (path_sep (host w)) raw).
Proof.
  intros w.
  assert (Remove "/home/dev/my-app/old/file.txt" ∈ (Craft.run craft_yaml w).1) as H.
  { vm_compute; find_event. }
  split; [exact H|]. exact (removal_needs_delete_entry craft_yaml w _ H).
Defined.

(** X12. The filter handed to the recursive copy keeps a path below the
    clone exactly when the top-level test would not skip the path taken
    relative to the clone: both tests are one and the same. *)
Theorem filter_agrees_with_skip p s dir rel :
  Craft.filter s dir (path_join p dir rel) = negb (Craft.skip s rel).
Proof. unfold Craft.filter. by rewrite substring_from_join. Qed.

Lemma chain_completed_cleans r w u :
  (Craft.chain r w).2 = resolved u → Cleanup ∈ (Craft.chain r w).1.
Proof.
  unfold Craft.chain. intros H.
  apply bind_resolved_inv in H as (u1 & _ & H & ->).
  apply bind_resolved_inv in H as (obj1 & _ & H & ->).
  apply bind_resolved_inv in H as (obj2 & _ & H & ->).
  apply bind_resolved_inv in H as (obj3 & _ & H & ->).
  apply bind_resolved_inv in H as (obj4 & _ & H & ->).
  rewrite !elem_of_app. do 5 right. simpl. rewrite !elem_of_cons. tauto.
Qed.

(** X22. The scratch directory is cleaned up exactly when the run gets to
    its end: a run that is aborted, or ended by an exception, leaves the
    clone behind. *)
Theorem cleanup_iff_completed r w :
  Cleanup ∈ (Craft.run r w).1 ↔ (Craft.run r w).2 = Craft.completed.
Proof.
  unfold Craft.run. split.
  - intros [H|[[=] _]]%catch_elem.
    apply chain_elem in H as [H|[H|[(obj & Hclone & [H|[H|H]])|[Hdone _]]]].
    + by apply createApp_kind in H.
    + by apply clone_kind in H as [|].
    + by apply delete_kind in H as [|].
    + by apply copy_kind in H as [|].
    + by apply manifest_kind in H as [|[|[|]]].
    + unfold Craft.catch. by rewrite Hdone.
  - unfold Craft.catch. destruct (Craft.chain r w).2 as [u|rsn|err] eqn:E; [|done..].
    intros _. simpl. by eapply chain_completed_cleans.
Qed.

End Stages.

(** At a sample run: [a.txt] has no entry and is copied. *)
Lemma top_level_copy_iff_witness :
  let w := Sample.with_spec_file in
  ∃ s, (Craft.load craft_spec w).2 = Some s ∧
       (Copy "/tmp/tmp-1/a.txt" "/home/dev/my-app/a.txt"
          ∈ (Craft.copy w {| tmpdir := "/tmp/tmp-1"; spec := Some s |}).1
        ↔ s !! "a.txt" = None ∨ s !! "a.txt" = Some "replace").
Proof.
  intros w. eexists. split; [reflexivity|].
  eapply (top_level_copy_iff craft_spec w _ {| tmpdir := "/tmp/tmp-1"; spec := Some _ |}
           _ Sample.entries "a.txt"); [reflexivity..| |].
  - unfold Sample.entries. find_event.
  - unfold Js.object_prototype_names. rewrite !elem_of_cons, elem_of_nil.
    intros H. repeat destruct H as [H|H]; done.
Defined.

(** ** The run as a whole *)

(** The early stages of a given run go through. *)
Ltac reach :=
  unfold reaches_manifest;
  split; [reflexivity|split; [reflexivity|split; [reflexivity|split; reflexivity]]].

Section Run.

Implicit Types (w : world) (r : revision) (obj : context) (e : event).

Lemma catch_status (m : M unit) :
  (Craft.catch m).2 =
    match m.2 with
    | resolved _ => Craft.completed
    | rejected _ => Craft.aborted
    | uncaught err => Craft.crashed err
    end.
Proof. unfold Craft.catch. by destruct m.2. Qed.

Lemma chain_outcome r w dir s files :
  reaches_manifest r w dir s files →
  (Craft.chain r w).2 =
    match (Craft.manifest r w {| tmpdir := dir; spec := Some s |}).2 with
    | resolved _ => resolved tt
    | rejected rsn => rejected rsn
    | uncaught err => uncaught err
    end.
Proof.
  intros (Hgen & Hdir & Hclone & Hload & Hfiles).
  set (obj := {| tmpdir := dir; spec := Some s |}).
  assert ((Craft.createApp w).2 = resolved tt) as H1.
  { unfold Craft.createApp, emit, mbind, M_bind. cbn [snd]. by rewrite Hgen. }
  assert ((Craft.clone r w).2 = resolved obj) as H2.
  { unfold Craft.clone, read, emit, mbind, M_bind, mret, M_ret.
    rewrite Hdir, Hclone, Hload. done. }
  assert ((Craft.delete w obj).2 = resolved obj) as H3
    by by rewrite (delete_run w obj s).
  assert ((Craft.copy w obj).2 = resolved obj) as H4
    by by rewrite (copy_run w obj s files).
  unfold Craft.chain.
  rewrite (bind_outcome_resolved _ _ _ H1), (bind_outcome_resolved _ _ _ H2),
    (bind_outcome_resolved _ _ _ H3), (bind_outcome_resolved _ _ _ H4).
  unfold mbind, M_bind. by destruct (Craft.manifest r w obj).2.
Qed.

Lemma run_status r w dir s files :
  reaches_manifest r w dir s files →
  (Craft.run r w).2 =
    match (Craft.manifest r w {| tmpdir := dir; spec := Some s |}).2 with
    | resolved _ => Craft.completed
    | rejected _ => Craft.aborted
    | uncaught err => Craft.crashed err
    end.
Proof.
  intros H. unfold Craft.run. rewrite catch_status, (chain_outcome _ _ _ _ _ H).
  by destruct (Craft.manifest r w _).2.
Qed.

(** An event of a run that starts [npm], writes a file or changes the
    directory comes from the manifest stage. *)
Lemma run_manifest_events r w e :
  e ∈ (Craft.run r w).1 →
  (kind_of e = writing ∨ kind_of e = directory ∨ ∃ args, e = Spawn "npm" args) →
  ∃ obj, (Craft.clone r w).2 = resolved obj ∧ e ∈ (Craft.manifest r w obj).1.
Proof.
  unfold Craft.run. intros [H|[Hk _]]%catch_elem Hkind.
  - apply chain_elem in H as [H|[H|[(obj & Hclone & [H|[H|H]])|[_ H]]]].
    + destruct Hkind as [Hk|[Hk|[args ->]]];
        [by rewrite (createApp_kind _ _ H) in Hk..|by apply createApp_no_npm in H].
    + destruct Hkind as [Hk|[Hk|[args ->]]]; [| |by apply clone_no_npm in H];
        by destruct (clone_kind _ _ _ H) as [Hc|Hc]; rewrite Hc in Hk.
    + destruct Hkind as [Hk|[Hk|[args ->]]]; [| |by apply delete_no_npm in H];
        by destruct (delete_kind _ _ _ H) as [Hc|Hc]; rewrite Hc in Hk.
    + destruct Hkind as [Hk|[Hk|[args ->]]]; [| |by apply copy_no_npm in H];
        by destruct (copy_kind _ _ _ H) as [Hc|Hc]; rewrite Hc in Hk.
    + by exists obj.
    + repeat (apply elem_of_cons in H as [->|H];
              [by destruct Hkind as [?|[?|[? ?]]]|]).
      by apply not_elem_of_nil in H.
  - destruct Hkind as [Hc|[Hc|[args ->]]]; by rewrite ?Hk in *.
Qed.

Lemma manifest_off r w obj s d :
  spec obj = Some s → s !! "package.json" = Some d → d ≠ "merge" →
  Craft.manifest r w obj = ([], resolved obj).
Proof.
  intros Hs Hd Hne. unfold Craft.manifest, lift, mbind, M_bind, mret, M_ret.
  rewrite Hs. cbn [fst snd]. unfold Js.get. rewrite Hd. cbn [Js.strict_eq].
  by rewrite bool_decide_eq_false_2.
Qed.

Lemma manifest_without_spec r w obj :
  spec obj = None → (Craft.manifest r w obj).1 = [].
Proof. intros Hs. unfold Craft.manifest. by rewrite Hs. Qed.

Lemma manifest_without_template r w obj s :
  spec obj = Some s → template_manifest w = None →
  (Craft.manifest r w obj).2 = resolved obj ∧
  ∀ e, e ∈ (Craft.manifest r w obj).1 → kind_of e = console ∨ kind_of e = directory.
Proof.
  intros Hs Ht. unfold Craft.manifest, lift, emit, mbind, M_bind, mret, M_ret.
  rewrite Hs, Ht. cbn [fst snd].
  destruct (Js.strict_eq (Js.get s "package.json") "merge"); cbn.
  - split; [done|]. intros e H.
    repeat (apply elem_of_cons in H as [->|H]; [by auto|]). by apply not_elem_of_nil in H.
  - split; [done|]. by intros e H%not_elem_of_nil.
Qed.

(** X13. An entry of the configuration for [package.json] switches the
    manifest stage off, whatever directive it gives: the run starts no
    [npm], writes no file and stays in its directory. *)
Theorem manifest_entry_switches_merge_off r w d e :
  last_directive "package.json" (Craft.supplied r w) = Some d →
  e ∈ (Craft.run r w).1 →
  kind_of e ≠ writing ∧ kind_of e ≠ directory ∧ ∀ args, e ≠ Spawn "npm" args.
Proof.
  intros Hlast He.
  assert (¬ (kind_of e = writing ∨ kind_of e = directory ∨ ∃ args, e = Spawn "npm" args))
    as Hnot.
  { intros Hkind.
    destruct (run_manifest_events _ _ _ He Hkind) as (obj & Hclone & Hin).
    apply clone_resolved in Hclone.
    destruct (Craft.load r w) as [lines [s|]] eqn:Hload; simpl in Hclone.
    - assert (s !! "package.json" = Some d) as Hd.
      { rewrite (load_spec _ _ _ _ Hload), apply_entries_lookup by done.
        by rewrite last_directive_normalized, Hlast. }
      assert (d ≠ "merge") as Hne.
      { apply last_directive_elem, supplied_recognised in Hlast.
        intros ->. unfold directives in Hlast. rewrite !elem_of_cons in Hlast.
        destruct Hlast as [?|[?|[?|?%not_elem_of_nil]]]; done. }
      rewrite (manifest_off _ _ _ _ _ Hclone Hd Hne) in Hin. by apply not_elem_of_nil in Hin.
    - rewrite (manifest_without_spec _ _ _ Hclone) in Hin. by apply not_elem_of_nil in Hin. }
  split; [|split]; [intros ?; apply Hnot; auto..|].
  intros args ->. apply Hnot. right; right. by exists args.
Qed.

Lemma manifest_entry_switches_merge_off_witness :
  let w := Cases.manifest_ignored in
  let e := Copy "/tmp/tmp-1/a.txt" "/home/dev/my-app/a.txt" in
  e ∈ (Craft.run craft_yaml w).1 ∧
  (Craft.run craft_yaml w).2 = Craft.completed ∧
  kind_of e ≠ writing ∧ kind_of e ≠ directory ∧ ∀ args, e ≠ Spawn "npm" args.
Proof.
  intros w e.
  assert (e ∈ (Craft.run craft_yaml w).1) as H by (vm_compute; find_event).
  split; [exact H|]. split; [reflexivity|].
  exact (manifest_entry_switches_merge_off craft_yaml w "ignore" e eq_refl H).
Defined.

(** X14. A template without a manifest that can be read is no error: a run
    whose early stages go through completes, and it starts no [npm] and
    writes no file. *)
Theorem run_without_template_manifest r w dir s files :
  reaches_manifest r w dir s files →
  template_manifest w = None →
  (Craft.run r w).2 = Craft.completed ∧
  ∀ e, e ∈ (Craft.run r w).1 → kind_of e ≠ writing ∧ ∀ args, e ≠ Spawn "npm" args.
Proof.
  intros Hreach Ht. split.
  - rewrite (run_status _ _ _ _ _ Hreach).
    by destruct (manifest_without_template r w {| tmpdir := dir; spec := Some s |} s eq_refl Ht)
      as [-> _].
  - intros e He.
    assert (¬ (kind_of e = writing ∨ ∃ args, e = Spawn "npm" args)) as Hnot.
    { intros Hkind.
      assert (kind_of e = writing ∨ kind_of e = directory ∨ ∃ args, e = Spawn "npm" args)
        as Hkind' by tauto.
      destruct (run_manifest_events _ _ _ He Hkind') as (obj & Hclone & Hin).
      apply clone_resolved in Hclone.
      destruct Hreach as (_ & _ & _ & Hload & _). rewrite Hload in Hclone.
      destruct (manifest_without_template r w obj s Hclone Ht) as [_ Hall].
      destruct (Hall _ Hin) as [Hc|Hc], Hkind as [Hk|[args ->]]; by rewrite ?Hc in *. }
    split; [intros ?; apply Hnot; auto|].
    intros args ->. apply Hnot. right. by exists args.
Qed.

Lemma run_without_template_manifest_witness :
  let w := Cases.without_template_manifest Sample.with_spec_file in
  (Craft.run craft_spec w).2 = Craft.completed ∧
  ∀ e, e ∈ (Craft.run craft_spec w).1 → kind_of e ≠ writing ∧ ∀ args, e ≠ Spawn "npm" args.
Proof.
  intros w.
  eapply (run_without_template_manifest craft_spec w "/tmp/tmp-1" _ Sample.entries);
    [reach|reflexivity].
Defined.

End Run.

(** ** The manifest stage within the run *)

Section ManifestRun.

Import Js.

Implicit Types (w : world) (r : revision) (obj : context) (e : event)
  (ps : list (string * value)).

Lemma bind_elem_l {A B : Type} (m : M A) (f : A → M B) e :
  e ∈ m.1 → e ∈ (m ≫= f).1.
Proof.
  unfold mbind, M_bind. destruct m as [es [a|rsn|err]]; simpl; [|done..].
  intros H. apply elem_of_app. by left.
Qed.

Lemma bind_elem_r {A B : Type} (m : M A) (f : A → M B) a e :
  m.2 = resolved a → e ∈ (f a).1 → e ∈ (m ≫= f).1.
Proof.
  unfold mbind, M_bind. intros -> H. apply elem_of_app. by right.
Qed.

Lemma catch_keeps (m : M unit) e : e ∈ m.1 → e ∈ (Craft.catch m).1.
Proof.
  unfold Craft.catch. destruct m as [es [u|rsn|err]]; cbn [fst snd]; [done| |done].
  intros H. apply elem_of_app. by left.
Qed.

(** What the manifest stage does is part of the run. *)
Lemma run_includes_manifest r w dir s files e :
  reaches_manifest r w dir s files →
  e ∈ (Craft.manifest r w {| tmpdir := dir; spec := Some s |}).1 →
  e ∈ (Craft.run r w).1.
Proof.
  intros (Hgen & Hdir & Hclone & Hload & Hfiles) He.
  set (obj := {| tmpdir := dir; spec := Some s |}) in *.
  assert ((Craft.createApp w).2 = resolved tt) as H1.
  { unfold Craft.createApp, emit, mbind, M_bind. cbn [snd]. by rewrite Hgen. }
  assert ((Craft.clone r w).2 = resolved obj) as H2.
  { unfold Craft.clone, read, emit, mbind, M_bind, mret, M_ret.
    rewrite Hdir, Hclone, Hload. done. }
  assert ((Craft.delete w obj).2 = resolved obj) as H3
    by by rewrite (delete_run w obj s).
  assert ((Craft.copy w obj).2 = resolved obj) as H4
    by by rewrite (copy_run w obj s files).
  unfold Craft.run. apply catch_keeps. unfold Craft.chain.
  apply (bind_elem_r _ _ _ _ H1), (bind_elem_r _ _ _ _ H2), (bind_elem_r _ _ _ _ H3),
    (bind_elem_r _ _ _ _ H4). by apply bind_elem_l.
Qed.

(** X15. The [craft.yaml] revision reads the manifest of the project
    before it installs anything: when that manifest cannot be read, a run
    that got as far aborts and [npm] is never started. *)
Theorem yaml_unreadable_project_manifest_aborts w dir s files template :
  reaches_manifest craft_yaml w dir s files →
  s !! "package.json" = Some "merge" →
  template_manifest w = Some template →
  baseline_manifest w = None →
  (Craft.run craft_yaml w).2 = Craft.aborted ∧
  ∀ e, e ∈ (Craft.run craft_yaml w).1 → ∀ args, e ≠ Spawn "npm" args.
Proof.
  intros Hreach Hmerge Ht Hb. split.
  - rewrite (run_status _ _ _ _ _ Hreach).
    unfold Craft.manifest, Craft.already_installed, lift, read, emit, throw, mbind, M_bind,
      mret, M_ret.
    cbn [spec fst snd]. unfold get. rewrite Hmerge. cbn [strict_eq].
    rewrite bool_decide_eq_true_2 by done. cbn [negb fst snd]. rewrite Ht, Hb.
    by destruct (get_prop template "dependencies").
  - intros e He args ->.
    assert (kind_of (Spawn "npm" args) = writing ∨ kind_of (Spawn "npm" args) = directory
            ∨ ∃ args', Spawn "npm" args = Spawn "npm" args') as Hkind
      by (right; right; by exists args).
    destruct (run_manifest_events _ _ _ He Hkind) as (obj & _ & Hin).
    apply yaml_install_inv in Hin as (t & b & _ & _ & _ & Hb' & _). by rewrite Hb in Hb'.
Qed.

Lemma yaml_unreadable_project_manifest_aborts_witness :
  let w := Cases.without_project_manifest Sample.with_empty_yaml in
  (Craft.run craft_yaml w).2 = Craft.aborted ∧
  ∀ e, e ∈ (Craft.run craft_yaml w).1 → ∀ args, e ≠ Spawn "npm" args.
Proof.
  intros w.
  eapply (yaml_unreadable_project_manifest_aborts w "/tmp/tmp-1" _ Sample.entries);
    [reach|reflexivity..].
Defined.

Lemma spec_install_inv w obj args :
  Spawn "npm" args ∈ (Craft.manifest craft_spec w obj).1 →
  ∃ template pruned specs,
    template_manifest w = Some template ∧
    Craft.prune Craft.installedDependencies
                (or_else (Craft.prop template "dependencies") (VObj [])) = Some pruned ∧
    Craft.packages pruned = Some specs ∧
    args = ["install"; "--save"; "--loglevel"; "error"] ++ specs.
Proof.
  unfold Craft.manifest. intros H.
  apply bind_elem in H as [H%lift_elem|(s & Hs%lift_resolved & H)]; [done|].
  destruct (strict_eq (get s "package.json") "merge") eqn:Hmerge; cbn [negb] in H;
    [|by apply not_elem_of_nil in H].
  apply bind_elem in H as [H|(u & _ & H)].
  { simpl in H. repeat (apply elem_of_cons in H as [[=]|H]). by apply not_elem_of_nil in H. }
  destruct (template_manifest w) as [template|] eqn:Ht; [|by apply not_elem_of_nil in H].
  apply bind_elem in H as [H%lift_elem|(dependencies & Hd%lift_resolved & H)]; [done|].
  apply bind_elem in H as [H%already_installed_elem|(names & Hnames & H)]; [done|].
  apply bind_elem in H as [H%lift_elem|(pruned & Hpruned%lift_resolved & H)]; [done|].
  apply get_prop_some in Hd as ->.
  simpl in Hnames. injection Hnames as <-.
  apply bind_elem in H as [(args' & Hargs & [= <-])%install_elem|(u' & _ & H)].
  - unfold Craft.install_args in Hargs.
    destruct (Craft.packages pruned) as [specs|] eqn:Hspecs; [|done].
    injection Hargs as <-. by exists template, pruned, specs.
  - apply bind_elem in H as [H%read_elem|(app & _ & H)]; [done|].
    apply bind_elem in H as [H%lift_elem|(merged & _ & H)]; [done|].
    apply bind_elem in H as [H%lift_elem|(text & _ & H)]; [done|].
    apply bind_elem in H as [H|(u'' & _ & H)]; [|by apply not_elem_of_nil in H].
    by apply list_elem_of_singleton in H.
Qed.

(** X17. The [craft.spec] revision, for a template whose dependencies are
    an object: a package is handed to [npm] exactly when it renders a
    dependency of the template whose name is none of [react], [react-dom]
    and [react-scripts]; what the project already depends on plays no
    part. *)
Theorem spec_installs_all_but_fixed w obj args template ps :
  Spawn "npm" args ∈ (Craft.manifest craft_spec w obj).1 →
  template_manifest w = Some template →
  or_else (Craft.prop template "dependencies") (VObj []) = VObj ps →
  ∃ specs,
    args = ["install"; "--save"; "--loglevel"; "error"] ++ specs ∧
    ∀ spec, spec ∈ specs ↔
            (∃ name v version,
                (name, v) ∈ ps ∧
                (name ∉ ["react"; "react-dom"; "react-scripts"]) ∧
                to_string v = Some version ∧
                spec = name +:+ "@" +:+ version).
Proof.
  intros H Ht Hps.
  apply spec_install_inv in H as (t & pruned & specs & Ht' & Hp & Hspecs & ->).
  rewrite Ht in Ht'. injection Ht' as <-.
  rewrite Hps, prune_object in Hp. injection Hp as <-.
  exists specs. split; [done|]. intros spec.
  rewrite (packages_object _ _ Hspecs spec). split.
  - intros (name & v & version & [Hn Hin]%list_elem_of_filter & Hv & ->).
    by exists name, v, version.
  - intros (name & v & version & Hin & Hn & Hv & ->).
    exists name, v, version. split; [|done]. by apply list_elem_of_filter.
Qed.

Lemma spec_installs_all_but_fixed_witness :
  let w := Sample.with_vitals in
  let obj := {| tmpdir := "/tmp/tmp-1"; spec := (Craft.load craft_spec w).2 |} in
  let args := ["install"; "--save"; "--loglevel"; "error";
               "lodash@^4.0.0"; "web-vitals@^1.0.0"] in
  Spawn "npm" args ∈ (Craft.manifest craft_spec w obj).1 ∧
  ∃ specs,
    args = ["install"; "--save"; "--loglevel"; "error"] ++ specs ∧
    ∀ spec, spec ∈ specs ↔
            (∃ name v version,
                (name, v) ∈ [("lodash", VStr "^4.0.0"); ("web-vitals", VStr "^1.0.0")] ∧
                (name ∉ ["react"; "react-dom"; "react-scripts"]) ∧
                to_string v = Some version ∧
                spec = name +:+ "@" +:+ version).
Proof.
  intros w obj args.
  assert (Spawn "npm" args ∈ (Craft.manifest craft_spec w obj).1) as H
    by (vm_compute; find_event).
  split; [exact H|].
  exact (spec_installs_all_but_fixed w obj args Sample.vitals_template_json _ H eq_refl
           eq_refl).
Defined.

(** At a sample run: the project depends on [web-vitals] already, so
    only [lodash] is handed to [npm]. *)
Lemma yaml_installs_template_only_witness :
  let w := Sample.with_vitals in
  let obj := {| tmpdir := "/tmp/tmp-1"; spec := (Craft.load craft_yaml w).2 |} in
  let args := ["install"; "--save"; "--loglevel"; "error"; "lodash@^4.0.0"] in
  Spawn "npm" args ∈ (Craft.manifest craft_yaml w obj).1 ∧
  ∃ specs,
    args = ["install"; "--save"; "--loglevel"; "error"] ++ specs ∧
    ∀ spec, spec ∈ specs ↔
            (∃ name v version,
                (name, v) ∈ [("lodash", VStr "^4.0.0"); ("web-vitals", VStr "^1.0.0")] ∧
                (name ∉ keys (or_else (Craft.prop Sample.vitals_baseline_json "dependencies")
                                      (VObj []))) ∧
                to_string v = Some version ∧
                spec = name +:+ "@" +:+ version).
Proof.
  intros w obj args.
  assert (Spawn "npm" args ∈ (Craft.manifest craft_yaml w obj).1) as H
    by (vm_compute; find_event).
  split; [exact H|].
  exact (yaml_installs_template_only w obj args Sample.vitals_template_json
           Sample.vitals_baseline_json _ H eq_refl eq_refl eq_refl).
Defined.

Lemma packages_total ps :
  Forall (fun kv : string * value => is_Some (to_string kv.2)) ps →
  is_Some (Craft.packages (VObj ps)).
Proof.
  intros Hall. unfold Craft.packages. apply mapM_is_Some_2. simpl.
  eapply Forall_impl; [exact Hall|]. intros [k v] [version Hv]. simpl in *.
  rewrite Hv. by eexists.
Qed.

Lemma already_installed_object r w bps :
  (r = craft_yaml → baseline_manifest w = Some (VObj bps)) →
  ∃ names, Craft.already_installed r w = ([], resolved names).
Proof.
  intros Hb. destruct r; [by eexists|].
  unfold Craft.already_installed, read, lift, mbind, M_bind, mret, M_ret.
  rewrite Hb by done. by eexists.
Qed.

(** X18. The way through: for a template and a project whose manifests are
    objects, template dependencies that are an object (or missing) with
    versions that can be printed, and an [npm] that exits with 0, a run
    whose early stages went through completes, and it writes the manifest
    of the project. *)
Theorem run_with_object_manifests_completes r w dir s files tps ps bps aps :
  reaches_manifest r w dir s files →
  s !! "package.json" = Some "merge" →
  template_manifest w = Some (VObj tps) →
  or_else (Craft.prop (VObj tps) "dependencies") (VObj []) = VObj ps →
  Forall (fun kv : string * value => is_Some (to_string kv.2)) ps →
  (r = craft_yaml → baseline_manifest w = Some (VObj bps)) →
  install_exit w = Some 0 →
  baseline_manifest_after w = Some (VObj aps) →
  (Craft.run r w).2 = Craft.completed ∧
  ∃ text, WriteFile (path_join (host w) (root w) "package.json") text ∈ (Craft.run r w).1.
Proof.
  intros Hreach Hmerge Ht Hps Hall Hb Hexit Ha.
  destruct (already_installed_object r w bps Hb) as [names Hnames].
  set (kept := filter (fun kv : string * value => kv.1 ∉ names) ps).
  assert (Craft.prune names (or_else (Craft.prop (VObj tps) "dependencies") (VObj []))
          = Some (VObj kept)) as Hpruned by by rewrite Hps, prune_object.
  destruct (packages_total kept) as [specs Hspecs].
  { unfold kept. apply Forall_forall. intros kv [_ Hin]%list_elem_of_filter.
    by apply (proj1 (Forall_forall _ _) Hall). }
  assert (Craft.install_args (VObj kept)
          = Some (["install"; "--save"; "--loglevel"; "error"] ++ specs)) as Hargs
    by (unfold Craft.install_args; by rewrite Hspecs).
  set (dependencies := Craft.prop (VObj tps) "dependencies") in *.
  assert (get_prop (VObj tps) "dependencies" = Some dependencies) as Hd by done.
  destruct (merge_manifests_total r (Craft.after_prune (VObj tps) dependencies (VObj kept))
              (VObj aps)) as [mps Hmerged].
  { unfold Craft.after_prune. destruct (truthy_value dependencies); by eexists. }
  { by eexists. }
  destruct (stringify_object mps 2) as [text Htext].
  pose proof (manifest_writes r w {| tmpdir := dir; spec := Some s |} s (VObj tps)
                dependencies names (VObj kept) _ (VObj aps) (VObj mps) text
                eq_refl Hmerge Ht Hd Hnames Hpruned Hargs Hexit Ha Hmerged Htext) as Hrun.
  split.
  - rewrite (run_status _ _ _ _ _ Hreach). by rewrite Hrun.
  - exists text. apply (run_includes_manifest _ _ _ _ _ _ Hreach). rewrite Hrun.
    cbn [fst]. find_event.
Qed.

Lemma run_with_object_manifests_completes_witness :
  let w := Sample.with_empty_yaml in
  (Craft.run craft_yaml w).2 = Craft.completed ∧
  ∃ text, WriteFile (path_join (host w) (root w) "package.json") text
            ∈ (Craft.run craft_yaml w).1.
Proof.
  intros w.
  eapply (run_with_object_manifests_completes craft_yaml w "/tmp/tmp-1" _ Sample.entries);
    [ reach | reflexivity | reflexivity | reflexivity | | intros _; reflexivity
     | reflexivity | reflexivity ].
  repeat constructor; by eexists.
Defined.

End ManifestRun.

(** ** The manifest written *)

Section Written.

Import Js.

Implicit Types (template app : value) (ps : list (string * value)).

Lemma stringify_undefined_last ps k n :
  stringify (VObj (ps ++ [(k, VUndef)])) n = stringify (VObj ps) n.
Proof.
  unfold stringify. cbn [serialize]. by rewrite omap_app, app_nil_r.
Qed.

(** X19. In the [craft.yaml] revision the merge always sets [eslintConfig];
    when neither manifest has that field its value is [undefined], which
    the JSON rendering drops: the file written is, character for
    character, the one the [craft.spec] revision writes. *)
Theorem yaml_without_eslint_writes_as_spec template app ms n :
  field template "eslintConfig" = None →
  field app "eslintConfig" = None →
  Craft.merge_manifests craft_spec template app = Some ms →
  ∃ my, Craft.merge_manifests craft_yaml template app = Some my ∧
        stringify my n = stringify ms n.
Proof.
  intros Ht Ha. unfold Craft.merge_manifests.
  destruct (get_prop app "scripts") as [asc|] eqn:Hasc; [|done].
  destruct (get_prop template "scripts") as [tsc|] eqn:Htsc; [|done].
  cbn [mbind option_bind]. intros [= <-].
  assert (get_prop template "eslintConfig" = Some VUndef) as ->.
  { destruct template; try done; unfold get_prop; by rewrite Ht. }
  assert (get_prop app "eslintConfig" = Some VUndef) as ->.
  { destruct app; try done; unfold get_prop; by rewrite Ha. }
  cbn [mbind option_bind]. eexists. split; [done|].
  set (scripts := assign [asc; tsc]).
  pose proof (assign3_field template app (VObj [("scripts", scripts)]) "eslintConfig")
    as Hfield.
  rewrite Ht, Ha in Hfield. specialize (Hfield ltac:(done)).
  unfold assign in *. cbn [foldl] in *.
  unfold assign_source at 1. unfold assign_source at 1 in Hfield.
  cbn [own_props foldl] in *.
  set (T := assign_prop _ ("scripts", scripts)) in *.
  unfold assign_prop at 1. cbn [fst snd].
  rewrite bool_decide_eq_false_2 by done. cbn [andb t_props].
  unfold define, has_own. unfold field in Hfield. cbn [own_props] in Hfield.
  rewrite Hfield. rewrite bool_decide_eq_false_2 by (by intros [? ?]).
  change (array_index "eslintConfig") with (@None N).
  apply stringify_undefined_last.
Qed.

Lemma yaml_without_eslint_writes_as_spec_witness :
  let template := Sample.template_json in
  let app := VObj [("name", VStr "app"); ("scripts", VObj [("test", VStr "jest")])] in
  ∃ ms my,
    Craft.merge_manifests craft_spec template app = Some ms ∧
    Craft.merge_manifests craft_yaml template app = Some my ∧
    field my "eslintConfig" = Some VUndef ∧ field ms "eslintConfig" = None ∧
    stringify my 2 = stringify ms 2.
Proof.
  intros template app. eexists.
  destruct (yaml_without_eslint_writes_as_spec template app _ 2 eq_refl eq_refl eq_refl)
    as (my & Hmy & Htext).
  exists my. split; [reflexivity|]. split; [exact Hmy|].
  split; [|split; [reflexivity|exact Htext]].
  vm_compute in Hmy. injection Hmy as <-. reflexivity.
Defined.

End Written.

(** ** Failures before the template is there *)

Section EarlyFailure.

Implicit Types (w : world) (r : revision) (e : event).

Lemma chain_elem_early r w e :
  e ∈ (Craft.chain r w).1 →
  e ∈ (Craft.createApp w).1 ∨
  ((Craft.createApp w).2 = resolved tt ∧
   (e ∈ (Craft.clone r w).1 ∨ ∃ obj, (Craft.clone r w).2 = resolved obj)).
Proof.
  unfold Craft.chain. intros H.
  apply bind_elem in H as [H|([] & Hu & H)]; [by left|]. right. split; [done|].
  apply bind_elem in H as [H|(obj & Hclone & H)]; [by left|]. right. by exists obj.
Qed.

Lemma chain_early_outcome r w :
  exited_ok (createApp_exit w) = false ∨ tmp_dir w = None
  ∨ exited_ok (clone_exit w) = false →
  ∃ rsn, (Craft.chain r w).2 = rejected rsn ∧
         ((Craft.createApp w).2 = rejected rsn ∨ (Craft.clone r w).2 = rejected rsn).
Proof.
  intros H. unfold Craft.chain.
  destruct (exited_ok (createApp_exit w)) eqn:Hgen.
  - assert ((Craft.createApp w).2 = resolved tt) as H1.
    { unfold Craft.createApp, emit, mbind, M_bind. cbn [snd]. by rewrite Hgen. }
    rewrite (bind_outcome_resolved _ _ _ H1).
    assert (∃ rsn, (Craft.clone r w).2 = rejected rsn) as [rsn Hrsn].
    { unfold Craft.clone, Craft.reject_failed, read, emit, throw, reject, mbind, M_bind,
        mret, M_ret.
      destruct (tmp_dir w) as [dir|]; [|by eexists]. cbn.
      destruct H as [?|[?|H]]; [done..|]. rewrite H. by eexists. }
    exists rsn. split; [|by right]. by apply bind_outcome_rejected.
  - assert (∃ rsn, (Craft.createApp w).2 = rejected rsn) as [rsn Hrsn].
    { unfold Craft.createApp, Craft.reject_failed, emit, reject, mbind, M_bind.
      cbn [fst snd]. rewrite Hgen. destruct (npx w); by eexists. }
    exists rsn. split; [|by left]. by apply bind_outcome_rejected.
Qed.

(** X23. When the generator fails, no scratch directory can be made or the
    clone fails, the run is aborted and has touched nothing: all it did
    was to write to the console and to start the generator and, at most,
    [git]. *)
Theorem early_failure_touches_nothing r w e :
  exited_ok (createApp_exit w) = false ∨ tmp_dir w = None
  ∨ exited_ok (clone_exit w) = false →
  (Craft.run r w).2 = Craft.aborted ∧
  (e ∈ (Craft.run r w).1 →
   kind_of e = console ∨ (kind_of e = subprocess ∧ ∀ args, e ≠ Spawn "npm" args)).
Proof.
  intros Hfail. destruct (chain_early_outcome r w Hfail) as (rsn & Hchain & Hwhere).
  unfold Craft.run. split; [by rewrite catch_status, Hchain|].
  intros [H|[Hk _]]%catch_elem; [|by left].
  apply chain_elem_early in H as [H|[Hgen [H|[obj Hobj]]]].
  - right. split; [by apply createApp_kind in H|].
    intros args ->. by apply createApp_no_npm in H.
  - destruct (clone_kind _ _ _ H) as [Hc|Hc]; [by left|]. right. split; [done|].
    intros args ->. by apply clone_no_npm in H.
  - destruct Hwhere as [Hw|Hw]; congruence.
Qed.

Lemma early_failure_touches_nothing_witness :
  let w := Cases.without_tmp_dir Sample.with_spec_file in
  let e := Spawn "npx" ["create-react-app"; "my-app"] in
  e ∈ (Craft.run craft_spec w).1 ∧
  (Craft.run craft_spec w).2 = Craft.aborted ∧
  (e ∈ (Craft.run craft_spec w).1 →
   kind_of e = console ∨ (kind_of e = subprocess ∧ ∀ args, e ≠ Spawn "npm" args)).
Proof.
  intros w e. split; [vm_compute; find_event|].
  apply (early_failure_touches_nothing craft_spec w e). right; left. reflexivity.
Defined.

End EarlyFailure.

(** At a sample run: the generator exits with 1. *)
Lemma failed_generator_reported_witness :
  let w := Sample.generator_fails Sample.bare in
  Craft.run craft_yaml w =
    ([ Spawn "npx" ["create-react-app"; "my-app"]; Log EmptyString;
       Log "Aborting installation.";
       Log ("  " +:+ chalk cyan "npx create-react-app my-app" +:+ " has failed.");
       Log EmptyString ],
     Craft.aborted).
Proof. intros w. exact (failed_generator_reported craft_yaml w eq_refl). Defined.

(** At a sample run: [git] exits with 128. *)
Lemma failed_clone_reported_witness :
  let w := Sample.clone_fails Sample.bare in
  Craft.run craft_spec w =
    ([ Spawn "npx" ["create-react-app"; "my-app"]; Log EmptyString;
       Log (chalk magenta "Applying custom template..."); Log EmptyString;
       Spawn "git" ["clone"; "https://example.org/template.git"; "/tmp/tmp-1"];
       Log EmptyString; Log "Aborting installation.";
       Log ("  "
            +:+ chalk cyan "git clone https://example.org/template.git /tmp/tmp-1"
            +:+ " has failed.");
       Log EmptyString ],
     Craft.aborted).
Proof.
  intros w. exact (failed_clone_reported craft_spec w "/tmp/tmp-1" eq_refl eq_refl eq_refl).
Defined.

(** ** The start of the program *)

Section Start.

Implicit Types (w : world) (r : revision) (l : Startup.launch) (o : Startup.output).

Lemma usage_lines o :
  o ∈ Startup.usage → ∃ line, o = Startup.Stderr line ∨ o = Startup.Stdout line.
Proof.
  unfold Startup.usage. intros H.
  repeat (apply elem_of_cons in H as [->|H]; [eexists; by (left + right)|]).
  by apply not_elem_of_nil in H.
Qed.

Lemma no_generator_lines o :
  o ∈ Startup.no_generator → ∃ line, o = Startup.Stderr line ∨ o = Startup.Stdout line.
Proof.
  unfold Startup.no_generator. intros H.
  repeat (apply elem_of_cons in H as [->|H]; [eexists; by (left + right)|]).
  by apply not_elem_of_nil in H.
Qed.

Lemma probes_elem w o :
  o ∈ Startup.probes w ↔
  o = Startup.Exec "npx --version"
  ∨ (npx w = false ∧ o = Startup.Exec "create-react-app --version").
Proof.
  unfold Startup.probes. destruct (npx w);
    rewrite ?elem_of_cons, ?elem_of_nil; intuition discriminate.
Qed.

(** What the start prints besides lines: the probes, and the exit when no
    run is started. *)
Lemma main_output r l w o :
  (∀ line, o ≠ Startup.Stderr line ∧ o ≠ Startup.Stdout line) →
  o ∈ (Startup.main r l w).1 ↔
  (o = Startup.Exit 1 ∧ (Startup.main r l w).2 = None)
  ∨ (Startup.name_given l = true ∧ Startup.template_given l = true ∧ o ∈ Startup.probes w).
Proof.
  intros Hline.
  assert (o ∉ Startup.usage) as Hu.
  { intros (line & [->| ->])%usage_lines; by destruct (Hline line). }
  assert (o ∉ Startup.no_generator) as Hg.
  { intros (line & [->| ->])%no_generator_lines; by destruct (Hline line). }
  unfold Startup.main.
  destruct (Startup.name_given l), (Startup.template_given l); cbn [negb orb fst snd];
    try (rewrite elem_of_app, list_elem_of_singleton; by intuition).
  destruct (negb (npx w) && negb (Startup.cra_installed l)); cbn [fst snd].
  - rewrite !elem_of_app, list_elem_of_singleton. intuition.
  - intuition discriminate.
Qed.


End Start.

(** ** The earlier revision *)

Section EarlyRevision.

Implicit Types (w : world) (e : event) (files : list string).

(** X25. The fixed list of names the earlier revision leaves out of the
    copy is what the defaults of the [craft.spec] revision leave out, for
    every entry that is neither [craft.spec] itself nor named like a
    member of [Object.prototype]. *)
Theorem early_skips_agree files :
  Forall (fun file => (file ∉ Js.object_prototype_names) ∧ file ≠ "craft.spec") files →
  Early.copy_files files = Craft.copy_files SpecFile.defaultSpec files.
Proof.
  intros Hall. unfold Early.copy_files, Craft.copy_files.
  induction Hall as [|file files [Hproto Hspec] Hall IH]; [done|].
  cbn [List.filter]. rewrite IH.
  assert (includes Early.skips file = Craft.skip SpecFile.defaultSpec file) as ->; [|done].
  unfold includes. destruct (SpecFile.defaultSpec !! file) as [d|] eqn:E.
  - rewrite (skip_own _ _ _ E). apply elem_of_list_to_map_2 in E.
    repeat (apply elem_of_cons in E as [[= -> ->]|E];
            [by (done || (rewrite bool_decide_eq_true_2 by (unfold Early.skips; find_event)))|]).
    by apply not_elem_of_nil in E.
  - rewrite (skip_absent _ _ E), (bool_decide_eq_false_2 _ Hproto).
    apply bool_decide_eq_false_2. unfold Early.skips. intros H.
    repeat (apply elem_of_cons in H as [->|H]; [done|]). by apply not_elem_of_nil in H.
Qed.

Lemma early_skips_agree_witness :
  Early.copy_files Sample.entries = ["a.txt"; "src"] ∧
  Early.copy_files Sample.entries = Craft.copy_files SpecFile.defaultSpec Sample.entries.
Proof.
  split; [reflexivity|]. apply early_skips_agree.
  unfold Sample.entries, Js.object_prototype_names.
  repeat (apply Forall_cons; split;
          [split; [rewrite !elem_of_cons, elem_of_nil; intuition discriminate|discriminate]|]).
  apply Forall_nil_2.
Defined.

(** X26. In the earlier revision only the end of the manifest stage gives
    the object its [root]: for a template without a manifest that can be
    read and with an entry to copy, the copy stage throws before anything
    is copied and the run is aborted. *)
Theorem early_copy_needs_manifest w dir files file :
  exited_ok (createApp_exit w) = true →
  tmp_dir w = Some dir →
  exited_ok (clone_exit w) = true →
  template_manifest w = None →
  template_entries w = Some files →
  file ∈ files → file ∉ Early.skips →
  (Early.chain w).2 = rejected (thrown TypeError) ∧
  (Early.run w).2 = Craft.aborted ∧
  ∀ e, e ∈ (Early.run w).1 → kind_of e ≠ copying ∧ kind_of e ≠ cleaning.
Proof.
  intros Hgen Hdir Hclone Ht Hfiles Hin Hskip.
  assert (∃ f fs, Early.copy_files files = f :: fs) as (f & fs & Hcopied).
  { assert (file ∈ Early.copy_files files) as H.
    { unfold Early.copy_files.
      rewrite list_elem_of_In, filter_In, <- list_elem_of_In. split; [done|].
      unfold includes. by rewrite bool_decide_eq_false_2. }
    destruct (Early.copy_files files) as [|f fs]; [by apply not_elem_of_nil in H|].
    by exists f, fs. }
  assert (Early.chain w =
            ([ Spawn "create-react-app" [projectName w]; Log EmptyString;
               Log (chalk magenta "Applying custom template..."); Log EmptyString;
               Spawn "git" ["clone"; projectTemplate w; dir]; Log EmptyString;
               Log "Installing template packages. This might take a couple of minutes.";
               Chdir (root w) ], rejected (thrown TypeError))) as Hchain.
  { unfold Early.chain, Early.createApp, Early.clone, Early.manifest, Early.copy,
      read, lift, emit, throw, mbind, M_bind, mret, M_ret.
    rewrite Hgen, Hdir. cbn [fst snd app]. rewrite Hclone. cbn [fst snd app].
    rewrite Ht. cbn [fst snd app]. rewrite Hfiles. cbn [fst snd app Early.obj_root].
    rewrite Hcopied. done. }
  split; [by rewrite Hchain|]. unfold Early.run.
  split; [by rewrite catch_status, Hchain|].
  intros e [H|[Hk _]]%catch_elem; [|by rewrite Hk].
  rewrite Hchain in H. cbn [fst] in H.
  repeat (apply elem_of_cons in H as [->|H]; [done|]). by apply not_elem_of_nil in H.
Qed.

Lemma early_copy_needs_manifest_witness :
  let w := Cases.without_template_manifest Sample.bare in
  (Early.chain w).2 = rejected (thrown TypeError) ∧
  (Early.run w).2 = Craft.aborted ∧
  ∀ e, e ∈ (Early.run w).1 → kind_of e ≠ copying ∧ kind_of e ≠ cleaning.
Proof.
  intros w.
  apply (early_copy_needs_manifest w "/tmp/tmp-1" Sample.entries "a.txt");
    [reflexivity..| |].
  - unfold Sample.entries. find_event.
  - unfold Early.skips. rewrite !elem_of_cons, elem_of_nil. intuition discriminate.
Defined.

End EarlyRevision.

(** ** The order of copying and installing *)

Section Order.

Implicit Types (w : world) (r : revision) (e : event) (l : list event)
  (P Q : event → Prop).

Lemma precedes_none P Q l : (∀ e, e ∈ l → ¬ P e) → precedes P Q l.
Proof.
  intros Hnone i j x y Hi HP _ _. destruct (Hnone x); [|done].
  apply list_elem_of_lookup. by exists i.
Qed.

Lemma precedes_app P Q l l' :
  precedes P Q l → precedes P Q l' → (∀ e, e ∈ l → ¬ Q e) → precedes P Q (l ++ l').
Proof.
  intros Hl Hl' Hnone i j x y Hi HP Hj HQ.
  apply lookup_app_Some in Hi as [Hi|[Hlen Hi]], Hj as [Hj|[Hlen' Hj]].
  - by eapply Hl.
  - apply lookup_lt_Some in Hi. lia.
  - destruct (Hnone y); [|done]. apply list_elem_of_lookup. by exists j.
  - pose proof (Hl' _ _ _ _ Hi HP Hj HQ). lia.
Qed.

Lemma precedes_bind {A B : Type} P Q (m : M A) (f : A → M B) :
  precedes P Q m.1 → (∀ a, precedes P Q (f a).1) → (∀ e, e ∈ m.1 → ¬ Q e) →
  precedes P Q (m ≫= f).1.
Proof.
  intros Hm Hf Hnone. unfold mbind, M_bind.
  destruct m as [es [a|rsn|err]]; cbn [fst snd] in *; [|done..].
  by apply precedes_app.
Qed.

Lemma precedes_catch P Q (m : M unit) :
  (∀ e, kind_of e = console → ¬ P e ∧ ¬ Q e) →
  precedes P Q m.1 → precedes P Q (Craft.catch m).1.
Proof.
  intros Hconsole Hm i j x y Hi HP Hj HQ.
  assert (∀ k z, (Craft.catch m).1 !! k = Some z → (P z ∨ Q z) → m.1 !! k = Some z) as Hin.
  { intros k z Hk Hz.
    assert (z ∈ (Craft.catch m).1) as Hz' by (apply list_elem_of_lookup; by exists k).
    revert Hk Hz'. unfold Craft.catch.
    destruct m as [es [u|rsn|err]]; cbn [fst snd]; [done| |done].
    intros [Hk|[_ Hk]]%lookup_app_Some _; [done|].
    assert (z ∈ [Log EmptyString; Log "Aborting installation."]
                  ++ match rsn with
                     | failed_command command =>
                         if negb (bool_decide (command = EmptyString))
                         then [Log ("  " +:+ chalk cyan command +:+ " has failed.")]
                         else [Log (chalk red "Unexpected error. Please report it as a bug:");
                               Log "[object Object]"]
                     | thrown e =>
                         [Log (chalk red "Unexpected error. Please report it as a bug:");
                          Log (Craft.show_error e)]
                     end ++ [Log EmptyString]) as Hlog
      by (apply list_elem_of_lookup; by eexists).
    assert (kind_of z = console) as Hkind.
    { rewrite !elem_of_app in Hlog. destruct Hlog as [H|[H|H]].
      - repeat (apply elem_of_cons in H as [->|H]; [done|]). by apply not_elem_of_nil in H.
      - destruct rsn as [command|err'].
        + destruct (negb (bool_decide (command = EmptyString)));
            repeat (apply elem_of_cons in H as [->|H]; [done|]);
            by apply not_elem_of_nil in H.
        + repeat (apply elem_of_cons in H as [->|H]; [done|]).
          by apply not_elem_of_nil in H.
      - repeat (apply elem_of_cons in H as [->|H]; [done|]). by apply not_elem_of_nil in H. }
    destruct (Hconsole _ Hkind). tauto. }
  eapply Hm; [apply Hin| |apply Hin|]; eauto.
Qed.

Lemma console_neither e : kind_of e = console → ¬ is_copy e ∧ ¬ starts_npm e.
Proof.
  intros Hk. split.
  - unfold is_copy. by rewrite Hk.
  - by intros [args ->].
Qed.

Lemma console_neither' e : kind_of e = console → ¬ starts_npm e ∧ ¬ is_copy e.
Proof. intros H. by destruct (console_neither e H). Qed.

(** X27. In the revisions with a Spec the entries of the template are
    copied before any package is installed: whatever the run, each copy
    comes before the start of [npm]. *)
Theorem copies_precede_install r w : precedes is_copy starts_npm (Craft.run r w).1.
Proof.
  unfold Craft.run. apply precedes_catch; [apply console_neither|].
  unfold Craft.chain.
  apply precedes_bind.
  { apply precedes_none. intros e H Hc. apply createApp_kind in H.
    unfold is_copy in Hc. by rewrite H in Hc. }
  2: { intros e H [args ->]. by apply createApp_no_npm in H. }
  intros _. apply precedes_bind.
  { apply precedes_none. intros e H Hc. unfold is_copy in Hc.
    by destruct (clone_kind _ _ _ H) as [Hk|Hk]; rewrite Hk in Hc. }
  2: { intros e H [args ->]. by apply clone_no_npm in H. }
  intros obj1. apply precedes_bind.
  { apply precedes_none. intros e H Hc. unfold is_copy in Hc.
    by destruct (delete_kind _ _ _ H) as [Hk|Hk]; rewrite Hk in Hc. }
  2: { intros e H [args ->]. by apply delete_no_npm in H. }
  intros obj2. apply precedes_bind.
  { intros i j x y _ _ Hj [args ->]. destruct (copy_no_npm w obj2 args).
    apply list_elem_of_lookup. by exists j. }
  2: { intros e H [args ->]. by apply copy_no_npm in H. }
  intros obj3. apply precedes_none. intros e H Hc. unfold is_copy in Hc.
  apply bind_elem in H as [H|(obj4 & _ & H)].
  - by destruct (manifest_kind _ _ _ _ H) as [Hk|[Hk|[Hk|Hk]]]; rewrite Hk in Hc.
  - simpl in H. repeat (apply elem_of_cons in H as [->|H]; [done|]).
    by apply not_elem_of_nil in H.
Qed.

Lemma early_createApp_kind w e : e ∈ (Early.createApp w).1 → kind_of e = subprocess.
Proof.
  unfold Early.createApp. intros [H|(u & _ & H)]%bind_elem.
  - by apply list_elem_of_singleton in H as ->.
  - destruct (exited_ok (createApp_exit w)); by apply not_elem_of_nil in H.
Qed.

Lemma early_clone_kind w e :
  e ∈ (Early.clone w).1 → kind_of e = console ∨ kind_of e = subprocess.
Proof.
  unfold Early.clone. intros H.
  apply bind_elem in H as [H|(u & _ & H)].
  { simpl in H. repeat (apply elem_of_cons in H as [->|H]; [by left|]).
    by apply not_elem_of_nil in H. }
  apply bind_elem in H as [H%read_elem|(dir & _ & H)]; [done|].
  apply bind_elem in H as [->%list_elem_of_singleton|(u1 & _ & H)]; [by right|].
  apply bind_elem in H as [H|(u2 & _ & H)].
  { destruct (exited_ok (clone_exit w)); by apply not_elem_of_nil in H. }
  by apply not_elem_of_nil in H.
Qed.

Lemma early_manifest_kind w dir e :
  e ∈ (Early.manifest w dir).1 →
  kind_of e = console ∨ kind_of e = directory ∨ kind_of e = subprocess
  ∨ kind_of e = writing.
Proof.
  unfold Early.manifest. intros H.
  apply bind_elem in H as [H|(u & _ & H)].
  { simpl in H. repeat (apply elem_of_cons in H as [->|H]; [by auto|]).
    by apply not_elem_of_nil in H. }
  destruct (template_manifest w) as [template|]; [|by apply not_elem_of_nil in H].
  apply bind_elem in H as [H%lift_elem|(dependencies & _ & H)]; [done|].
  apply bind_elem in H as [H%lift_elem|(pruned & _ & H)]; [done|].
  apply bind_elem in H as [(args & _ & ->)%install_elem|(u1 & _ & H)]; [by auto|].
  apply bind_elem in H as [H%read_elem|(app & _ & H)]; [done|].
  apply bind_elem in H as [H%lift_elem|(merged & _ & H)]; [done|].
  apply bind_elem in H as [H%lift_elem|(text & _ & H)]; [done|].
  apply bind_elem in H as [->%list_elem_of_singleton|(u2 & _ & H)]; [by auto|].
  by apply not_elem_of_nil in H.
Qed.

Lemma early_copy_kind w obj e :
  e ∈ (Early.copy w obj).1 → kind_of e = console ∨ kind_of e = copying.
Proof.
  unfold Early.copy. intros H.
  apply bind_elem in H as [H%read_elem|(files & _ & H)]; [done|].
  apply bind_elem in H as [H%lift_elem|(copies & Hcopies%lift_resolved & H)]; [done|].
  apply bind_elem in H as [H|(u1 & _ & H)].
  { right. cbn [emit fst] in H. destruct (Early.obj_root obj) as [dir|].
    - injection Hcopies as <-. by apply list_elem_of_fmap in H as (? & -> & _).
    - destruct (Early.copy_files files); [|done]. injection Hcopies as <-.
      by apply not_elem_of_nil in H. }
  apply bind_elem in H as [(? & -> & _)%list_elem_of_fmap|(u2 & _ & H)]; [by left|].
  by apply not_elem_of_nil in H.
Qed.

(** X28. The earlier revision has it the other way round: each start of
    [npm] comes before every copy. *)
Theorem early_install_precedes_copies w : precedes starts_npm is_copy (Early.run w).1.
Proof.
  unfold Early.run. apply precedes_catch; [apply console_neither'|].
  unfold Early.chain.
  apply precedes_bind.
  { intros i j x y _ _ Hj Hc. unfold is_copy in Hc.
    assert (y ∈ (Early.createApp w).1) as H by (apply list_elem_of_lookup; by exists j).
    apply early_createApp_kind in H. by rewrite H in Hc. }
  2: { intros e H Hc. apply early_createApp_kind in H. unfold is_copy in Hc.
       by rewrite H in Hc. }
  intros _. apply precedes_bind.
  { intros i j x y _ _ Hj Hc. unfold is_copy in Hc.
    assert (y ∈ (Early.clone w).1) as H by (apply list_elem_of_lookup; by exists j).
    by destruct (early_clone_kind _ _ H) as [Hk|Hk]; rewrite Hk in Hc. }
  2: { intros e H Hc. unfold is_copy in Hc.
       by destruct (early_clone_kind _ _ H) as [Hk|Hk]; rewrite Hk in Hc. }
  intros dir. apply precedes_bind.
  { intros i j x y _ _ Hj Hc. unfold is_copy in Hc.
    assert (y ∈ (Early.manifest w dir).1) as H by (apply list_elem_of_lookup; by exists j).
    by destruct (early_manifest_kind _ _ _ H) as [Hk|[Hk|[Hk|Hk]]]; rewrite Hk in Hc. }
  2: { intros e H Hc. unfold is_copy in Hc.
       by destruct (early_manifest_kind _ _ _ H) as [Hk|[Hk|[Hk|Hk]]]; rewrite Hk in Hc. }
  intros obj. apply precedes_none. intros e H [args ->].
  apply bind_elem in H as [H|(obj' & _ & H)].
  - by destruct (early_copy_kind _ _ _ H) as [Hk|Hk].
  - simpl in H. repeat (apply elem_of_cons in H as [[=]|H]). by apply not_elem_of_nil in H.
Qed.

End Order.
